(** * The adaptive challenge-response gateway of znapfile

    A shallow embedding of the security core of the backend:
    - [backend/app/core/defense.py]          (AdaptiveSecurityResponse)
    - [backend/app/core/server_pow.py]       (ServerSidePoW)
    - [backend/app/core/download_tokens.py]  (DownloadTokenManager)
    - [backend/app/core/captcha.py]          (MathCaptcha)
    - [backend/app/api/v1/endpoints/secure_download.py] (verify_file_password,
      download_with_token, initiate_secure_download)
    - [backend/app/core/audit_log.py]        (SecurityAuditor.log_event)
    - [backend/app/api/v1/endpoints/auth.py] (login)
    - [backend/app/core/security.py]         (create_access_token)
    - [backend/app/core/abuse_prevention.py] (AbuseDetector.check_bandwidth_abuse,
      check_download_pattern_abuse)

    Python [str] values are modelled as [string] holding the UTF-8 bytes of
    the text, so that [s.encode()] is the identity on the carried bytes.
    Python [int] is [Z].  Clock readings ([time.time()], a float) are exact
    rationals [Q]. *)

From Stdlib Require Import ZArith QArith Qround Lia Ascii String.
From stdpp Require Import gmap strings list fin_maps pretty.

Local Open Scope Z_scope.

(** ** hashlib.sha256 (FIPS 180-4) *)

Module Sha256.

Definition mask32 : Z := 0xFFFFFFFF.
Definition wrap (x : Z) : Z := Z.land x mask32.
Definition add32 (x y : Z) : Z := wrap (x + y).
Definition rotr (n x : Z) : Z :=
  Z.lor (Z.shiftr x n) (wrap (Z.shiftl x (32 - n))).
Definition not32 (x : Z) : Z := Z.lxor x mask32.

Definition ch (x y z : Z) : Z := Z.lxor (Z.land x y) (Z.land (not32 x) z).
Definition maj (x y z : Z) : Z :=
  Z.lxor (Z.lxor (Z.land x y) (Z.land x z)) (Z.land y z).
Definition bsig0 (x : Z) : Z := Z.lxor (Z.lxor (rotr 2 x) (rotr 13 x)) (rotr 22 x).
Definition bsig1 (x : Z) : Z := Z.lxor (Z.lxor (rotr 6 x) (rotr 11 x)) (rotr 25 x).
Definition ssig0 (x : Z) : Z := Z.lxor (Z.lxor (rotr 7 x) (rotr 18 x)) (Z.shiftr x 3).
Definition ssig1 (x : Z) : Z := Z.lxor (Z.lxor (rotr 17 x) (rotr 19 x)) (Z.shiftr x 10).

(** The constants of FIPS 180-4, section 4.2.2 and 5.3.3: the first 32
    bits of the fractional parts of the cube roots of the first 64 primes,
    and of the square roots of the first 8. *)
Definition primes : list Z :=
  [ 2; 3; 5; 7; 11; 13; 17; 19; 23; 29; 31; 37; 41; 43; 47; 53;
    59; 61; 67; 71; 73; 79; 83; 89; 97; 101; 103; 107; 109; 113; 127; 131;
    137; 139; 149; 151; 157; 163; 167; 173; 179; 181; 191; 193; 197; 199; 211; 223;
    227; 229; 233; 239; 241; 251; 257; 263; 269; 271; 277; 281; 283; 293; 307; 311 ].

(** The integer cube root of [n], found bit by bit from [bits] down. *)
Fixpoint cube_root (bits : nat) (n r : Z) : Z :=
  match bits with
  | O => r
  | S b =>
      let c := r + 2 ^ Z.of_nat b in
      cube_root b n (if c * c * c <=? n then c else r)
  end.

Definition round_constants : list Z :=
  Eval vm_compute in
    List.map (fun p => wrap (cube_root 35 (p * 2 ^ 96) 0)) primes.

Definition initial_hash : list Z :=
  Eval vm_compute in
    List.map (fun p => wrap (Z.sqrt (p * 2 ^ 64))) (take 8 primes).

(** Padding: a [0x80] byte, zero bytes up to 56 modulo 64, then the bit
    length of the message as a 64-bit big-endian integer. *)
Definition be_bytes (width : nat) (x : Z) : list Z :=
  List.map (fun i => Z.land (Z.shiftr x (8 * Z.of_nat i)) 0xFF)
           (rev (seq 0 width)).

Definition pad (msg : list Z) : list Z :=
  let len := Z.of_nat (length msg) in
  let zeros := Z.to_nat ((55 - len) mod 64) in
  msg ++ [0x80] ++ List.repeat 0 zeros ++ be_bytes 8 (8 * len).

Fixpoint be_words (bytes : list Z) : list Z :=
  match bytes with
  | a :: b :: c :: d :: rest =>
      (Z.shiftl a 24 + Z.shiftl b 16 + Z.shiftl c 8 + d) :: be_words rest
  | _ => []
  end.

Fixpoint chunks (count : nat) (words : list Z) : list (list Z) :=
  match count with
  | O => []
  | S count' => take 16 words :: chunks count' (drop 16 words)
  end.

(** Message schedule, kept newest-first while it grows:
    W[t] = ssig1 W[t-2] + W[t-7] + ssig0 W[t-15] + W[t-16]. *)
Fixpoint extend (steps : nat) (rev_w : list Z) : list Z :=
  match steps with
  | O => rev_w
  | S steps' =>
      let at_ i := nth i rev_w 0 in
      let w := add32 (add32 (ssig1 (at_ 1%nat)) (at_ 6%nat))
                     (add32 (ssig0 (at_ 14%nat)) (at_ 15%nat)) in
      extend steps' (w :: rev_w)
  end.

Definition schedule (block : list Z) : list Z := rev (extend 48 (rev block)).

Record regs := Regs { ra : Z; rb : Z; rc : Z; rd : Z; re : Z; rf : Z; rg : Z; rh : Z }.

Definition round (r : regs) (kw : Z * Z) : regs :=
  let t1 := add32 (add32 (add32 (rh r) (bsig1 (re r)))
                         (add32 (ch (re r) (rf r) (rg r)) (fst kw))) (snd kw) in
  let t2 := add32 (bsig0 (ra r)) (maj (ra r) (rb r) (rc r)) in
  Regs (add32 t1 t2) (ra r) (rb r) (rc r) (add32 (rd r) t1) (re r) (rf r) (rg r).

Definition regs_of (h : list Z) : regs :=
  let at_ i := nth i h 0 in
  Regs (at_ 0%nat) (at_ 1%nat) (at_ 2%nat) (at_ 3%nat)
       (at_ 4%nat) (at_ 5%nat) (at_ 6%nat) (at_ 7%nat).

Definition list_of (r : regs) : list Z :=
  [ra r; rb r; rc r; rd r; re r; rf r; rg r; rh r].

Definition compress (h : list Z) (block : list Z) : list Z :=
  let r := fold_left round (combine round_constants (schedule block)) (regs_of h) in
  List.map (fun p => add32 (fst p) (snd p)) (combine h (list_of r)).

Definition digest_words (msg : list Z) : list Z :=
  let padded := pad msg in
  fold_left compress (chunks (length padded / 64) (be_words padded)) initial_hash.

Definition hex_digit (x : Z) : ascii :=
  if x <? 10 then ascii_of_nat (Z.to_nat (48 + x))
  else ascii_of_nat (Z.to_nat (87 + x)).

Definition hex_word (x : Z) : string :=
  fold_right (fun i acc => String (hex_digit (Z.land (Z.shiftr x (4 * Z.of_nat i)) 0xF)) acc)
             EmptyString (rev (seq 0 8)).

Definition bytes_of_string (s : string) : list Z :=
  List.map (fun c => Z.of_nat (nat_of_ascii c)) (list_ascii_of_string s).

(** [hashlib.sha256(s.encode()).hexdigest()] *)
Definition hexdigest (s : string) : string :=
  fold_right String.append EmptyString
             (List.map hex_word (digest_words (bytes_of_string s))).

End Sha256.

(** [hmac.new(key, msg, hashlib.sha256).hexdigest()] (RFC 2104), used by
    [ServerSidePoW] to sign challenges and access tokens. *)
Module Hmac.

Definition block_size : nat := 64.

Definition word_bytes (w : Z) : list Z := Sha256.be_bytes 4 w.

Definition digest_bytes (msg : list Z) : list Z :=
  List.concat (List.map word_bytes (Sha256.digest_words msg)).

Definition normalise_key (key : list Z) : list Z :=
  let k := if (block_size <? length key)%nat then digest_bytes key else key in
  k ++ List.repeat 0 (block_size - length k)%nat.

Definition hexdigest (key msg : string) : string :=
  let k := normalise_key (Sha256.bytes_of_string key) in
  let inner := List.map (Z.lxor 0x36) k ++ Sha256.bytes_of_string msg in
  let outer := List.map (Z.lxor 0x5c) k ++ digest_bytes inner in
  fold_right String.append EmptyString
             (List.map Sha256.hex_word (Sha256.digest_words outer)).

End Hmac.

(** ** The Python operations the modelled code relies on *)

Module Py.

(** Truthiness of a [str]: only the empty string is falsy. *)
Definition truthy (s : string) : bool :=
  match s with EmptyString => false | String _ _ => true end.

(** Truthiness of an [Optional[str]] argument. *)
Definition truthy_opt (o : option string) : bool :=
  match o with None => false | Some s => truthy s end.

(** [s.startswith(p)] *)
Definition startswith (s p : string) : bool := String.prefix p s.

(** [c * n] for a one-character string [c]; empty when [n <= 0]. *)
Definition str_mul (c : ascii) (n : Z) : string :=
  string_of_list_ascii (List.repeat c (Z.to_nat n)).

(** [s[:n]] for [n >= 0] *)
Definition str_take (n : nat) (s : string) : string := String.substring 0 n s.

(** [s.lower()] on the ASCII letters; other bytes are left as they are. *)
Definition lower_char (c : ascii) : ascii :=
  let n := nat_of_ascii c in
  if ((65 <=? n) && (n <=? 90))%nat then ascii_of_nat (n + 32) else c.

Fixpoint lower (s : string) : string :=
  match s with
  | EmptyString => EmptyString
  | String c rest => String (lower_char c) (lower rest)
  end.

(** [s.strip()] for the ASCII white space (tab, LF, VT, FF, CR, FS..US,
    space). *)
Definition is_space (c : ascii) : bool :=
  let n := nat_of_ascii c in
  ((9 <=? n) && (n <=? 13) || (28 <=? n) && (n <=? 32))%nat.

Fixpoint lstrip (s : string) : string :=
  match s with
  | EmptyString => EmptyString
  | String c rest => if is_space c then lstrip rest else s
  end.

Fixpoint rstrip (s : string) : string :=
  match s with
  | EmptyString => EmptyString
  | String c rest =>
      match rstrip rest with
      | EmptyString => if is_space c then EmptyString else String c EmptyString
      | kept => String c kept
      end
  end.

Definition strip (s : string) : string := rstrip (lstrip s).

(** [str(n)] for an [int] *)
Definition str_of_int (n : Z) : string := pretty n.

(** [int(x)] for a float: truncation towards zero. *)
Definition int_of_float (q : Q) : Z :=
  if Qle_bool 0 q then Qfloor q else Qceiling q.

(** [b ** e] for integers: an [int] when [e >= 0], else the float
    [1 / b ** -e]. *)
Definition pow (b e : Z) : Q :=
  if 0 <=? e then inject_Z (b ^ e) else / inject_Z (b ^ (- e)).

(** [a > b] on floats *)
Definition float_gt (a b : Q) : bool := negb (Qle_bool a b).

End Py.

(** ** The shared expiring store (Redis)

    A stored value is one of the texts this code writes: the decimal text of
    an integer (the counters kept by INCR/DECR and the flag ["1"]) or the
    [json.dumps] of one of the dictionaries below; [json.loads] gives the
    dictionary back.  Time-to-live arguments are carried by the commands but
    expiry itself is not part of a command: a key may vanish between two
    calls, which the properties state as a smaller store. *)

Module Redis.

Inductive value :=
| VInt (n : Z)
    (** the text of integer [n] *)
| VMath (answer : string)
    (** [{"answer": answer, "type": "math"}] *)
| VPow (challenge : string) (difficulty : Z) (created : Q)
    (** [{"challenge": .., "difficulty": .., "type": "pow", "created": ..}] *)
| VServerPow (ip resource nonce : string) (timestamp difficulty : Z) (used : bool)
    (** [{'ip', 'resource', 'nonce', 'timestamp', 'difficulty', 'used'}] *)
| VPowToken (ip resource : string) (timestamp : Z).
    (** [{'ip', 'resource', 'timestamp'}] *)

Record client := Client { available : bool; data : gmap string value }.

Inductive exn :=
| ConnectionError   (** the store cannot be reached *)
| ResponseError     (** INCR/DECR on a value that is not an integer *)
| ValueError        (** [int()] of a text that is not an integer *)
| KeyError          (** a dictionary without the key *)
| TypeError.        (** subscript of a value that is not a dictionary *)

Inductive outcome (A : Type) :=
| Return (a : A)
| Raise (e : exn).
Arguments Return {A} a.
Arguments Raise {A} e.

(** A command reads and updates the client; a raised exception keeps the
    updates made before it. *)
Definition io (A : Type) : Type := client -> outcome A * client.

Definition ret {A} (a : A) : io A := fun c => (Return a, c).
Definition raise {A} (e : exn) : io A := fun c => (Raise e, c).
Definition bind {A B} (m : io A) (k : A -> io B) : io B :=
  fun c => match m c with
           | (Return a, c') => k a c'
           | (Raise e, c') => (Raise e, c')
           end.
(** [try: m except Exception: h] *)
Definition catch {A} (m : io A) (h : io A) : io A :=
  fun c => match m c with
           | (Return a, c') => (Return a, c')
           | (Raise _, c') => h c'
           end.

Definition lift {A} (o : outcome A) : io A := fun c => (o, c).

Definition connected {A} (f : gmap string value -> A * gmap string value) : io A :=
  fun c => if available c
           then let '(a, d) := f (data c) in (Return a, Client true d)
           else (Raise ConnectionError, c).

Definition get (k : string) : io (option value) :=
  connected (fun d => (d !! k, d)).
Definition setex (k : string) (ttl : Z) (v : value) : io unit :=
  connected (fun d => (tt, <[k := v]> d)).
Definition delete (k : string) : io unit :=
  connected (fun d => (tt, base.delete k d)).

(** Commands queued on a pipeline and run by [execute]. *)
Inductive command :=
| Incr (k : string)
| Decr (k : string)
| Expire (k : string) (ttl : Z).

Definition add_to (k : string) (delta : Z) (d : gmap string value)
  : bool * gmap string value :=
  match d !! k with
  | None => (true, <[k := VInt delta]> d)
  | Some (VInt n) => (true, <[k := VInt (n + delta)]> d)
  | Some _ => (false, d)
  end.

Definition run (cmd : command) (d : gmap string value) : bool * gmap string value :=
  match cmd with
  | Incr k => add_to k 1 d
  | Decr k => add_to k (-1) d
  | Expire _ _ => (true, d)
  end.

(** [pipe.execute()]: every queued command runs, in order; afterwards the
    first failure, if any, is raised. *)
Definition execute (cmds : list command) : io unit :=
  fun c =>
    if available c then
      let '(ok, d) :=
        fold_left (fun acc cmd => let '(ok', d') := run cmd (snd acc) in
                                  (fst acc && ok', d'))
                  cmds (true, data c) in
      (if ok then Return tt else Raise ResponseError, Client true d)
    else (Raise ConnectionError, c).

(** A command sent on its own, outside a pipeline. *)
Definition send (cmd : command) : io unit :=
  fun c =>
    if available c then
      let '(ok, d) := run cmd (data c) in
      (if ok then Return tt else Raise ResponseError, Client true d)
    else (Raise ConnectionError, c).

(** [int(v)] of a value read from the store *)
Definition int_of (v : value) : outcome Z :=
  match v with
  | VInt n => Return n
  | _ => Raise ValueError
  end.

End Redis.

Notation "'do' x <- m ; k" := (Redis.bind m (fun x => k))
  (at level 10, x name, m at level 100, k at level 200, only parsing).
Notation "'do' ' p <- m ; k" := (Redis.bind m (fun x => match x with p => k end))
  (at level 10, p pattern, m at level 100, k at level 200, only parsing).

(** ** defense.py: AdaptiveSecurityResponse *)

Module Defense.
Import Redis.

Definition challenge_ttl : Z := 60.

(** The values of the ["action"] key of [self.levels]. *)
Inductive action_name :=
| none | simple_math | proof_of_work | temp_block | permanent_block.

Record level := Level { attempts : Z; action : action_name; difficulty : Z }.

Definition levels : list level :=
  [ Level 0 none 0;
    Level 3 simple_math 1;
    Level 5 proof_of_work 2;
    Level 10 proof_of_work 3;
    Level 15 proof_of_work 4;
    Level 20 temp_block 300;
    Level 30 temp_block 3600;
    Level 50 permanent_block 0 ].

(** The dictionary returned by [get_threat_level]. *)
Inductive threat :=
| Blocked (attempts : Z)
    (** [{"action": "blocked", "attempts": attempts}] *)
| Required (action : action_name) (difficulty attempts : Z).
    (** [{"action": .., "difficulty": .., "attempts": ..}] *)

Definition threat_attempts (t : threat) : Z :=
  match t with Blocked a => a | Required _ _ a => a end.

(** The loop over [reversed(self.levels)] with its fall-through return. *)
Definition find_level (failed : Z) : threat :=
  match List.find (fun l => failed >=? attempts l) (rev levels) with
  | Some l => Required (action l) (difficulty l) failed
  | None => Required none 0 0
  end.

(** [if x: attempts = max(attempts, int(x))] *)
Definition max_with (current : Z) (read : option value) : io Z :=
  match read with
  | Some v => do n <- lift (int_of v); ret (Z.max current n)
  | None => ret current
  end.

Definition get_threat_level (identifier : string) : io threat :=
  let attempts := 0 in
  do ip_attempts <- get ("asr:attempts:ip:" +:+ identifier);
  do attempts <- max_with attempts ip_attempts;
  do email_attempts <- get ("asr:attempts:email:" +:+ identifier);
  do attempts <- max_with attempts email_attempts;
  do fp_attempts <- get ("asr:attempts:fp:" +:+ identifier);
  do attempts <- max_with attempts fp_attempts;
  do is_blocked <- get ("asr:blocked:" +:+ identifier);
  match is_blocked with
  | Some _ => ret (Blocked attempts)
  | None => ret (find_level attempts)
  end.

(** [hashlib.sha256(email.lower().encode()).hexdigest()[:16]] *)
Definition email_hash (email : string) : string :=
  Py.str_take 16 (Sha256.hexdigest (Py.lower email)).

(** The commands queued for an optional identifier ([if x:]). *)
Definition when_given (x : option string) (cmds : string -> list command)
  : list command :=
  match x with
  | Some s => if Py.truthy s then cmds s else []
  | None => []
  end.

Definition record_failure (ip : string) (email fingerprint : option string)
  : io unit :=
  let pipe :=
    [ Incr ("asr:attempts:ip:" +:+ ip); Expire ("asr:attempts:ip:" +:+ ip) 86400 ]
    ++ when_given email (fun e =>
         [ Incr ("asr:attempts:email:" +:+ email_hash e);
           Expire ("asr:attempts:email:" +:+ email_hash e) 86400 ])
    ++ when_given fingerprint (fun f =>
         [ Incr ("asr:attempts:fp:" +:+ f); Expire ("asr:attempts:fp:" +:+ f) 86400 ]) in
  do _ <- execute pipe;
  do threat_level <- get_threat_level ip;
  match threat_level with
  | Required permanent_block _ _ =>
      setex ("asr:blocked:" +:+ ip) (86400 * 30) (VInt 1)
  | _ => ret tt
  end.

(** One turn of the loop of [record_success]: the key is skipped when it
    is [None], and DECR is queued only for a counter above zero. *)
Definition forgive (pipe : list command) (key : option string)
  : io (list command) :=
  match key with
  | None => ret pipe
  | Some k =>
      do current <- get k;
      match current with
      | None => ret pipe
      | Some v =>
          do n <- lift (int_of v);
          if n >? 0 then ret (pipe ++ [Decr k]) else ret pipe
      end
  end.

Definition key_when_given (x : option string) (key : string -> string)
  : option string :=
  match x with
  | Some s => if Py.truthy s then Some (key s) else None
  | None => None
  end.

(** One call, run with no other call on the store between its awaits;
    [Overlap] below interleaves several. *)
Definition record_success (ip : string) (email fingerprint : option string)
  : io unit :=
  let keys :=
    [ Some ("asr:attempts:ip:" +:+ ip);
      key_when_given email (fun e => "asr:attempts:email:" +:+ email_hash e);
      key_when_given fingerprint (fun f => "asr:attempts:fp:" +:+ f) ] in
  do pipe <- fold_left (fun acc key => do p <- acc; forgive p key) keys (ret []);
  execute pipe.

(** What [create_challenge] draws from [secrets] and the clock. *)
Record draws := Draws {
  randbelow_a : Z;       (** [secrets.randbelow(10)] *)
  randbelow_b : Z;       (** [secrets.randbelow(10)] *)
  token_16 : string;     (** [secrets.token_urlsafe(16)] *)
  token_32 : string;     (** [secrets.token_urlsafe(32)] *)
  clock : Q              (** [time.time()] *)
}.

Inductive challenge :=
| NoChallenge
    (** [{"type": "none", "challenge": None}] *)
| MathChallenge (challenge_id question : string) (difficulty : Z)
| PowChallenge (challenge_id challenge : string) (difficulty : Z)
    (** with ["algorithm": "sha256"] *)
| TempBlock (retry_after : Z) (message : string).

Definition create_challenge (identifier : string) (r : draws)
  : io (option challenge) :=
  do threat <- get_threat_level identifier;
  match threat with
  | Blocked _ => ret None
  | Required none _ _ => ret (Some NoChallenge)
  | Required simple_math level_difficulty _ =>
      let a := randbelow_a r + 1 in
      let b := randbelow_b r + 1 in
      let answer := a + b in
      let challenge_id := token_16 r in
      do _ <- setex ("asr:challenge:" +:+ challenge_id) challenge_ttl
                    (VMath (Py.str_of_int answer));
      ret (Some (MathChallenge challenge_id
                   ("What is " +:+ Py.str_of_int a +:+ " + " +:+ Py.str_of_int b +:+ "?")
                   level_difficulty))
  | Required proof_of_work level_difficulty _ =>
      let challenge := token_32 r in
      let challenge_id := token_16 r in
      do _ <- setex ("asr:challenge:" +:+ challenge_id) challenge_ttl
                    (VPow challenge level_difficulty (clock r));
      ret (Some (PowChallenge challenge_id challenge level_difficulty))
  | Required temp_block level_difficulty _ =>
      ret (Some (TempBlock level_difficulty
                   ("Too many failed attempts. Try again in "
                    +:+ Py.str_of_int level_difficulty +:+ " seconds.")))
  | Required permanent_block _ _ => ret None
  end.

(** The body of the [try] block of [verify_challenge], after
    [json.loads]: the record is deleted first, then checked.  A value
    that is not a dictionary with a ["type"] key raises on
    [data["type"]]. *)
Definition check_and_consume (key solution : string) (data : value) : io bool :=
  do _ <- delete key;
  match data with
  | VMath answer => ret (String.eqb solution answer)
  | VPow challenge difficulty _ =>
      let hash_input := challenge +:+ solution in
      let hash_output := Sha256.hexdigest hash_input in
      let required_prefix := Py.str_mul "0" difficulty in
      ret (Py.startswith hash_output required_prefix)
  | VInt _ => raise TypeError
  | VServerPow _ _ _ _ _ _ | VPowToken _ _ _ => raise KeyError
  end.

Definition verify_challenge (challenge_id solution : string) : io bool :=
  if negb (Py.truthy challenge_id) || negb (Py.truthy solution) then ret false
  else
    do challenge_data <- get ("asr:challenge:" +:+ challenge_id);
    match challenge_data with
    | None => ret false
    | Some data =>
        catch (check_and_consume ("asr:challenge:" +:+ challenge_id) solution data)
              (ret false)
    end.

End Defense.

(** ** server_pow.py: ServerSidePoW *)

Module ServerPow.
Import Redis.

Definition challenge_ttl : Z := 300.

(** The dictionary handed to the client by [create_challenge]. *)
Record challenge := Challenge {
  challenge_id : string;
  nonce : string;
  difficulty : Z;
  target : string;
  signature : string;
  expires_in : Z
}.

(** The fields of a stored challenge, read after [json.loads]:
    ['used'] is the first key looked up. *)
Definition loads (v : value)
  : outcome (string * string * string * Z * Z * bool) :=
  match v with
  | VServerPow ip resource nonce timestamp difficulty used =>
      Return (ip, resource, nonce, timestamp, difficulty, used)
  | VInt _ => Raise TypeError
  | VMath _ | VPow _ _ _ | VPowToken _ _ _ => Raise KeyError
  end.

Section Service.
(** [settings.get_secret_key] *)
Variable secret_key : string.

Definition _sign_challenge (challenge_id nonce : string) (difficulty : Z) : string :=
  let message := challenge_id +:+ ":" +:+ nonce +:+ ":" +:+ Py.str_of_int difficulty in
  Hmac.hexdigest secret_key message.

Definition _get_difficulty_for_ip (ip : string) : io Z :=
  do failures <- get ("failures:" +:+ ip);
  match failures with
  | Some v =>
      do failure_count <- lift (int_of v);
      if failure_count >? 50 then ret 6
      else if failure_count >? 20 then ret 5
      else if failure_count >? 10 then ret 4
      else ret 3
  | None => ret 3
  end.

Definition record_failed_attempt (ip : string) : io unit :=
  let key := "failures:" +:+ ip in
  do _ <- send (Incr key);
  send (Expire key 3600).

Definition _generate_access_token (ip resource : string) (now : Q) : io string :=
  let timestamp := Py.int_of_float now in
  let token_data := ip +:+ ":" +:+ resource +:+ ":" +:+ Py.str_of_int timestamp in
  let signature := Hmac.hexdigest secret_key token_data in
  let token := Py.str_of_int timestamp +:+ ":" +:+ signature in
  do _ <- setex ("pow_token:" +:+ token) 300 (VPowToken ip resource timestamp);
  ret token.

(** [token_hex_id] and [token_hex_nonce] are the two draws of
    [secrets.token_hex(16)]. *)
Definition create_challenge (ip resource : string)
    (token_hex_id token_hex_nonce : string) (now : Q)
  : io (string * challenge) :=
  let challenge_id := token_hex_id in
  let nonce := token_hex_nonce in
  let timestamp := Py.int_of_float now in
  do difficulty <- _get_difficulty_for_ip ip;
  do _ <- setex ("pow:" +:+ challenge_id) challenge_ttl
                (VServerPow ip resource nonce timestamp difficulty false);
  let signature := _sign_challenge challenge_id nonce difficulty in
  ret (challenge_id,
       Challenge challenge_id nonce difficulty (Py.str_mul "0" difficulty)
                 signature challenge_ttl).

(** [now] is the clock reading of the expiry check, [now_token] the one
    taken when the access token is generated. *)
Definition verify_challenge (challenge_id solution ip resource : string)
    (now now_token : Q) : io (bool * option string) :=
  do data <- get ("pow:" +:+ challenge_id);
  match data with
  | None => ret (false, None)
  | Some v =>
      do '(stored_ip, stored_resource, nonce, timestamp, difficulty, used)
         <- lift (loads v);
      if used then ret (false, None)
      else if negb (String.eqb stored_ip ip) then ret (false, None)
      else if negb (String.eqb stored_resource resource) then ret (false, None)
      else if Py.float_gt (now - inject_Z timestamp) (inject_Z challenge_ttl)
      then ret (false, None)
      else
        let attempt := nonce +:+ ":" +:+ solution in
        let hash_result := Sha256.hexdigest attempt in
        let is_valid := Py.startswith hash_result (Py.str_mul "0" difficulty) in
        do _ <- (if is_valid
                 then setex ("pow:" +:+ challenge_id) 60
                            (VServerPow stored_ip stored_resource nonce
                                        timestamp difficulty true)
                 else ret tt);
        if is_valid then
          do access_token <- _generate_access_token ip resource now_token;
          ret (true, Some access_token)
        else ret (false, None)
  end.

(** The service built without a client ([self.redis] is [None]) stores
    nothing and verifies nothing. *)
Definition verify_challenge_on (redis : option client)
    (challenge_id solution ip resource : string) (now now_token : Q)
  : outcome (bool * option string) * option client :=
  match redis with
  | Some c =>
      let '(r, c') := verify_challenge challenge_id solution ip resource
                                       now now_token c in
      (r, Some c')
  | None => (Return (false, None), None)
  end.

End Service.

End ServerPow.

(** ** download_tokens.py: DownloadTokenManager *)

Module DownloadTokens.

Definition token_expiry : Q := 60.

Record token_data := TokenData {
  file_id : string;
  user_ip : string;
  password_verified : bool;
  created_at : Q;
  used : bool
}.

(** [self.tokens], keyed by the hex digest of the token. *)
Abbreviation tokens := (gmap string token_data).

Definition stale (current_time : Q) (d : token_data) : bool :=
  used d || Py.float_gt (current_time - created_at d) token_expiry.

Definition _cleanup_expired (current_time : Q) (t : tokens) : tokens :=
  filter (fun kv => stale current_time (snd kv) = false) t.

(** [token] is the draw of [secrets.token_urlsafe(32)]; [now] is the
    reading stored in ['created_at'], [now_cleanup] the later one taken by
    [_cleanup_expired]. *)
Definition create_download_token (token : string)
    (file_id user_ip : string) (password_verified : bool)
    (now now_cleanup : Q) (t : tokens) : string * tokens :=
  let token_hash := Sha256.hexdigest token in
  let t := <[token_hash := TokenData file_id user_ip password_verified now false]> t in
  (token, _cleanup_expired now_cleanup t).

Definition verify_download_token (token file_id' user_ip' : string) (now : Q)
    (t : tokens) : bool * tokens :=
  if negb (Py.truthy token) then (false, t)
  else
    let token_hash := Sha256.hexdigest token in
    match t !! token_hash with
    | None => (false, t)
    | Some d =>
        if used d then (false, t)
        else if Py.float_gt (now - created_at d) token_expiry
        then (false, delete token_hash t)
        else if negb (String.eqb (file_id d) file_id') then (false, t)
        else if negb (String.eqb (user_ip d) user_ip') then (false, t)
        else
          (true, <[token_hash := TokenData (file_id d) (user_ip d)
                                           (password_verified d) (created_at d) true]> t)
    end.

Definition get_token_data (token : string) (t : tokens) : option token_data :=
  if negb (Py.truthy token) then None else t !! Sha256.hexdigest token.

End DownloadTokens.

(** ** captcha.py: MathCaptcha *)

Module Captcha.

Definition captcha_expiry : Q := 300.

Record captcha_data := CaptchaData { answer : string; created_at : Q }.

(** [self.captcha_store] *)
Abbreviation store := (gmap string captcha_data).

Inductive operation := Plus | Minus | Times.

(** The symbol of [Times] is the five bytes the source file holds. *)
Definition op_symbol (op : operation) : string :=
  match op with
  | Plus => "+"
  | Minus => "-"
  | Times => string_of_list_ascii
               (List.map ascii_of_nat [195; 131; 226; 128; 148]%nat)
  end.

Definition op_func (op : operation) (x y : Z) : Z :=
  match op with
  | Plus => x + y
  | Minus => x - y
  | Times => x * y
  end.

(** What [generate_captcha] draws from [random] and the clock.  The
    captcha id hashes the text of a clock reading, which is taken as it
    is printed. *)
Record draws := Draws {
  randint_a : Z;            (** [random.randint(1, 20)] *)
  randint_b : Z;            (** [random.randint(1, 20)] *)
  choice : operation;       (** [random.choice(operations)] *)
  clock_text : string;      (** [f"{time.time()}"] *)
  clock_created : Q;        (** [time.time()] stored in ['created_at'] *)
  clock_cleanup : Q         (** [time.time()] of [_cleanup_expired] *)
}.

Definition _cleanup_expired (current_time : Q) (st : store) : store :=
  filter (fun kv => Py.float_gt (current_time - created_at (snd kv))
                                captcha_expiry = false) st.

Section Service.
Variable secret_key : string.

Definition generate_captcha (r : draws) (st : store) : (string * string) * store :=
  let a := randint_a r in
  let b := randint_b r in
  let op := choice r in
  let '(a, b) :=
    match op with
    | Minus => if a <? b then (b, a) else (a, b)
    | _ => (a, b)
    end in
  let result := op_func op a b in
  let question :=
    "What is " +:+ Py.str_of_int a +:+ " " +:+ op_symbol op +:+ " "
    +:+ Py.str_of_int b +:+ "?" in
  let captcha_id :=
    Py.str_take 16
      (Sha256.hexdigest (Py.str_of_int result +:+ clock_text r +:+ secret_key)) in
  let st := <[captcha_id := CaptchaData (Py.str_of_int result) (clock_created r)]> st in
  ((captcha_id, question), _cleanup_expired (clock_cleanup r) st).

End Service.

Definition verify_captcha (captcha_id user_input : string) (now : Q) (st : store)
  : bool * store :=
  if negb (Py.truthy captcha_id) || negb (Py.truthy user_input) then (false, st)
  else
    match st !! captcha_id with
    | None => (false, st)
    | Some captcha =>
        if Py.float_gt (now - created_at captcha) captcha_expiry
        then (false, delete captcha_id st)
        else
          let is_valid := String.eqb (answer captcha) (Py.strip user_input) in
          (is_valid, delete captcha_id st)
    end.

End Captcha.

(** ** abuse_prevention.py: AbuseDetector.check_bandwidth_abuse *)

Module AbusePrevention.

Inductive UserTier := FREE | PRO | MAX.

(** A float threshold: a finite number or [float('inf')]. *)
Inductive limit := Finite (q : Q) | Infinity.

(** [THRESHOLDS["bandwidth_multiplier"]] *)
Definition bandwidth_multiplier (tier : UserTier) : limit :=
  match tier with
  | FREE => Infinity
  | PRO => Infinity
  | MAX => Infinity
  end.

(** [x > threshold] for a finite float [x] *)
Definition exceeds (x : Q) (threshold : limit) : bool :=
  match threshold with
  | Finite q => Py.float_gt x q
  | Infinity => false
  end.

(** The columns of [File] the check reads.  Both are 64-bit integer
    columns, so the float quotient [bandwidth_used / file_size] is finite;
    it is carried as the exact rational, which compares with the
    thresholds of the table as the float does. *)
Record File := { bandwidth_used : Z; file_size : Z }.

(** The reason text
    [f"Bandwidth abuse: File downloaded {multiplier:.0f}x its size (limit: {threshold}x)"],
    kept as the two numbers it prints. *)
Inductive reason := BandwidthAbuse (multiplier : Q) (threshold : limit).

Inductive checked :=
| Result (ok : bool) (why : option reason)
| ZeroDivisionError.

Definition check_bandwidth_abuse (file : File) (user_tier : UserTier) : checked :=
  if bandwidth_used file =? 0 then Result true None
  else if file_size file =? 0 then ZeroDivisionError
  else
    let multiplier := (inject_Z (bandwidth_used file) / inject_Z (file_size file))%Q in
    let threshold := bandwidth_multiplier user_tier in
    if exceeds multiplier threshold
    then Result false (Some (BandwidthAbuse multiplier threshold))
    else Result true None.

End AbusePrevention.

(** ** audit_log.py: what is bound to the [resource_id] of an audit row *)

Module AuditLogger.

(** The value a handler passes as [resource_id]: a [str], or [file.id],
    the [uuid.UUID] the [UUID()] column of [File] loads, given here by its
    text.  The column [resource_id] is a [String(100)], which converts
    nothing on the way in, and the driver takes no [uuid.UUID] for a text
    parameter: [db.commit()] raises and the row is not written. *)
Inductive bound := Str (s : string) | Uuid (text : string).

(** The text stored for [resource_id], or [None] when the INSERT fails. *)
Definition stored (resource_id : option bound) : option (option string) :=
  match resource_id with
  | None => Some None
  | Some (Str s) => Some (Some s)
  | Some (Uuid _) => None
  end.

End AuditLogger.

(** ** secure_download.py: verify_file_password *)

Module SecureDownload.

(** The columns of [File] the handler reads and writes; [id] holds
    [str(file.id)]. *)
Record File := MkFile {
  id : string;
  short_code : string;
  deleted : bool;
  password_hash : option string;
  max_password_attempts : option Z;
  failed_password_attempts : Z
}.

Inductive AuditEventType :=
| UNAUTHORIZED_ACCESS | CAPTCHA_FAILED | FILE_LOCKED
| PASSWORD_ATTEMPT_FAILED | FILE_DOWNLOAD.

Inductive detail_value := DStr (s : string) | DInt (n : Z) | DBool (b : bool).

(** A row written by [security_auditor.log_event]. *)
Record AuditLog := MkAuditLog {
  event_type : AuditEventType;
  ip_address : string;
  resource_id : option string;
  details : list (string * detail_value);
  severity : string
}.

(** What the handler works on: the [files] table by short code, the audit
    rows in the order written, and the two in-process services. *)
Record state := State {
  files : gmap string File;
  audit_logs : list AuditLog;
  captcha_store : Captcha.store;
  tokens : DownloadTokens.tokens
}.

(** [PasswordVerifyRequest] and [request.client.host] *)
Record request := Request {
  client_host : string;
  password : string;
  captcha_id : option string;
  captcha_answer : option string
}.

(** What one run of the handler draws from outside. *)
Record draws := Draws {
  captcha_draws : Captcha.draws;   (** for [generate_captcha] *)
  clock_verify : Q;                (** the reading of [verify_captcha] *)
  token_urlsafe : string;          (** [secrets.token_urlsafe(32)] *)
  clock_token : Q;                 (** ['created_at'] of the token *)
  clock_token_cleanup : Q          (** the reading of the token cleanup *)
}.

Inductive detail :=
| Text (message : string)
| CaptchaRequired (captcha_id captcha_question : string)
                  (attempts_remaining : Z) (error : option string).

Inductive response :=
| HTTPException (status_code : Z) (d : detail)
| PasswordVerifyResponse (download_token : string) (expires_in : Z)
| DBAPIError.
    (** the exception of a failed [db.commit()]: the handler does not
        catch it and the framework answers 500 *)

(** The outcome of a run: the response, the delay slept before it (if
    any, in seconds) and the state left behind. *)
Record run := Run { answer : response; slept : option Q; final : state }.

(** [security_auditor.log_event]: the row is added and committed; [None]
    when the commit raises, which leaves the tables as they were. *)
Definition log_event (event : AuditEventType) (ip : string)
    (resource : option AuditLogger.bound)
    (details : list (string * detail_value))
    (severity : string) (st : state) : option state :=
  match AuditLogger.stored resource with
  | Some resource_id =>
      Some (State (files st)
                  (audit_logs st ++ [MkAuditLog event ip resource_id details severity])
                  (captcha_store st) (tokens st))
  | None => None
  end.

(** [select(File).where(short_code == code).where(deleted == False)] *)
Definition select_file (code : string) (st : state) : option File :=
  match files st !! code with
  | Some f => if deleted f then None else Some f
  | None => None
  end.

(** [max - failed if max else 999] *)
Definition remaining (file : File) : Z :=
  match max_password_attempts file with
  | Some m => if m =? 0 then 999 else m - failed_password_attempts file
  | None => 999
  end.

(** [file.max_password_attempts and failed >= file.max_password_attempts] *)
Definition max_attempts_exceeded (file : File) : bool :=
  match max_password_attempts file with
  | Some m => negb (m =? 0) && (failed_password_attempts file >=? m)
  | None => false
  end.

Definition update_file (code : string) (file : File) (st : state) : state :=
  State (<[code := file]> (files st)) (audit_logs st) (captcha_store st) (tokens st).

Definition with_failed (file : File) (n : Z) : File :=
  MkFile (id file) (short_code file) (deleted file) (password_hash file)
         (max_password_attempts file) n.

Section Handler.
(** [settings.get_secret_key] and the bcrypt check
    [app.core.security.verify_password(plain, hashed)]. *)
Variable secret_key : string.
Variable verify_password : string -> string -> bool.

Definition new_captcha (r : draws) (st : state) : (string * string) * state :=
  let '(c, store) := Captcha.generate_captcha secret_key (captcha_draws r)
                                              (captcha_store st) in
  (c, State (files st) (audit_logs st) store (tokens st)).

(** The CAPTCHA gate (after 3 failed attempts): [inl] is the raised
    response, [inr] lets the request through. *)
Definition captcha_gate (code : string) (req : request) (r : draws)
    (file : File) (st : state) : (response * state) + state :=
  if failed_password_attempts file >=? 3 then
    if negb (Py.truthy_opt (captcha_id req)) || negb (Py.truthy_opt (captcha_answer req))
    then
      let '((cid, question), st) := new_captcha r st in
      inl (HTTPException 428 (CaptchaRequired cid question (remaining file) None), st)
    else
      let '(ok, store) :=
        Captcha.verify_captcha (default "" (captcha_id req))
                               (default "" (captcha_answer req))
                               (clock_verify r) (captcha_store st) in
      let st := State (files st) (audit_logs st) store (tokens st) in
      if ok then inr st
      else
        match log_event CAPTCHA_FAILED (client_host req)
                        (Some (AuditLogger.Uuid (id file)))
                        [("file_code", DStr code)] "warning" st with
        | Some st => inl (HTTPException 400 (Text "Invalid CAPTCHA answer"), st)
        | None => inl (DBAPIError, st)
        end
  else inr st.

(** The branch taken when the password does not verify: the counter is
    committed, then the audit row, then comes the delay. *)
Definition wrong_password (code : string) (req : request) (r : draws)
    (file : File) (st : state) : run :=
  let file := with_failed file (failed_password_attempts file + 1) in
  let st := update_file code file st in
  match log_event PASSWORD_ATTEMPT_FAILED (client_host req)
                  (Some (AuditLogger.Uuid (id file)))
                  [("attempts", DInt (failed_password_attempts file))]
                  "warning" st with
  | None => Run DBAPIError None st
  | Some st =>
      let delay := Py.pow 2 (Z.min (failed_password_attempts file) 5) in
      let attempts_remaining := remaining file in
      if failed_password_attempts file >=? 3 then
        let '((cid, question), st) := new_captcha r st in
        Run (HTTPException 428
               (CaptchaRequired cid question attempts_remaining
                                (Some "Incorrect password")))
            (Some delay) st
      else
        Run (HTTPException 401
               (Text ("Incorrect password. " +:+ Py.str_of_int attempts_remaining
                      +:+ " attempts remaining.")))
            (Some delay) st
  end.

(** The branch taken when the password verifies. *)
Definition right_password (code : string) (req : request) (r : draws)
    (file : File) (st : state) : run :=
  let file := with_failed file 0 in
  let st := update_file code file st in
  let '(download_token, toks) :=
    DownloadTokens.create_download_token (token_urlsafe r) (id file)
      (client_host req) true (clock_token r) (clock_token_cleanup r) (tokens st) in
  let st := State (files st) (audit_logs st) (captcha_store st) toks in
  match log_event FILE_DOWNLOAD (client_host req)
                  (Some (AuditLogger.Uuid (id file)))
                  [("password_verified", DBool true)] "info" st with
  | None => Run DBAPIError None st
  | Some st => Run (PasswordVerifyResponse download_token 60) None st
  end.

Definition verify_file_password (code : string) (req : request) (r : draws)
    (st : state) : run :=
  match select_file code st with
  | None =>
      match log_event UNAUTHORIZED_ACCESS (client_host req) None
                      [("reason", DStr "Invalid file code"); ("code", DStr code)]
                      "warning" st with
      | Some st => Run (HTTPException 404 (Text "File not found")) None st
      | None => Run DBAPIError None st
      end
  | Some file =>
      match password_hash file with
      | None => Run (HTTPException 400 (Text "File does not require password")) None st
      | Some hash =>
          if negb (Py.truthy hash)
          then Run (HTTPException 400 (Text "File does not require password")) None st
          else
            match captcha_gate code req r file st with
            | inl (raised, st) => Run raised None st
            | inr st =>
                if max_attempts_exceeded file then
                  match log_event FILE_LOCKED (client_host req)
                                  (Some (AuditLogger.Uuid (id file)))
                                  [("reason", DStr "Max password attempts exceeded")]
                                  "critical" st with
                  | Some st =>
                      Run (HTTPException 403
                             (Text "File is locked due to too many failed attempts"))
                          None st
                  | None => Run DBAPIError None st
                  end
                else if negb (verify_password (password req) hash)
                then wrong_password code req r file st
                else right_password code req r file st
            end
      end
  end.

End Handler.

End SecureDownload.

(** ** The notions the properties are stated with *)

Module Ladder.
Import Defense.

(** The restrictiveness order of the escalation ladder: none, then the
    arithmetic challenge, then proof of work (a higher difficulty is more
    restrictive), then the timed block (a longer one is more restrictive),
    then the permanent block. *)
Definition rank (a : action_name) : Z :=
  match a with
  | none => 0
  | simple_math => 1
  | proof_of_work => 2
  | temp_block => 3
  | permanent_block => 4
  end.

Definition parameter (a : action_name) (difficulty : Z) : Z :=
  match a with
  | proof_of_work | temp_block => difficulty
  | _ => 0
  end.

(** [less_restrictive a2 d2 a1 d1]: the action [a2] with parameter [d2]
    is strictly less restrictive than [a1] with [d1]. *)
Definition less_restrictive (a2 : action_name) (d2 : Z)
                            (a1 : action_name) (d1 : Z) : Prop :=
  rank a2 < rank a1 \/ (rank a2 = rank a1 /\ parameter a2 d2 < parameter a1 d1).

(** The action and parameter a threat dictionary asks for; the durable
    flag sits outside the ladder. *)
Definition demanded (t : threat) : option (action_name * Z) :=
  match t with
  | Required a d _ => Some (a, d)
  | Blocked _ => None
  end.

End Ladder.

(** ** A worked scenario

    The concrete inputs the examples below are evaluated on.  The bcrypt
    check is an outside library; in the scenario a password verifies
    against the hash that is the password behind the prefix ["bcrypt$"]. *)

Module Scenario.
Import SecureDownload.

Definition secret_key : string := "test-secret-key".

Definition verify_password (plain hashed : string) : bool :=
  String.eqb ("bcrypt$" +:+ plain) hashed.

(** A protected file with the default [max_password_attempts] of 10 and
    all ten attempts used up. *)
Definition locked_file : File :=
  MkFile "0b9f3c1e-7a52-4a5e-9c57-2f6d1e8b4a10" "abc123" false
         (Some "bcrypt$s3cret") (Some 10) 10.

(** The same file before any failed attempt. *)
Definition fresh_file : File :=
  MkFile "0b9f3c1e-7a52-4a5e-9c57-2f6d1e8b4a10" "abc123" false
         (Some "bcrypt$s3cret") (Some 10) 0.

Definition state_with (f : File) : state :=
  State {[ short_code f := f ]} [] ∅ ∅.

Definition right_request : request := Request "198.51.100.4" "s3cret" None None.
Definition wrong_request : request := Request "198.51.100.4" "guess" None None.

Definition some_draws : draws :=
  Draws (Captcha.Draws 7 5 Captcha.Plus "1700000000.5"
                       (3400000001 # 2) (3400000001 # 2))
        (3400000003 # 2)
        "mK3vXq0Zt1yR8bN5cW2eH7pL4sD9fG6jA0uI3oT5xYw"
        (3400000005 # 2) (3400000005 # 2).

(** One run of the handler on the table that holds just [f]. *)
Definition scenario_run (code : string) (req : request) (f : File) : run :=
  verify_file_password secret_key verify_password code req
                       some_draws (state_with f).

End Scenario.

(** ** Histories of calls on the token manager *)

Module TokenHistory.
Import DownloadTokens.

(** A later call on the one manager instance, with what it draws. *)
Inductive call :=
| Mint (token file_id user_ip : string) (password_verified : bool)
       (now now_cleanup : Q)
| Redeem (token file_id user_ip : string) (now : Q).

Definition step (t : tokens) (c : call) : tokens :=
  match c with
  | Mint token f ip pv now now_cleanup =>
      snd (create_download_token token f ip pv now now_cleanup t)
  | Redeem token f ip now => snd (verify_download_token token f ip now t)
  end.

Definition after (calls : list call) (t : tokens) : tokens :=
  fold_left step calls t.

(** A call that mints draws a token other than [token] (the draws of
    [secrets.token_urlsafe(32)] do not repeat); compared as the table
    does, by digest. *)
Definition draws_another (token : string) (c : call) : Prop :=
  match c with
  | Mint token' _ _ _ _ _ => Sha256.hexdigest token' <> Sha256.hexdigest token
  | Redeem _ _ _ _ => True
  end.

(** The token is consumed: its entry is marked used, or gone. *)
Definition spent (token : string) (t : tokens) : Prop :=
  match t !! Sha256.hexdigest token with
  | Some d => used d = true
  | None => True
  end.

End TokenHistory.

(** ** The proof-of-work predicate, as the specification words it *)

Module PowSpec.

(** The number of leading ['0'] characters of a hex digest. *)
Fixpoint leading_zeros (h : string) : nat :=
  match h with
  | String c rest => if Ascii.eqb c "0" then S (leading_zeros rest) else O
  | EmptyString => O
  end.

(** The digest has at least [d] leading hex zeros. *)
Definition enough_zeros (d : Z) (h : string) : Prop :=
  d <= Z.of_nat (leading_zeros h).

End PowSpec.

(** ** Worked challenges *)

Module PowScenario.
Import Redis.

Definition address : string := "203.0.113.7".
Definition resource : string := "file:abc123".

(** A challenge of [ServerSidePoW] for an address without recorded
    failures: difficulty 3. *)
Definition server_challenge_id : string := "00112233445566778899aabbccddeeff".
Definition server_nonce : string := "0f1e2d3c4b5a69788796a5b4c3d2e1f0".

Definition server_store : client :=
  snd (ServerPow.create_challenge Scenario.secret_key address resource
         server_challenge_id server_nonce 1700000000 (Client true ∅)).

(** A challenge of [AdaptiveSecurityResponse] for an address with five
    recorded failures: proof of work at difficulty 2. *)
Definition ladder_challenge_id : string := "kT9wQ2xLr7Zc4VbN1mYp3A".
Definition ladder_prefix : string := "Zm9vYmFyLWNoYWxsZW5nZS1wcmVmaXgtMDEyMzQ1Njc".

Definition ladder_store : client :=
  snd (Defense.create_challenge address
         (Defense.Draws 0 0 ladder_challenge_id ladder_prefix 1700000000)
         (Client true {[ "asr:attempts:ip:203.0.113.7" := VInt 5 ]})).

End PowScenario.

(** ** The responses and request shapes the properties name *)

Module Responses.
Import SecureDownload.

Definition locked_response : response :=
  HTTPException 403 (Text "File is locked due to too many failed attempts").

Definition not_found_response : response :=
  HTTPException 404 (Text "File not found").

Definition captcha_missing (req : request) : bool :=
  negb (Py.truthy_opt (captcha_id req)) || negb (Py.truthy_opt (captcha_answer req)).

(** The request gets as far as the password check: the resource exists and
    is protected by [hash], the CAPTCHA gate lets the request through
    (leaving the state [st1]) and the resource is not locked. *)
Definition reaches_password_check (secret_key code : string) (req : request)
    (r : draws) (st : state) (file : File) (hash : string) (st1 : state) : Prop :=
  select_file code st = Some file
  /\ password_hash file = Some hash
  /\ Py.truthy hash = true
  /\ captcha_gate secret_key code req r file st = inr st1
  /\ max_attempts_exceeded file = false.

End Responses.

(** ** Reading the ledger *)

Module Ledger.
Import Redis Defense.

(** The count held under a key (0 when there is none), and the keys
    that hold a count or nothing. *)
Definition counter (d : gmap string value) (k : string) : Z :=
  match d !! k with Some (VInt n) => n | _ => 0 end.

Definition is_counter (d : gmap string value) (k : string) : Prop :=
  match d !! k with Some (VInt _) | None => True | Some _ => False end.

(** Three failed logins for one account from a first address. *)
Definition three_failures : io unit :=
  do _ <- record_failure "10.0.0.1" (Some "User@Example.com") None;
  do _ <- record_failure "10.0.0.1" (Some "user@example.com") None;
  record_failure "10.0.0.1" (Some "user@example.com") None.

End Ledger.

(** ** A worked token history *)

Module TokenScenario.
Import DownloadTokens TokenHistory.

Definition the_token : string := "mK3vXq0Zt1yR8bN5cW2eH7pL4sD9fG6jA0uI3oT5xYw".
Definition other_token : string := "Qw7rT2yU9iO4pA6sD1fG8hJ3kL5zX0cV2bN7mM4qWeR".

(** The table after the token was minted for a file and an address. *)
Definition minted : tokens :=
  snd (create_download_token the_token "file-1" "198.51.100.4" true
                             1700000000 1700000000 ∅).

Definition later_calls : list call :=
  [ Redeem the_token "file-1" "198.51.100.4" 1700000011;
    Mint other_token "file-2" "198.51.100.9" false 1700000012 1700000012;
    Redeem other_token "file-2" "198.51.100.9" 1700000013 ].

End TokenScenario.

(** ** Pipelines and counters, for the properties of the ledger *)

Module Commands.
Import Redis.

Definition key_of (cmd : command) : string :=
  match cmd with
  | Incr k | Decr k | Expire k _ => k
  end.

(** The loop of [execute] over the queued commands. *)
Definition batch (cmds : list command) (acc : bool * gmap string value)
  : bool * gmap string value :=
  fold_left (fun acc cmd => let '(ok', d') := run cmd (snd acc) in
                            (fst acc && ok', d'))
            cmds acc.

(** No counter of the store is below zero. *)
Definition nonnegative (d : gmap string value) : Prop :=
  forall k n, d !! k = Some (VInt n) -> 0 <= n.

(** The key for which [record_success] queues a DECR: a key that is given
    and holds a count above zero. *)
Definition due (d : gmap string value) (key : option string) : list string :=
  match key with
  | Some k =>
      match d !! k with
      | Some (VInt n) => if n >? 0 then [k] else []
      | _ => []
      end
  | None => []
  end.

End Commands.

(** ** Repeated failures of one address *)

Module Failures.
Import Redis Defense.

(** The store after [k] calls [record_failure(ip)] (no login name, no
    fingerprint), starting from [c]. *)
Fixpoint after (k : nat) (ip : string) (c : client) : client :=
  match k with
  | O => c
  | S k' => snd (record_failure ip None None (after k' ip c))
  end.

(** The largest of the three counts [get_threat_level] reads for an
    identifier. *)
Definition level_of (d : gmap string value) (identifier : string) : Z :=
  Z.max (Z.max (Z.max 0 (Ledger.counter d ("asr:attempts:ip:" +:+ identifier)))
               (Ledger.counter d ("asr:attempts:email:" +:+ identifier)))
        (Ledger.counter d ("asr:attempts:fp:" +:+ identifier)).

(** The three keys read for an identifier hold counts, or nothing. *)
Definition readable (d : gmap string value) (identifier : string) : Prop :=
  Ledger.is_counter d ("asr:attempts:ip:" +:+ identifier)
  /\ Ledger.is_counter d ("asr:attempts:email:" +:+ identifier)
  /\ Ledger.is_counter d ("asr:attempts:fp:" +:+ identifier).

End Failures.

(** ** Repeated failed proofs of work of one address *)

Module PowFailures.
Import Redis.

(** The store after [k] calls [record_failed_attempt(ip)], starting from
    [c]. *)
Fixpoint after (k : nat) (ip : string) (c : client) : client :=
  match k with
  | O => c
  | S k' => snd (ServerPow.record_failed_attempt ip (after k' ip c))
  end.

(** The difficulty [_get_difficulty_for_ip] gives for a failure count. *)
Definition difficulty_for (failure_count : Z) : Z :=
  if failure_count >? 50 then 6
  else if failure_count >? 20 then 5
  else if failure_count >? 10 then 4
  else 3.

End PowFailures.

(** ** server_pow.py: ExponentialBackoff and DefenseInDepth *)

Module Backoff.
Import Redis.

(** [self.redis.incr(key)]: the new count is returned. *)
Definition incr (k : string) : io Z :=
  fun c =>
    if available c then
      match data c !! k with
      | None => (Return 1, Client true (<[k := VInt 1]> (data c)))
      | Some (VInt n) => (Return (n + 1), Client true (<[k := VInt (n + 1)]> (data c)))
      | Some _ => (Raise ResponseError, Client true (data c))
      end
    else (Raise ConnectionError, c).

(** [ExponentialBackoff.check_and_delay]: the required delay in seconds. *)
Definition check_and_delay (ip resource : string) : io Z :=
  let key := "attempts:" +:+ ip +:+ ":" +:+ resource in
  do attempts <- incr key;
  do _ <- send (Expire key 3600);
  if attempts <=? 3 then ret 0
  else
    let delay := Z.min (2 ^ (attempts - 3)) 300 in
    ret delay.

(** The store after [k] calls of [check_and_delay], starting from [c]. *)
Fixpoint after (k : nat) (ip resource : string) (c : client) : client :=
  match k with
  | O => c
  | S k' => snd (check_and_delay ip resource (after k' ip resource c))
  end.

End Backoff.

Module DefenseInDepth.
Import Redis.

(** The dictionary [protection]. *)
Record protection := Protection {
  require_captcha : bool;
  require_delay : bool;
  delay_seconds : Z;
  require_pow : bool;
  challenge : option ServerPow.challenge
}.

(** What [protect_endpoint] draws when it issues a challenge. *)
Record draws := Draws {
  token_hex_id : string;     (** [secrets.token_hex(16)] *)
  token_hex_nonce : string;  (** [secrets.token_hex(16)] *)
  clock : Q                  (** [time.time()] *)
}.

Section Service.
Variable secret_key : string.

(** [protect_endpoint]: [inl message] stands for [raise Exception(message)],
    [inr] for the returned dictionary. *)
Definition protect_endpoint (ip resource : string) (r : draws)
  : io (string + protection) :=
  do is_blocked <- get ("blocked:" +:+ ip);
  match is_blocked with
  | Some _ => ret (inl "IP temporarily blocked")
  | None =>
      do stored <- get ("failures:" +:+ ip);
      do failures <- lift (match stored with
                           | Some v => int_of v
                           | None => Return 0
                           end);
      let protection := Protection (failures >=? 3) false 0 (failures >=? 5) None in
      do protection <-
        (if failures >=? 10 then
           do delay <- Backoff.check_and_delay ip resource;
           ret (Protection (require_captcha protection) true delay
                           (require_pow protection) (challenge protection))
         else ret protection);
      do protection <-
        (if failures >=? 5 then
           do '(_, issued) <- ServerPow.create_challenge secret_key ip resource
                                (token_hex_id r) (token_hex_nonce r) (clock r);
           ret (Protection (require_captcha protection) (require_delay protection)
                           (delay_seconds protection) (require_pow protection)
                           (Some issued))
         else ret protection);
      if failures >=? 100 then
        do _ <- setex ("blocked:" +:+ ip) 3600 (VInt 1);
        ret (inl "Too many attempts - blocked for 1 hour")
      else ret (inr protection)
  end.

End Service.

End DefenseInDepth.

(** ** secure_download.py: download_with_token, initiate_secure_download

    Instants ([datetime] values; a naive [expires_at] is read as UTC, as the
    handlers do) are rationals, in seconds. *)

Module TokenDownload.

(** The columns of [File] the two handlers read and write; [id] holds
    [str(file.id)]. *)
Record File := MkFile {
  id : string;
  short_code : string;
  deleted : bool;
  password_hash : option string;
  expires_at : Q;
  max_downloads : option Z;
  download_count : Z
}.

(** A row written by [security_auditor.log_event]; [event_type] holds
    [event_type.value]. *)
Record AuditLog := MkAuditLog {
  event_type : string;
  ip_address : string;
  resource_id : option string;
  details : list (string * string);
  severity : string
}.

Record DownloadLog := MkDownloadLog {
  file_id : string;
  download_ip : string;
  user_agent : option string
}.

Record state := State {
  files : gmap string File;
  tokens : DownloadTokens.tokens;
  audit_logs : list AuditLog;
  download_logs : list DownloadLog
}.

Inductive response :=
| HTTPException (status_code : Z) (detail : string)
| AttributeError
    (** [storage_service.get_download_url]: neither storage class of
        [services/storage.py] has the method *)
| TokenIssued (download_token : string) (expires_in : Z)
    (** [{"download_token": .., "expires_in": ..}] *)
| DBAPIError.
    (** the exception of a failed [db.commit()]: the handler does not
        catch it and the framework answers 500 *)

Definition select_file (code : string) (st : state) : option File :=
  match files st !! code with
  | Some f => if deleted f then None else Some f
  | None => None
  end.

(** [expires_at < datetime.now(timezone.utc)] *)
Definition expired (file : File) (now : Q) : bool :=
  Py.float_gt now (expires_at file).

(** [file.max_downloads and file.download_count >= file.max_downloads] *)
Definition limit_reached (file : File) : bool :=
  match max_downloads file with
  | Some m => negb (m =? 0) && (download_count file >=? m)
  | None => false
  end.

Definition with_tokens (t : DownloadTokens.tokens) (st : state) : state :=
  State (files st) t (audit_logs st) (download_logs st).

Definition counted (file : File) : File :=
  MkFile (id file) (short_code file) (deleted file) (password_hash file)
         (expires_at file) (max_downloads file) (download_count file + 1).

(** [security_auditor.log_event]: the row is added and committed; [None]
    when the commit raises, which leaves the tables as they were. *)
Definition log_event (event_type ip : string)
    (resource : option AuditLogger.bound) (details : list (string * string))
    (severity : string) (st : state) : option state :=
  match AuditLogger.stored resource with
  | Some resource_id =>
      Some (State (files st) (tokens st)
                  (audit_logs st
                   ++ [MkAuditLog event_type ip resource_id details severity])
                  (download_logs st))
  | None => None
  end.

(** [clock_verify] is the reading of [verify_download_token], [now] the
    one compared with [expires_at]. *)
Definition download_with_token (code token host : string)
    (agent : option string) (clock_verify now : Q) (st : state)
  : response * state :=
  match select_file code st with
  | None => (HTTPException 404 "File not found", st)
  | Some file =>
      let '(ok, t) :=
        DownloadTokens.verify_download_token token (id file) host clock_verify
                                             (tokens st) in
      let st := with_tokens t st in
      if negb ok then
        match log_event "token_reuse" host (Some (AuditLogger.Uuid (id file)))
                        [("reason", "Invalid or expired token")] "warning" st with
        | Some st => (HTTPException 403 "Invalid or expired download token", st)
        | None => (DBAPIError, st)
        end
      else if expired file now then (HTTPException 410 "File has expired", st)
      else if limit_reached file
      then (HTTPException 410 "Download limit exceeded", st)
      else
        (AttributeError,
         State (<[code := counted file]> (files st)) (tokens st) (audit_logs st)
               (download_logs st ++ [MkDownloadLog (id file) host agent]))
  end.

(** [token] is the draw of [secrets.token_urlsafe(32)]; the two clock
    readings are those of [create_download_token]. *)
Definition initiate_secure_download (code host token : string)
    (clock_token clock_cleanup now : Q) (st : state) : response * state :=
  match select_file code st with
  | None => (HTTPException 404 "File not found", st)
  | Some file =>
      if Py.truthy_opt (password_hash file)
      then (HTTPException 401 "This file requires password verification", st)
      else if expired file now then (HTTPException 410 "File has expired", st)
      else if limit_reached file
      then (HTTPException 410 "Download limit exceeded", st)
      else
        let '(download_token, t) :=
          DownloadTokens.create_download_token token (id file) host false
            clock_token clock_cleanup (tokens st) in
        (TokenIssued download_token 60, with_tokens t st)
  end.

End TokenDownload.

(** ** Worked downloads *)

Module DownloadScenario.
Import TokenDownload.

Definition host : string := "198.51.100.4".
Definition token : string := "mK3vXq0Zt1yR8bN5cW2eH7pL4sD9fG6jA0uI3oT5xYw".

(** An unprotected file, one download below its limit of two. *)
Definition open_file : File :=
  MkFile "0b9f3c1e-7a52-4a5e-9c57-2f6d1e8b4a10" "abc123" false None
         1800000000 (Some 2) 1.

(** The same file, expired. *)
Definition expired_file : File :=
  MkFile "0b9f3c1e-7a52-4a5e-9c57-2f6d1e8b4a10" "abc123" false None
         1600000000 (Some 2) 1.

(** A password-protected file. *)
Definition protected_file : File :=
  MkFile "7c1d2e3f-0a1b-4c2d-8e3f-4a5b6c7d8e9f" "xyz789" false
         (Some "bcrypt$s3cret") 1800000000 None 0.

(** The table holding [f], with [token] minted for it at 1700000000. *)
Definition state_with (f : File) : state :=
  State {[ short_code f := f ]}
        (snd (DownloadTokens.create_download_token token (id f) host false
                1700000000 1700000000 ∅))
        [] [].

End DownloadScenario.

(** ** security.py: the claims signed into a token *)

Module Security.

(** A value of the dictionary handed to [jwt.encode]: a text or a time
    (seconds since the epoch). *)
Inductive claim := CStr (s : string) | CTime (t : Q).

Abbreviation claims := (gmap string claim).

Section Settings.
(** [settings.JWT_EXPIRATION_HOURS] and
    [settings.JWT_REFRESH_EXPIRATION_DAYS] *)
Variable JWT_EXPIRATION_HOURS : Z.
Variable JWT_REFRESH_EXPIRATION_DAYS : Z.

(** [create_access_token(data, expires_delta)], read at time [now] with
    [secrets.token_urlsafe(32)] giving [jti].  The result is the
    dictionary [to_encode] that is signed; a [timedelta] of zero is
    falsy. *)
Definition create_access_token (data : claims) (expires_delta : option Q)
    (now : Q) (jti : string) : claims :=
  let usual := (now + inject_Z (JWT_EXPIRATION_HOURS * 3600))%Q in
  let expire :=
    match expires_delta with
    | Some delta => if Qeq_bool delta 0 then usual else (now + delta)%Q
    | None => usual
    end in
  <["type" := CStr "access"]>
    (<["jti" := CStr jti]> (<["exp" := CTime expire]> data)).

Definition create_refresh_token (data : claims) (now : Q) (jti : string)
  : claims :=
  let expire := (now + inject_Z (JWT_REFRESH_EXPIRATION_DAYS * 86400))%Q in
  <["type" := CStr "refresh"]>
    (<["jti" := CStr jti]> (<["exp" := CTime expire]> data)).

End Settings.

End Security.

(** ** auth.py: login *)

Module Auth.
Import Redis.

(** The columns of [User] the handler reads; [id] is [str(user.id)]. *)
Module User.
Record t := Make {
  id : string;
  email : string;
  password_hash : string;
  two_factor_enabled : bool
}.
End User.

Record LoginWithChallenge := MkLoginWithChallenge {
  email : string;
  password : string;
  challenge_id : option string;
  challenge_solution : option string;
  fingerprint : option string
}.

(** What one run of the handler draws from outside. *)
Record draws := Draws {
  challenge_draws : Defense.draws;  (** for the one [create_challenge] of a run *)
  clock_temp : Q;                   (** [datetime.now] of the handler *)
  clock_access : Q;                 (** [datetime.now] of [create_access_token] *)
  jti_access : string;
  clock_refresh : Q;                (** [datetime.now] of [create_refresh_token] *)
  jti_refresh : string
}.

(** The text of [get_client_challenge_script], kept as the two values it
    interpolates. *)
Inductive script := SolverScript (challenge : string) (difficulty : Z).

(** A token is kept as the claims it signs. *)
Inductive response :=
| HTTPException (status_code : Z) (detail : string)
| ChallengeResponse (challenge : Defense.challenge)
                    (solver_script : option script) (message : string)
| TwoFactorResponse (temp_token : Security.claims)
| TokenResponse (access_token refresh_token : Security.claims) (user : User.t).

(** The response and the entries set on [response.headers]. *)
Record reply := Reply { answer : response; headers : list (string * string) }.

Definition locked_out : response :=
  HTTPException 429 "Account temporarily locked due to too many failed attempts".

Definition server_error : response :=
  HTTPException 500 "An error occurred during login".

(** [challenge["type"]] *)
Definition challenge_type (c : Defense.challenge) : string :=
  match c with
  | Defense.NoChallenge => "none"
  | Defense.MathChallenge _ _ _ => "math"
  | Defense.PowChallenge _ _ _ => "proof_of_work"
  | Defense.TempBlock _ _ => "temp_block"
  end.

Definition get_client_challenge_script (c : Defense.challenge) : option script :=
  match c with
  | Defense.PowChallenge _ challenge difficulty =>
      Some (SolverScript challenge difficulty)
  | _ => None
  end.

(** [threat_level["action"] != "none"] *)
Definition action_required (t : Defense.threat) : bool :=
  match t with
  | Defense.Required Defense.none _ _ => false
  | _ => true
  end.

(** The headers set when the next attempt needs a challenge. *)
Definition challenge_headers (challenge : option Defense.challenge)
  : list (string * string) :=
  match challenge with
  | Some c =>
      if negb (String.eqb (challenge_type c) "none")
      then [("X-Challenge-Required", "true"); ("X-Challenge-Type", challenge_type c)]
      else []
  | None => []
  end.

Section Endpoint.
(** The bcrypt check [app.core.security.verify_password(plain, hashed)]
    and the two settings of the tokens. *)
Variable verify_password : string -> string -> bool.
Variable JWT_EXPIRATION_HOURS : Z.
Variable JWT_REFRESH_EXPIRATION_DAYS : Z.

(** What is returned after a successful password check. *)
Definition issue_tokens (user : User.t) (r : draws) : response :=
  if User.two_factor_enabled user then
    let temp_token_data : Security.claims :=
      <["sub" := Security.CStr (User.id user)]>
        (<["type" := Security.CStr "2fa_temp"]>
           (<["exp" := Security.CTime (clock_temp r + 300)%Q]> ∅)) in
    TwoFactorResponse
      (Security.create_access_token JWT_EXPIRATION_HOURS temp_token_data None
                                    (clock_access r) (jti_access r))
  else
    let data : Security.claims := <["sub" := Security.CStr (User.id user)]> ∅ in
    TokenResponse
      (Security.create_access_token JWT_EXPIRATION_HOURS data None
                                    (clock_access r) (jti_access r))
      (Security.create_refresh_token JWT_REFRESH_EXPIRATION_DAYS data
                                     (clock_refresh r) (jti_refresh r))
      user.

(** The branch [if not user or not verify_password(..)]. *)
Definition failed_login (client_ip : string) (user_data : LoginWithChallenge)
    (r : draws) : io reply :=
  do _ <- Defense.record_failure client_ip (Some (email user_data))
                                 (fingerprint user_data);
  do challenge <- Defense.create_challenge client_ip (challenge_draws r);
  ret (Reply (HTTPException 401 "Incorrect email or password")
             (challenge_headers challenge)).

(** The body of the [try] block.  [scalar_one_or_none] raises on more
    than one row; that exception is answered by the handler's
    [except Exception] like any other, with nothing changed before it. *)
Definition check_password (users : list User.t) (client_ip : string)
    (user_data : LoginWithChallenge) (r : draws) : io reply :=
  match List.filter (fun u => String.eqb (User.email u) (email user_data)) users with
  | [] => failed_login client_ip user_data r
  | [user] =>
      if verify_password (password user_data) (User.password_hash user) then
        do _ <- Defense.record_success client_ip (Some (email user_data))
                                       (fingerprint user_data);
        ret (Reply (issue_tokens user r) [])
      else failed_login client_ip user_data r
  | _ => ret (Reply server_error [])
  end.

(** The [try] block with its handlers: an [HTTPException] passes, any
    other exception becomes the 500 response. *)
Definition authenticate (users : list User.t) (client_ip : string)
    (user_data : LoginWithChallenge) (r : draws) : io reply :=
  catch (check_password users client_ip user_data r)
        (ret (Reply server_error [])).

(** The answer to a challenge solution that did not verify. *)
Definition rejected_solution (client_ip : string)
    (user_data : LoginWithChallenge) (r : draws) : io reply :=
  do _ <- Defense.record_failure client_ip (Some (email user_data))
                                 (fingerprint user_data);
  do challenge <- Defense.create_challenge client_ip (challenge_draws r);
  match challenge with
  | None => ret (Reply locked_out [])
  | Some c =>
      ret (Reply (ChallengeResponse c None
                    "Invalid challenge solution. Please try again.") [])
  end.

(** The answer when a challenge is demanded before the password check. *)
Definition demand_challenge (client_ip : string) (threat_level : Defense.threat)
    (r : draws) : io reply :=
  do challenge <- Defense.create_challenge client_ip (challenge_draws r);
  match challenge with
  | None => ret (Reply locked_out [])
  | Some c =>
      let solver_script :=
        if String.eqb (challenge_type c) "proof_of_work"
        then get_client_challenge_script c else None in
      ret (Reply (ChallengeResponse c solver_script
                    ("Security verification required after "
                     +:+ Py.str_of_int (Defense.threat_attempts threat_level)
                     +:+ " failed attempts")) [])
  end.

Definition login (users : list User.t) (client_ip : string)
    (user_data : LoginWithChallenge) (r : draws) : io reply :=
  do verified <-
    (if Py.truthy_opt (challenge_id user_data)
        && Py.truthy_opt (challenge_solution user_data)
     then Defense.verify_challenge (default EmptyString (challenge_id user_data))
                                   (default EmptyString (challenge_solution user_data))
     else ret true);
  if negb verified then rejected_solution client_ip user_data r
  else
    do threat_level <- Defense.get_threat_level client_ip;
    if action_required threat_level
       && negb (Py.truthy_opt (challenge_solution user_data))
    then demand_challenge client_ip threat_level r
    else authenticate users client_ip user_data r.

End Endpoint.

End Auth.

(** ** abuse_prevention.py: the download pattern check *)

Module AbuseDetector.
Import AbusePrevention.

(** [THRESHOLDS["unique_downloaders_ratio"]] *)
Definition unique_downloaders_ratio (tier : UserTier) : Q :=
  match tier with
  | FREE => 3 # 10
  | PRO => 1 # 10
  | MAX => 1 # 20
  end.

(** The columns of [File] the check reads: two 32-bit integer columns.
    The float quotient and the float thresholds compare as the exact
    rationals do: at [3/10], [1/10] and [1/20] the quotient rounds to the
    very float of the literal, and elsewhere it is further from the
    threshold than the rounding can move it. *)
Record File := MkFile { download_count : Z; unique_downloaders : Z }.

Inductive reason :=
| NoUniqueDownloaders
    (** ["Suspicious pattern: No unique downloaders tracked"] *)
| LowUniqueRatio (unique_ratio threshold : Q).
    (** [f"Suspicious download pattern: Only {unique_ratio:.1%} unique IPs
        (minimum: {threshold:.0%})"] *)

Definition check_download_pattern_abuse (file : File) (user_tier : UserTier)
  : bool * option reason :=
  if download_count file <? 10 then (true, None)
  else if unique_downloaders file =? 0 then (false, Some NoUniqueDownloaders)
  else
    let unique_ratio :=
      (inject_Z (unique_downloaders file) / inject_Z (download_count file))%Q in
    let threshold := unique_downloaders_ratio user_tier in
    if Py.float_gt threshold unique_ratio
    then (false, Some (LowUniqueRatio unique_ratio threshold))
    else (true, None).

End AbuseDetector.

(** ** Worked logins *)

Module LoginScenario.
Import Redis Auth.

Definition hours : Z := 1.
Definition days : Z := 30.

(** An account without and one with two-factor authentication. *)
Definition alice : User.t :=
  User.Make "5f0c2a9e-4b1d-4c7a-8e21-9a3b6d7f1c02" "alice@example.com"
            "bcrypt$s3cret" false.
Definition bob : User.t :=
  User.Make "c81e728d-9d4c-4f63-a2b0-6f1d3e5a7b94" "bob@example.com"
            "bcrypt$hunter2" true.
Definition users : list User.t := [alice; bob].

Definition address : string := "203.0.113.7".

Definition some_draws : draws :=
  Draws (Defense.Draws 3 4 "kT9wQ2xLr7Zc4VbN1mYp3A"
                       "Zm9vYmFyLWNoYWxsZW5nZS1wcmVmaXgtMDEyMzQ1Njc" 1700000000)
        1700000001 1700000002 "Yx3nV8qLw2Rt6KpZ0sHd4A"
        1700000003 "Bq7mT1cXe9Uo5JgN2fWk8Q".

(** The store of an address flagged after fifty failures. *)
Definition blocked_store : gmap string value :=
  <["asr:blocked:203.0.113.7" := VInt 1]>
    (<["asr:attempts:ip:203.0.113.7" := VInt 50]> ∅).

(** The store of an address with three failures, holding one arithmetic
    question whose answer is 9. *)
Definition asked_store : gmap string value :=
  <["asr:challenge:kT9wQ2xLr7Zc4VbN1mYp3A" := VMath "9"]>
    (<["asr:attempts:ip:203.0.113.7" := VInt 3]> ∅).

Definition solution_without_id : LoginWithChallenge :=
  MkLoginWithChallenge "alice@example.com" "s3cret" None (Some "0") None.

Definition plain_request (email password : string) : LoginWithChallenge :=
  MkLoginWithChallenge email password None None None.

Definition wrong_solution : LoginWithChallenge :=
  MkLoginWithChallenge "alice@example.com" "s3cret"
                       (Some "kT9wQ2xLr7Zc4VbN1mYp3A") (Some "8") None.

End LoginScenario.

(** ** defense.py: calls of record_success that overlap *)

Module Overlap.
Import Redis Defense.

(** The first half of [record_success]: the loop over the keys, in which
    each counter is read by an awaited GET and the DECR is only queued. *)
Definition plan (ip : string) (email fingerprint : option string)
  : io (list command) :=
  let keys :=
    [ Some ("asr:attempts:ip:" +:+ ip);
      key_when_given email (fun e => "asr:attempts:email:" +:+ email_hash e);
      key_when_given fingerprint (fun f => "asr:attempts:fp:" +:+ f) ] in
  fold_left (fun acc key => do p <- acc; forgive p key) keys (ret []).

(** [k] calls on one event loop, scheduled so that each has finished its
    reads when the first [pipe.execute()] runs: the pipelines they have
    queued, in the order of the calls. *)
Fixpoint reads (k : nat) (ip : string) (email fingerprint : option string)
  : io (list (list command)) :=
  match k with
  | O => ret []
  | S k' =>
      do pipe <- plan ip email fingerprint;
      do pipes <- reads k' ip email fingerprint;
      ret (pipe :: pipes)
  end.

(** The [pipe.execute()] of each call, one after the other. *)
Fixpoint writes (pipes : list (list command)) : io unit :=
  match pipes with
  | [] => ret tt
  | pipe :: rest => do _ <- execute pipe; writes rest
  end.

Definition overlapped (k : nat) (ip : string) (email fingerprint : option string)
  : io unit :=
  do pipes <- reads k ip email fingerprint;
  writes pipes.

End Overlap.

(** * Properties *)

Example sha256_abc :
  Sha256.hexdigest "abc"
  = "ba7816bf8f01cfea414140de5dae2223b00361a396177a9cb410ff61f20015ad"%string.
Proof. vm_compute. reflexivity. Qed.

Example sha256_constants :
  nth 0 Sha256.round_constants 0 = 0x428a2f98
  /\ nth 63 Sha256.round_constants 0 = 0xc67178f2
  /\ nth 0 Sha256.initial_hash 0 = 0x6a09e667
  /\ nth 7 Sha256.initial_hash 0 = 0x5be0cd19.
Proof. repeat split; reflexivity. Qed.

Example sha256_two_blocks :
  Sha256.hexdigest "abcdbcdecdefdefgefghfghighijhijkijkljklmklmnlmnomnopnopq"
  = "248d6a61d20638b8e5c026930c3e6039a33ce45964ff2167f6ecedd419db06c1"%string.
Proof. vm_compute. reflexivity. Qed.

Example hmac_rfc4231_2 :
  Hmac.hexdigest "Jefe" "what do ya want for nothing?"
  = "5bdcc146bf60754e6a042426089575c75a003f089d2739839dec58b964ec3843"%string.
Proof. vm_compute. reflexivity. Qed.

Example py_helpers :
  Py.lower "Ab.C@X.org" = "ab.c@x.org"%string /\ Py.strip "  7 " = "7"%string
  /\ Py.str_mul "0" 3 = "000"%string /\ Py.str_mul "0" (-2) = ""%string
  /\ Py.str_of_int 42 = "42"%string /\ Py.int_of_float (7 # 2) = 3
  /\ Py.startswith "00ab" "00" = true /\ Py.str_take 2 "abcd" = "ab"%string.
Proof. vm_compute. repeat split; reflexivity. Qed.

(** ** The escalation ladder *)

Section LadderProperties.
Import Defense Ladder.

Lemma find_level_required (failed : Z) :
  exists a d n, find_level failed = Required a d n.
Proof.
  unfold find_level.
  destruct (List.find _ _) as [l|]; eauto.
Qed.

Example find_level_samples :
  find_level 0 = Required none 0 0
  /\ find_level 4 = Required simple_math 1 4
  /\ find_level 5 = Required proof_of_work 2 5
  /\ find_level 29 = Required temp_block 300 29
  /\ find_level 50 = Required permanent_block 0 50
  /\ find_level (-1) = Required none 0 0.
Proof. repeat split; reflexivity. Qed.

(** C6. For all failure counts [f1 < f2], the action the ladder demands at
    [f2] is not less restrictive than the one it demands at [f1], in the
    order none < arithmetic challenge < proof of work (by difficulty)
    < timed block (by duration) < permanent block. *)
Theorem escalation_is_monotonic (f1 f2 : Z) :
  f1 < f2 ->
  exists a1 d1 a2 d2,
    demanded (find_level f1) = Some (a1, d1)
    /\ demanded (find_level f2) = Some (a2, d2)
    /\ ~ less_restrictive a2 d2 a1 d1.
Proof.
  intros Hlt.
  unfold find_level, less_restrictive; cbn [levels rev app List.find attempts].
  repeat match goal with
         | |- context [?x >=? ?k] =>
             destruct (Z.geb_spec x k); cbn [List.find action difficulty demanded]
         end;
    do 4 eexists; (split; [reflexivity|]); (split; [reflexivity|]);
    cbn; lia.
Qed.

Lemma escalation_is_monotonic_witness :
  4 < 5
  /\ exists a1 d1 a2 d2,
       demanded (find_level 4) = Some (a1, d1)
       /\ demanded (find_level 5) = Some (a2, d2)
       /\ ~ less_restrictive a2 d2 a1 d1.
Proof. split; [lia | apply (escalation_is_monotonic 4 5); lia]. Defined.

End LadderProperties.

(** ** The bandwidth check *)

Section BandwidthProperties.
Import AbusePrevention.

(** C10. For every file with a positive size and every tier,
    [check_bandwidth_abuse] passes with no reason: every tier's multiplier
    threshold is infinite, so the flagging branch is never taken. *)
Theorem bandwidth_check_always_passes (file : File) (tier : UserTier) :
  0 < file_size file ->
  check_bandwidth_abuse file tier = Result true None.
Proof.
  intros Hsize. unfold check_bandwidth_abuse.
  destruct (bandwidth_used file =? 0); [reflexivity|].
  destruct (Z.eqb_spec (file_size file) 0) as [Hz|_]; [lia|].
  destruct tier; reflexivity.
Qed.

Lemma bandwidth_check_always_passes_witness :
  0 < file_size {| bandwidth_used := 5000000; file_size := 1024 |}
  /\ check_bandwidth_abuse {| bandwidth_used := 5000000; file_size := 1024 |} FREE
     = Result true None.
Proof.
  split; [simpl; lia | apply bandwidth_check_always_passes; simpl; lia].
Defined.

End BandwidthProperties.

(** ** The backoff delay *)

Section BackoffProperties.
Import SecureDownload Responses.

Lemma capped_power (f : Z) :
  0 <= f -> Py.pow 2 (Z.min f 5) = inject_Z (Z.min (2 ^ f) 32).
Proof.
  intros Hf. unfold Py.pow.
  destruct (Z.leb_spec 0 (Z.min f 5)) as [_|Hneg]; [|lia].
  f_equal.
  destruct (Z.le_gt_cases f 5) as [Hle|Hgt].
  - rewrite Z.min_l by lia.
    assert (Hcases : f = 0 \/ f = 1 \/ f = 2 \/ f = 3 \/ f = 4 \/ f = 5) by lia.
    destruct Hcases as [->|[->|[->|[->|[->| ->]]]]]; reflexivity.
  - rewrite Z.min_r by lia.
    assert (Hpow : 2 ^ 5 <= 2 ^ f) by (apply Z.pow_le_mono_r; lia).
    change (2 ^ 5) with 32 in *. lia.
Qed.

(** The audit row of a failed password names [file.id]: its commit
    raises after the counter was committed and before the delay. *)
Lemma wrong_password_raises
    (secret_key code : string) (req : request) (r : draws)
    (file : File) (st : state) :
  wrong_password secret_key code req r file st
  = Run DBAPIError None
        (update_file code (with_failed file (failed_password_attempts file + 1)) st).
Proof. reflexivity. Qed.

Lemma failed_password_raises_before_the_delay
    (secret_key : string) (verify_password : string -> string -> bool)
    (code : string) (req : request) (r : draws) (st st1 : state)
    (file : File) (hash : string) :
  reaches_password_check secret_key code req r st file hash st1 ->
  verify_password (password req) hash = false ->
  let out := verify_file_password secret_key verify_password code req r st in
  answer out = DBAPIError
  /\ slept out = None
  /\ (failed_password_attempts <$> files (final out) !! code)
     = Some (failed_password_attempts file + 1).
Proof.
  intros (Hsel & Hhash & Htruthy & Hgate & Hopen) Hwrong out.
  subst out. unfold verify_file_password.
  rewrite Hsel, Hhash, Htruthy, Hgate, Hopen, Hwrong. cbn [negb].
  rewrite wrong_password_raises. cbn [answer slept final update_file files].
  rewrite lookup_insert_eq. repeat split.
Qed.

(** C9. The claim holds of the expression and fails of the handler.  For
    a first wrong password on a protected resource the delay the claim
    names is [2 ** min(1, 5) = min(2 ^ 1, 32) = 2] seconds, and the counter
    is stored as 1; but the audit call that stands between the counter and
    [asyncio.sleep] raises, so the handler answers with the unhandled
    error and sleeps no delay at all. *)
Theorem failed_password_is_not_delayed :
  let out := Scenario.scenario_run "abc123" Scenario.wrong_request
               Scenario.fresh_file in
  Scenario.verify_password (password Scenario.wrong_request) "bcrypt$s3cret" = false
  /\ (failed_password_attempts <$> files (final out) !! "abc123") = Some 1
  /\ Py.pow 2 (Z.min 1 5) = inject_Z (Z.min (2 ^ 1) 32)
  /\ answer out = DBAPIError
  /\ slept out = None.
Proof.
  intros out.
  assert (Hreach : reaches_password_check Scenario.secret_key "abc123"
                     Scenario.wrong_request Scenario.some_draws
                     (Scenario.state_with Scenario.fresh_file)
                     Scenario.fresh_file "bcrypt$s3cret"
                     (Scenario.state_with Scenario.fresh_file))
    by (repeat split; reflexivity).
  destruct (failed_password_raises_before_the_delay Scenario.secret_key
              Scenario.verify_password "abc123" Scenario.wrong_request
              Scenario.some_draws _ _ _ _ Hreach eq_refl)
    as (Hanswer & Hslept & Hcount).
  split; [reflexivity|]. split; [exact Hcount|].
  split; [apply capped_power; lia|]. split; [exact Hanswer | exact Hslept].
Qed.

End BackoffProperties.

(** ** The password handler: lockout and responses *)

Section HandlerProperties.
Import SecureDownload Responses.

Variable secret_key : string.
Variable verify_password : string -> string -> bool.

Lemma new_captcha_keeps (r : draws) (st : state) c st' :
  new_captcha secret_key r st = (c, st') ->
  files st' = files st /\ tokens st' = tokens st.
Proof.
  unfold new_captcha.
  destruct (Captcha.generate_captcha _ _ _) as [c' store].
  intros [= <- <-]. auto.
Qed.

Lemma captcha_gate_passes code req r file st st' :
  captcha_gate secret_key code req r file st = inr st' ->
  files st' = files st /\ tokens st' = tokens st.
Proof.
  unfold captcha_gate.
  destruct (failed_password_attempts file >=? 3); [|intros [= <-]; auto].
  destruct (_ || _).
  - destruct (new_captcha _ _ _) as [[cid q] st1]. discriminate.
  - destruct (Captcha.verify_captcha _ _ _ _) as [[|] store];
      [intros [= <-]; auto | discriminate].
Qed.

Lemma captcha_gate_raises code req r file st raised st' :
  captcha_gate secret_key code req r file st = inl (raised, st') ->
  files st' = files st /\ tokens st' = tokens st
  /\ 3 <= failed_password_attempts file
  /\ ((captcha_missing req = true
       /\ exists cid question,
            raised = HTTPException 428
                       (CaptchaRequired cid question (remaining file) None))
      \/ (captcha_missing req = false /\ raised = DBAPIError)).
Proof.
  unfold captcha_gate, captcha_missing.
  destruct (Z.geb_spec (failed_password_attempts file) 3) as [Hge|]; [|discriminate].
  destruct (_ || _).
  - destruct (new_captcha _ _ _) as [[cid q] st1] eqn:Hnew.
    apply new_captcha_keeps in Hnew as [Hf Ht].
    intros [= <- <-]. repeat split; eauto.
  - destruct (Captcha.verify_captcha _ _ _ _) as [[|] store]; [discriminate|].
    intros [= <- <-]. repeat split; auto.
Qed.

Lemma captcha_gate_skipped code req r file st :
  failed_password_attempts file < 3 ->
  captcha_gate secret_key code req r file st = inr st.
Proof.
  intros Hlt. unfold captcha_gate.
  destruct (Z.geb_spec (failed_password_attempts file) 3); [lia | reflexivity].
Qed.

(** C7 (as amended). A protected resource whose [max_password_attempts]
    is set (and not zero) and reached never yields a token, whatever
    password is submitted, and the request changes neither the [files]
    table nor the token table and is not delayed.  From 3 failed attempts
    on, a request without a CAPTCHA id and answer gets the
    CAPTCHA-required response, not the "locked" one. *)
Theorem locked_file_rejects_every_password
    (code : string) (req : request) (r : draws) (st : state)
    (file : File) (hash : string) (m : Z) :
  select_file code st = Some file ->
  password_hash file = Some hash ->
  Py.truthy hash = true ->
  max_password_attempts file = Some m ->
  m <> 0 ->
  m <= failed_password_attempts file ->
  let out := verify_file_password secret_key verify_password code req r st in
  (forall token expires, answer out <> PasswordVerifyResponse token expires)
  /\ files (final out) = files st
  /\ tokens (final out) = tokens st
  /\ slept out = None
  /\ (3 <= failed_password_attempts file -> captcha_missing req = true ->
      exists cid question,
        answer out = HTTPException 428
          (CaptchaRequired cid question (m - failed_password_attempts file) None)).
Proof.
  intros Hsel Hhash Htruthy Hmax Hm Hreached out.
  assert (Hlocked : max_attempts_exceeded file = true).
  { unfold max_attempts_exceeded. rewrite Hmax.
    destruct (Z.eqb_spec m 0); [contradiction|].
    destruct (Z.geb_spec (failed_password_attempts file) m); [reflexivity | lia]. }
  assert (Hrem : remaining file = m - failed_password_attempts file).
  { unfold remaining. rewrite Hmax.
    destruct (Z.eqb_spec m 0); [contradiction | reflexivity]. }
  subst out. unfold verify_file_password.
  rewrite Hsel, Hhash, Htruthy. cbn [negb].
  destruct (captcha_gate secret_key code req r file st) as [[raised st1]|st1] eqn:Hgate.
  - apply captcha_gate_raises in Hgate as (Hf & Ht & Hge & Hshape).
    cbn [answer final slept]. rewrite <- Hrem.
    split; [|split; [exact Hf|split; [exact Ht|split; [reflexivity|]]]].
    + destruct Hshape as [(_ & cid & q & ->)|[_ ->]]; discriminate.
    + intros _ Hmiss.
      destruct Hshape as [(_ & cid & q & ->)|[Hgiven _]]; [eauto|].
      rewrite Hmiss in Hgiven. discriminate Hgiven.
  - assert (Hskip : failed_password_attempts file < 3
                    \/ captcha_missing req = false).
    { revert Hgate. unfold captcha_gate, captcha_missing.
      destruct (Z.geb_spec (failed_password_attempts file) 3); [|left; lia].
      destruct (_ || _); [|right; reflexivity].
      destruct (new_captcha _ _ _) as [[cid q] st2]. discriminate. }
    apply captcha_gate_passes in Hgate as [Hf Ht].
    rewrite Hlocked. cbn [answer final slept log_event].
    split; [discriminate|]. split; [exact Hf|]. split; [exact Ht|].
    split; [reflexivity|].
    intros Hge Hmiss. destruct Hskip as [Hlt | Hgiven]; [lia|].
    rewrite Hmiss in Hgiven. discriminate Hgiven.
Qed.

(** C8 (as amended). The response to an unknown resource code is always
    the 404 "File not found" error, and no request for a resource that
    exists gets that response: the two cases are told apart. *)
Theorem unknown_code_response_differs
    (code code' : string) (req req' : request) (r r' : draws) (st st' : state)
    (file : File) :
  select_file code st = None ->
  select_file code' st' = Some file ->
  answer (verify_file_password secret_key verify_password code req r st)
  = not_found_response
  /\ answer (verify_file_password secret_key verify_password code' req' r' st')
     <> not_found_response.
Proof.
  intros Hnone Hsome. unfold verify_file_password. rewrite Hnone, Hsome.
  split; [reflexivity|].
  destruct (password_hash file) as [hash|]; [|discriminate].
  destruct (negb (Py.truthy hash)); [discriminate|].
  destruct (captcha_gate _ _ _ _ _ _) as [[raised st1]|st1] eqn:Hgate.
  - apply captcha_gate_raises in Hgate as (_ & _ & _ & Hshape).
    destruct Hshape as [(_ & cid & q & ->)|[_ ->]]; discriminate.
  - destruct (max_attempts_exceeded file); [discriminate|].
    destruct (negb _).
    + rewrite wrong_password_raises. discriminate.
    + unfold right_password.
      destruct (DownloadTokens.create_download_token _ _ _ _ _ _ _).
      discriminate.
Qed.

End HandlerProperties.

Section HandlerScenario.
Import SecureDownload Responses.

Lemma locked_file_rejects_every_password_witness :
  select_file "abc123" (Scenario.state_with Scenario.locked_file)
  = Some Scenario.locked_file
  /\ (forall token expires,
        answer (Scenario.scenario_run "abc123" Scenario.right_request Scenario.locked_file)
        <> PasswordVerifyResponse token expires)
  /\ files (final (Scenario.scenario_run "abc123" Scenario.right_request Scenario.locked_file))
     = files (Scenario.state_with Scenario.locked_file).
Proof.
  assert (Hsel : select_file "abc123" (Scenario.state_with Scenario.locked_file)
                 = Some Scenario.locked_file) by reflexivity.
  split; [exact Hsel|].
  destruct (locked_file_rejects_every_password
              Scenario.secret_key Scenario.verify_password
              "abc123" Scenario.right_request Scenario.some_draws
              (Scenario.state_with Scenario.locked_file)
              Scenario.locked_file "bcrypt$s3cret" 10
              Hsel eq_refl eq_refl eq_refl ltac:(lia) ltac:(simpl; lia))
    as (Hnever & Hfiles & _).
  split; [exact Hnever | exact Hfiles].
Defined.

(** C7, as stated, fails: with ten of ten attempts used, a request that
    carries the correct password and no CAPTCHA answer is not answered
    with the "locked" response but with the CAPTCHA-required one. *)
Lemma locked_file_answers_captcha_required :
  max_password_attempts Scenario.locked_file = Some 10
  /\ failed_password_attempts Scenario.locked_file = 10
  /\ Scenario.verify_password (password Scenario.right_request) "bcrypt$s3cret" = true
  /\ answer (Scenario.scenario_run "abc123" Scenario.right_request Scenario.locked_file)
     = HTTPException 428 (CaptchaRequired "b572ff25be131249" "What is 7 + 5?" 0 None)
  /\ answer (Scenario.scenario_run "abc123" Scenario.right_request Scenario.locked_file)
     <> locked_response.
Proof.
  split; [reflexivity|]. split; [reflexivity|]. split; [reflexivity|].
  split; [vm_compute; reflexivity | vm_compute; discriminate].
Qed.

Lemma unknown_code_response_differs_witness :
  select_file "zzz999" (Scenario.state_with Scenario.fresh_file) = None
  /\ select_file "abc123" (Scenario.state_with Scenario.fresh_file)
     = Some Scenario.fresh_file
  /\ answer (Scenario.scenario_run "zzz999" Scenario.wrong_request Scenario.fresh_file)
     = not_found_response
  /\ answer (Scenario.scenario_run "abc123" Scenario.wrong_request Scenario.fresh_file)
     <> not_found_response.
Proof.
  assert (Hnone : select_file "zzz999" (Scenario.state_with Scenario.fresh_file)
                  = None) by reflexivity.
  assert (Hsome : select_file "abc123" (Scenario.state_with Scenario.fresh_file)
                  = Some Scenario.fresh_file) by reflexivity.
  split; [exact Hnone|]. split; [exact Hsome|].
  destruct (unknown_code_response_differs
              Scenario.secret_key Scenario.verify_password
              "zzz999" "abc123" Scenario.wrong_request Scenario.wrong_request
              Scenario.some_draws Scenario.some_draws
              (Scenario.state_with Scenario.fresh_file)
              (Scenario.state_with Scenario.fresh_file)
              Scenario.fresh_file Hnone Hsome) as [H404 Hother].
  split; [exact H404 | exact Hother].
Defined.

(** C8, as stated, fails: the same wrong password gets the 404 "File not
    found" error for a code that does not exist and another answer for
    one that does, the CAPTCHA-required response when three attempts have
    failed before. *)
Lemma unknown_code_is_distinguishable :
  answer (Scenario.scenario_run "zzz999" Scenario.wrong_request Scenario.fresh_file)
  = HTTPException 404 (Text "File not found")
  /\ answer (Scenario.scenario_run "abc123" Scenario.wrong_request Scenario.locked_file)
     = HTTPException 428 (CaptchaRequired "b572ff25be131249" "What is 7 + 5?" 0 None)
  /\ answer (Scenario.scenario_run "zzz999" Scenario.wrong_request Scenario.fresh_file)
     <> answer (Scenario.scenario_run "abc123" Scenario.wrong_request Scenario.fresh_file).
Proof.
  split; [vm_compute; reflexivity|].
  split; [vm_compute; reflexivity | vm_compute; discriminate].
Qed.

End HandlerScenario.

(** ** The threat ledger *)

Section LedgerProperties.
Import Redis Defense Ledger.

Lemma get_unavailable (k : string) (c : client) :
  available c = false -> get k c = (Raise ConnectionError, c).
Proof. intros H. unfold get, connected. rewrite H. reflexivity. Qed.

Lemma get_available (k : string) (d : gmap string value) :
  get k (Client true d) = (Return (d !! k), Client true d).
Proof. reflexivity. Qed.

(** C4 (as amended). When the store cannot be reached, [get_threat_level]
    does not answer with level 0: the error of its first read is raised
    to the caller, and nothing is changed. *)
Theorem threat_level_raises_when_store_is_down (identifier : string) (c : client) :
  available c = false ->
  get_threat_level identifier c = (Raise ConnectionError, c).
Proof.
  intros Hdown. unfold get_threat_level, bind.
  rewrite (get_unavailable _ _ Hdown). reflexivity.
Qed.

Lemma threat_level_raises_when_store_is_down_witness :
  available (Client false ∅) = false
  /\ get_threat_level "203.0.113.7" (Client false ∅)
     = (Raise ConnectionError, Client false ∅).
Proof.
  split; [reflexivity|].
  apply threat_level_raises_when_store_is_down. reflexivity.
Defined.

(** C4, as stated, fails: with the store down the query does not return
    the level-0 dictionary, it raises the connection error. *)
Lemma threat_level_does_not_fail_open :
  fst (get_threat_level "203.0.113.7" (Client false ∅)) = Raise ConnectionError
  /\ fst (get_threat_level "203.0.113.7" (Client false ∅))
     <> Return (Required none 0 0).
Proof.
  split; [reflexivity|]. vm_compute. discriminate.
Qed.

(** What the query computes on a reachable store: the maximum of the
    three counters kept under the one identifier it is given. *)
Lemma threat_level_reads_one_identifier (identifier : string) (d : gmap string value) :
  is_counter d ("asr:attempts:ip:" +:+ identifier) ->
  is_counter d ("asr:attempts:email:" +:+ identifier) ->
  is_counter d ("asr:attempts:fp:" +:+ identifier) ->
  d !! ("asr:blocked:" +:+ identifier) = None ->
  0 <= counter d ("asr:attempts:ip:" +:+ identifier) ->
  0 <= counter d ("asr:attempts:email:" +:+ identifier) ->
  0 <= counter d ("asr:attempts:fp:" +:+ identifier) ->
  get_threat_level identifier (Client true d)
  = (Return (find_level
               (Z.max (counter d ("asr:attempts:ip:" +:+ identifier))
                  (Z.max (counter d ("asr:attempts:email:" +:+ identifier))
                         (counter d ("asr:attempts:fp:" +:+ identifier))))),
     Client true d).
Proof.
  unfold get_threat_level, is_counter, counter.
  set (kip := "asr:attempts:ip:" +:+ identifier).
  set (kem := "asr:attempts:email:" +:+ identifier).
  set (kfp := "asr:attempts:fp:" +:+ identifier).
  set (kbl := "asr:blocked:" +:+ identifier).
  clearbody kip kem kfp kbl.
  intros Hip Hem Hfp Hfree Pip Pem Pfp.
  unfold bind. rewrite get_available.
  destruct (d !! kip) as [[n1| | | |]|]; try contradiction;
    cbn -[get find_level Z.max]; rewrite get_available;
    destruct (d !! kem) as [[n2| | | |]|]; try contradiction;
    cbn -[get find_level Z.max]; rewrite get_available;
    destruct (d !! kfp) as [[n3| | | |]|]; try contradiction;
    cbn -[get find_level Z.max]; rewrite get_available, Hfree;
    unfold ret; do 3 f_equal; lia.
Qed.

(** C5: the code at the failing input.  After three failures recorded for
    the account, its hashed-identifier counter holds 3, yet the query made
    for the same account's next request, from a second address, reports
    0 attempts and no action, where the maximum over the identifiers of
    that request is 3 (the arithmetic challenge). *)
Theorem ledger_ignores_hashed_login_failures :
  let c := snd (three_failures (Client true ∅)) in
  email_hash "user@example.com" = "b4c9a289323b21a0"
  /\ data c !! "asr:attempts:email:b4c9a289323b21a0" = Some (VInt 3)
  /\ data c !! "asr:attempts:ip:10.0.0.2" = None
  /\ fst (get_threat_level "10.0.0.2" c) = Return (Required none 0 0)
  /\ find_level (Z.max 0 3) = Required simple_math 1 3.
Proof.
  vm_compute. repeat split; reflexivity.
Qed.

End LedgerProperties.

(** ** Download tokens *)

Section TokenProperties.
Import DownloadTokens TokenHistory.

Lemma redeemed_is_spent token f ip now (t : tokens) :
  fst (verify_download_token token f ip now t) = true ->
  spent token (snd (verify_download_token token f ip now t)).
Proof.
  unfold verify_download_token, spent.
  destruct (negb (Py.truthy token)); [discriminate|].
  destruct (t !! Sha256.hexdigest token) as [d|]; [|discriminate].
  destruct (used d); [discriminate|].
  destruct (Py.float_gt _ _); [discriminate|].
  destruct (negb (String.eqb (file_id d) f)); [discriminate|].
  destruct (negb (String.eqb (user_ip d) ip)); [discriminate|].
  intros _. cbn [snd]. rewrite lookup_insert_eq. reflexivity.
Qed.

Lemma spent_is_refused token f ip now (t : tokens) :
  spent token t -> fst (verify_download_token token f ip now t) = false.
Proof.
  unfold verify_download_token, spent.
  destruct (negb (Py.truthy token)); [reflexivity|].
  destruct (t !! Sha256.hexdigest token) as [d|]; [|reflexivity].
  intros ->. reflexivity.
Qed.

Lemma spent_insert_used token h d (t : tokens) :
  spent token t -> used d = true -> spent token (<[h := d]> t).
Proof.
  unfold spent. intros Hs Hd.
  destruct (decide (h = Sha256.hexdigest token)) as [->|Hne].
  - rewrite lookup_insert_eq. exact Hd.
  - rewrite lookup_insert_ne by exact Hne. exact Hs.
Qed.

Lemma spent_delete token h (t : tokens) :
  spent token t -> spent token (delete h t).
Proof.
  unfold spent. intros Hs.
  destruct (decide (h = Sha256.hexdigest token)) as [->|Hne].
  - rewrite lookup_delete_eq. exact I.
  - rewrite lookup_delete_ne by exact Hne. exact Hs.
Qed.

Lemma spent_cleanup token now (t : tokens) :
  spent token t -> spent token (_cleanup_expired now t).
Proof.
  unfold spent, _cleanup_expired. intros Hs.
  destruct (filter _ t !! Sha256.hexdigest token) as [d|] eqn:Hd; [|exact I].
  apply map_lookup_filter_Some_1_1 in Hd. rewrite Hd in Hs. exact Hs.
Qed.

Lemma spent_step token c (t : tokens) :
  spent token t -> draws_another token c -> spent token (step t c).
Proof.
  intros Hs Hc. destruct c as [token' f ip pv now nc | token' f ip now]; cbn.
  - apply spent_cleanup. unfold spent. cbn in Hc.
    rewrite lookup_insert_ne by exact Hc. exact Hs.
  - unfold verify_download_token.
    destruct (negb (Py.truthy token')); [exact Hs|].
    destruct (t !! Sha256.hexdigest token') as [d|]; [|exact Hs].
    destruct (used d); [exact Hs|].
    destruct (Py.float_gt _ _); [apply spent_delete; exact Hs|].
    destruct (negb (String.eqb (file_id d) f)); [exact Hs|].
    destruct (negb (String.eqb (user_ip d) ip)); [exact Hs|].
    apply spent_insert_used; [exact Hs | reflexivity].
Qed.

Lemma spent_after token calls (t : tokens) :
  spent token t -> Forall (draws_another token) calls -> spent token (after calls t).
Proof.
  intros Hs Hcalls. revert t Hs.
  induction Hcalls as [|c calls Hc _ IH]; intros t Hs; [exact Hs|].
  cbn. apply IH. apply spent_step; assumption.
Qed.

(** C2. Once [verify_download_token] has returned true for a token, every
    later [verify_download_token] of that token returns false, whatever
    file, address and time it is called with and whatever calls on the
    manager come in between (later mints drawing other tokens): the
    redemption marked the entry used. *)
Theorem token_redeems_at_most_once
    (token f ip : string) (now : Q) (t : tokens)
    (calls : list call) (f' ip' : string) (now' : Q) :
  fst (verify_download_token token f ip now t) = true ->
  Forall (draws_another token) calls ->
  fst (verify_download_token token f' ip' now'
         (after calls (snd (verify_download_token token f ip now t))))
  = false.
Proof.
  intros Hok Hcalls.
  apply spent_is_refused, spent_after; [|exact Hcalls].
  apply redeemed_is_spent. exact Hok.
Qed.

End TokenProperties.

Section TokenScenarioProperties.
Import DownloadTokens TokenHistory TokenScenario.

Lemma token_redeems_at_most_once_witness :
  fst (verify_download_token the_token "file-1" "198.51.100.4" 1700000010 minted)
  = true
  /\ Forall (draws_another the_token) later_calls
  /\ fst (verify_download_token the_token "file-1" "198.51.100.4" 1700000020
            (after later_calls
               (snd (verify_download_token the_token "file-1" "198.51.100.4"
                                           1700000010 minted))))
     = false.
Proof.
  assert (Hok : fst (verify_download_token the_token "file-1" "198.51.100.4"
                                           1700000010 minted) = true)
    by (vm_compute; reflexivity).
  assert (Hcalls : Forall (draws_another the_token) later_calls).
  { repeat constructor. vm_compute. discriminate. }
  split; [exact Hok|]. split; [exact Hcalls|].
  exact (token_redeems_at_most_once the_token "file-1" "198.51.100.4" 1700000010
           minted later_calls "file-1" "198.51.100.4" 1700000020 Hok Hcalls).
Defined.

Example token_table_after_later_calls :
  fst (verify_download_token other_token "file-2" "198.51.100.9" 1700000013
         (after [ Redeem the_token "file-1" "198.51.100.4" 1700000011;
                  Mint other_token "file-2" "198.51.100.9" false
                       1700000012 1700000012 ]
                (snd (verify_download_token the_token "file-1" "198.51.100.4"
                                            1700000010 minted))))
  = true.
Proof. vm_compute. reflexivity. Qed.

End TokenScenarioProperties.

(** ** Proof of work: which solutions are accepted *)

Section PowProperties.
Import Redis PowSpec.

Lemma prefix_of_zeros (n : nat) (h : string) :
  String.prefix (string_of_list_ascii (List.repeat "0"%char n)) h = true
  <-> (n <= leading_zeros h)%nat.
Proof.
  revert h. induction n as [|n IH]; intros h; cbn.
  - split; [lia | intros _; destruct h; reflexivity].
  - destruct h as [|c rest]; cbn -[ascii_dec Ascii.eqb];
      [split; [discriminate | lia]|].
    destruct (ascii_dec "0" c) as [<-|Hne].
    + rewrite Ascii.eqb_refl, IH. lia.
    + destruct (Ascii.eqb_spec c "0") as [->|_]; [contradiction|].
      split; [discriminate | lia].
Qed.

(** The check of the code, [hash.startswith("0" * d)], is the predicate
    "at least [d] leading zeros". *)
Lemma startswith_zeros (d : Z) (h : string) :
  Py.startswith h (Py.str_mul "0" d) = true <-> enough_zeros d h.
Proof.
  unfold Py.startswith, Py.str_mul, enough_zeros.
  rewrite prefix_of_zeros. lia.
Qed.

Lemma pow_key_is_not_a_token_key (challenge_id token : string) :
  "pow_token:" +:+ token <> "pow:" +:+ challenge_id.
Proof. cbn. intros [=]. Qed.

(** C3 (as amended).  [ServerSidePoW.verify_challenge], on a stored
    challenge with nonce [P] and difficulty [d] that is unused, unexpired
    and bound to the caller's address and resource, accepts exactly the
    solutions [s] whose digest of [P + ":" + s] has at least [d] leading
    zeros.  [AdaptiveSecurityResponse.verify_challenge] hashes the prefix
    and the solution with nothing between them: for a non-empty id and
    solution it accepts exactly when the digest of [P + s] has at least
    [d] leading zeros. *)
Theorem pow_accepts_exactly_the_low_digests :
  (forall (secret_key challenge_id s ip resource P : string) (timestamp d : Z)
          (now now_token : Q) (store : gmap string value),
     store !! ("pow:" +:+ challenge_id)
       = Some (VServerPow ip resource P timestamp d false) ->
     Py.float_gt (now - inject_Z timestamp) (inject_Z ServerPow.challenge_ttl)
       = false ->
     exists accepted token,
       fst (ServerPow.verify_challenge secret_key challenge_id s ip resource
                                       now now_token (Client true store))
       = Return (accepted, token)
       /\ (accepted = true
           <-> enough_zeros d (Sha256.hexdigest (P +:+ ":" +:+ s))))
  /\ (forall (challenge_id s P : string) (d : Z) (created : Q)
             (store : gmap string value),
        store !! ("asr:challenge:" +:+ challenge_id) = Some (VPow P d created) ->
        Py.truthy challenge_id = true ->
        Py.truthy s = true ->
        exists accepted,
          fst (Defense.verify_challenge challenge_id s (Client true store))
          = Return accepted
          /\ (accepted = true <-> enough_zeros d (Sha256.hexdigest (P +:+ s)))).
Proof.
  split.
  - intros secret_key challenge_id s ip resource P timestamp d now now_token store
           Hstored Hfresh.
    unfold ServerPow.verify_challenge, bind, get, connected.
    cbn [available data]. rewrite Hstored. cbn [lift ServerPow.loads].
    rewrite !String.eqb_refl, Hfresh. cbn [negb].
    pose proof (startswith_zeros d (Sha256.hexdigest (P +:+ ":" +:+ s))) as Hz.
    destruct (Py.startswith _ _).
    + eexists true, _. split; [reflexivity|].
      split; [intros _; apply Hz; reflexivity | reflexivity].
    + eexists false, _. split; [reflexivity|].
      split; [discriminate | intros H; apply Hz in H; discriminate].
  - intros challenge_id s P d created store Hstored Hid Hs.
    unfold Defense.verify_challenge. rewrite Hid, Hs. cbn [negb orb].
    unfold bind, get, connected. cbn [available data]. rewrite Hstored.
    unfold catch, Defense.check_and_consume, bind, delete, connected.
    cbn [available data ret fst].
    pose proof (startswith_zeros d (Sha256.hexdigest (P +:+ s))) as Hz.
    destruct (Py.startswith _ _).
    + exists true. split; [reflexivity|].
      split; [intros _; apply Hz; reflexivity | reflexivity].
    + exists false. split; [reflexivity|].
      split; [discriminate | intros H; apply Hz in H; discriminate].
Qed.

End PowProperties.

Section PowScenarioProperties.
Import Redis PowSpec PowScenario.

Example stored_challenges :
  data server_store !! "pow:00112233445566778899aabbccddeeff"
  = Some (VServerPow address resource server_nonce 1700000000 3 false)
  /\ data ladder_store !! "asr:challenge:kT9wQ2xLr7Zc4VbN1mYp3A"
     = Some (VPow ladder_prefix 2 1700000000).
Proof. split; vm_compute; reflexivity. Qed.

Lemma pow_accepts_exactly_the_low_digests_witness :
  (exists accepted token,
     fst (ServerPow.verify_challenge Scenario.secret_key server_challenge_id
            "1451" address resource 1700000009 1700000009
            (Client true (data server_store)))
     = Return (accepted, token)
     /\ (accepted = true
         <-> enough_zeros 3 (Sha256.hexdigest (server_nonce +:+ ":" +:+ "1451"))))
  /\ (exists accepted,
        fst (Defense.verify_challenge ladder_challenge_id "41"
               (Client true (data ladder_store)))
        = Return accepted
        /\ (accepted = true
            <-> enough_zeros 2 (Sha256.hexdigest (ladder_prefix +:+ "41")))).
Proof.
  destruct pow_accepts_exactly_the_low_digests as [Hserver Hladder].
  split.
  - apply (Hserver Scenario.secret_key server_challenge_id "1451" address resource
             server_nonce 1700000000 3 1700000009%Q 1700000009%Q (data server_store));
      vm_compute; reflexivity.
  - apply (Hladder ladder_challenge_id "41" ladder_prefix 2 1700000000%Q
             (data ladder_store));
      vm_compute; reflexivity.
Defined.

(** C3, as stated, fails on the ladder's verifier: it accepts the
    solution ["41"], for which the digest of [P + ":" + s] has no leading
    zero where two are demanded, and it rejects ["17"], for which that
    digest has two. *)
Lemma ladder_verifier_hashes_without_separator :
  fst (Defense.verify_challenge ladder_challenge_id "41" ladder_store) = Return true
  /\ ~ enough_zeros 2 (Sha256.hexdigest (ladder_prefix +:+ ":" +:+ "41"))
  /\ fst (Defense.verify_challenge ladder_challenge_id "17" ladder_store) = Return false
  /\ enough_zeros 2 (Sha256.hexdigest (ladder_prefix +:+ ":" +:+ "17")).
Proof.
  split; [vm_compute; reflexivity|].
  split.
  - assert (H : leading_zeros (Sha256.hexdigest (ladder_prefix +:+ ":" +:+ "41"))
                = 0%nat) by (vm_compute; reflexivity).
    unfold enough_zeros. rewrite H. lia.
  - split; [vm_compute; reflexivity|].
    assert (H : leading_zeros (Sha256.hexdigest (ladder_prefix +:+ ":" +:+ "17"))
                = 2%nat) by (vm_compute; reflexivity).
    unfold enough_zeros. rewrite H. lia.
Qed.

End PowScenarioProperties.

(** ** Challenges: how often one can be verified *)

Section ChallengeProperties.
Import Redis.

Lemma ladder_verify_consumes (id s : string) (c : client) (b : bool) :
  Py.truthy id = true ->
  Py.truthy s = true ->
  fst (Defense.verify_challenge id s c) = Return b ->
  data (snd (Defense.verify_challenge id s c)) !! ("asr:challenge:" +:+ id) = None.
Proof.
  intros Hid Hs. unfold Defense.verify_challenge. rewrite Hid, Hs. cbn [negb orb].
  set (key := "asr:challenge:" +:+ id). clearbody key.
  unfold bind, get, connected.
  destruct (available c); [|discriminate]. cbn [data].
  destruct (data c !! key) as [v|] eqn:Hk.
  - intros _. unfold catch, Defense.check_and_consume, bind, delete, connected.
    cbn [available data].
    destruct v; cbn; apply lookup_delete_eq.
  - intros _. cbn. exact Hk.
Qed.

Lemma ladder_verify_absent (id s : string) (c : client) :
  data c !! ("asr:challenge:" +:+ id) = None ->
  available c = true ->
  fst (Defense.verify_challenge id s c) = Return false.
Proof.
  intros Hk Hup. unfold Defense.verify_challenge.
  destruct (_ || _); [reflexivity|].
  unfold bind, get, connected. rewrite Hup, Hk. reflexivity.
Qed.

Lemma ladder_verify_needs_both (id s : string) (c : client) :
  Py.truthy id = false \/ Py.truthy s = false ->
  Defense.verify_challenge id s c = (Return false, c).
Proof.
  intros Hempty. unfold Defense.verify_challenge.
  destruct Hempty as [-> | ->]; [reflexivity|].
  rewrite orb_true_r. reflexivity.
Qed.

Lemma server_verify_marks_used
    (secret_key id s ip resource : string) (now now_token : Q) (c : client)
    (token : option string) :
  fst (ServerPow.verify_challenge secret_key id s ip resource now now_token c)
  = Return (true, token) ->
  exists ip0 resource0 nonce timestamp d,
    data (snd (ServerPow.verify_challenge secret_key id s ip resource
                                          now now_token c))
      !! ("pow:" +:+ id)
    = Some (VServerPow ip0 resource0 nonce timestamp d true).
Proof.
  unfold ServerPow.verify_challenge, bind, get, connected.
  destruct (available c); [|discriminate]. cbn [data].
  destruct (data c !! ("pow:" +:+ id)) as [v|]; [|discriminate].
  destruct v as [n|a|ch df cr|ip0 resource0 nonce timestamp d used|i r t];
    try discriminate.
  cbn [lift ServerPow.loads].
  destruct used; [discriminate|].
  destruct (negb (String.eqb ip0 ip)); [discriminate|].
  destruct (negb (String.eqb resource0 resource)); [discriminate|].
  destruct (Py.float_gt _ _); [discriminate|].
  destruct (Py.startswith _ _); [|discriminate].
  intros _. exists ip0, resource0, nonce, timestamp, d.
  unfold ServerPow._generate_access_token, bind, setex, connected.
  cbn [available data snd ret].
  rewrite lookup_insert_ne by apply pow_key_is_not_a_token_key.
  apply lookup_insert_eq.
Qed.

Lemma server_verify_refuses_used
    (secret_key id s ip resource : string) (now now_token : Q) (c : client) :
  available c = true ->
  (data c !! ("pow:" +:+ id) = None
   \/ exists ip0 resource0 nonce timestamp d,
        data c !! ("pow:" +:+ id)
        = Some (VServerPow ip0 resource0 nonce timestamp d true)) ->
  fst (ServerPow.verify_challenge secret_key id s ip resource now now_token c)
  = Return (false, None).
Proof.
  intros Hup Hk. unfold ServerPow.verify_challenge, bind, get, connected.
  rewrite Hup. cbn [data].
  destruct Hk as [-> | (ip0 & resource0 & nonce & timestamp & d & ->)];
    reflexivity.
Qed.

Lemma server_verify_refusal_keeps
    (secret_key id s ip resource : string) (now now_token : Q) (c : client)
    (token : option string) :
  fst (ServerPow.verify_challenge secret_key id s ip resource now now_token c)
  = Return (false, token) ->
  data (snd (ServerPow.verify_challenge secret_key id s ip resource
                                        now now_token c))
  = data c.
Proof.
  unfold ServerPow.verify_challenge, bind, get, connected.
  destruct (available c); [|discriminate]. cbn [data].
  destruct (data c !! ("pow:" +:+ id)) as [v|]; [|reflexivity].
  destruct v as [n|a|ch df cr|ip0 resource0 nonce timestamp d used|i r t];
    try discriminate.
  cbn [lift ServerPow.loads].
  destruct used; [reflexivity|].
  destruct (negb (String.eqb ip0 ip)); [reflexivity|].
  destruct (negb (String.eqb resource0 resource)); [reflexivity|].
  destruct (Py.float_gt _ _); [reflexivity|].
  destruct (Py.startswith _ _); [discriminate | reflexivity].
Qed.

Lemma still_absent (k : string) (small large : gmap string value) :
  small ⊆ large -> large !! k = None -> small !! k = None.
Proof. intros Hsub Hk. exact (lookup_weaken_None _ _ _ Hk Hsub). Qed.

(** C1 (as amended).  [AdaptiveSecurityResponse.verify_challenge], called
    with a non-empty id and solution on a reachable store, deletes the
    record whatever the outcome: any later call with that id returns
    false (the store may have lost keys in between, no challenge being
    stored anew under the id); a call with an empty id or solution returns
    false and leaves the store as it is.  [ServerSidePoW.verify_challenge]
    consumes a challenge only when it accepts: after an accepted solution
    every later call with that id returns [(False, None)], and a refused
    call leaves the stored record unchanged. *)
Theorem challenge_is_consumed_by_verification :
  (forall (id s s' : string) (b : bool) (c c'' : client),
     Py.truthy id = true ->
     Py.truthy s = true ->
     fst (Defense.verify_challenge id s c) = Return b ->
     data c'' ⊆ data (snd (Defense.verify_challenge id s c)) ->
     available c'' = true ->
     fst (Defense.verify_challenge id s' c'') = Return false)
  /\ (forall (id s : string) (c : client),
        Py.truthy id = false \/ Py.truthy s = false ->
        Defense.verify_challenge id s c = (Return false, c))
  /\ (forall (secret_key id s ip resource s' ip' resource' : string)
             (now now_token now' now_token' : Q) (token : option string)
             (c c'' : client),
        fst (ServerPow.verify_challenge secret_key id s ip resource
                                        now now_token c)
        = Return (true, token) ->
        data c'' ⊆ data (snd (ServerPow.verify_challenge secret_key id s ip
                                 resource now now_token c)) ->
        available c'' = true ->
        fst (ServerPow.verify_challenge secret_key id s' ip' resource'
                                        now' now_token' c'')
        = Return (false, None))
  /\ (forall (secret_key id s ip resource : string) (now now_token : Q)
             (token : option string) (c : client),
        fst (ServerPow.verify_challenge secret_key id s ip resource
                                        now now_token c)
        = Return (false, token) ->
        data (snd (ServerPow.verify_challenge secret_key id s ip resource
                                              now now_token c))
        = data c).
Proof.
  split; [|split; [|split]].
  - intros id s s' b c c'' Hid Hs Hret Hsub Hup.
    apply ladder_verify_absent; [|exact Hup].
    apply (still_absent _ _ _ Hsub).
    exact (ladder_verify_consumes id s c b Hid Hs Hret).
  - exact ladder_verify_needs_both.
  - intros secret_key id s ip resource s' ip' resource' now now_token
           now' now_token' token c c'' Hret Hsub Hup.
    apply server_verify_refuses_used; [exact Hup|].
    apply server_verify_marks_used in Hret
      as (ip0 & resource0 & nonce & timestamp & d & Hused).
    destruct (data c'' !! ("pow:" +:+ id)) as [v|] eqn:Hk; [|left; reflexivity].
    right. exists ip0, resource0, nonce, timestamp, d.
    apply (lookup_weaken _ _ _ _ Hk) in Hsub. congruence.
  - intros secret_key id s ip resource now now_token token c.
    apply server_verify_refusal_keeps.
Qed.

End ChallengeProperties.

Section ChallengeScenario.
Import Redis PowScenario.

Lemma challenge_is_consumed_by_verification_witness :
  fst (Defense.verify_challenge ladder_challenge_id "41"
         (snd (Defense.verify_challenge ladder_challenge_id "40" ladder_store)))
  = Return false
  /\ fst (ServerPow.verify_challenge Scenario.secret_key server_challenge_id
            "1451" address resource 1700000010 1700000010
            (snd (ServerPow.verify_challenge Scenario.secret_key
                    server_challenge_id "1451" address resource
                    1700000009 1700000009 server_store)))
     = Return (false, None).
Proof.
  destruct challenge_is_consumed_by_verification as (Hladder & _ & Hserver & _).
  split.
  - apply (Hladder ladder_challenge_id "40" "41" false ladder_store);
      [reflexivity | reflexivity | vm_compute; reflexivity | reflexivity
      | vm_compute; reflexivity].
  - apply (Hserver Scenario.secret_key server_challenge_id "1451" address resource
             "1451" address resource 1700000009%Q 1700000009%Q
             1700000010%Q 1700000010%Q
             (Some "1700000009:b6529622a3f66ef58f6d3a265533f44e402f85a3afe2fa5fbcf04610f450a47d")
             server_store);
      [vm_compute; reflexivity | reflexivity | vm_compute; reflexivity].
Defined.

(** C1, as stated, fails on [ServerSidePoW]: after a verification with a
    wrong solution, refused, a second verification of the same challenge
    id with a right solution is accepted and hands out an access token. *)
Lemma refused_challenge_can_be_verified_again :
  fst (ServerPow.verify_challenge Scenario.secret_key server_challenge_id "0"
         address resource 1700000005 1700000005 server_store)
  = Return (false, None)
  /\ fst (ServerPow.verify_challenge Scenario.secret_key server_challenge_id "1451"
            address resource 1700000009 1700000009
            (snd (ServerPow.verify_challenge Scenario.secret_key
                    server_challenge_id "0" address resource
                    1700000005 1700000005 server_store)))
     = Return (true,
               Some "1700000009:b6529622a3f66ef58f6d3a265533f44e402f85a3afe2fa5fbcf04610f450a47d").
Proof. split; vm_compute; reflexivity. Qed.

(** On the ladder's verifier, a call with an empty solution does not
    consume the challenge either. *)
Example empty_solution_keeps_the_challenge :
  fst (Defense.verify_challenge ladder_challenge_id "" ladder_store) = Return false
  /\ fst (Defense.verify_challenge ladder_challenge_id "41"
            (snd (Defense.verify_challenge ladder_challenge_id "" ladder_store)))
     = Return true.
Proof. split; vm_compute; reflexivity. Qed.

End ChallengeScenario.

(** ** The code on small inputs *)

Section SmallInputs.
Import Redis.

(** A call of [record_success] that runs alone forgives one failure and
    leaves a counter of zero at zero. *)
Example forgiveness_stops_at_zero :
  data (snd (Defense.record_success "10.0.0.1" None None
               (Client true {[ "asr:attempts:ip:10.0.0.1" := VInt 1 ]})))
  = {[ "asr:attempts:ip:10.0.0.1" := VInt 0 ]}
  /\ data (snd (Defense.record_success "10.0.0.1" None None
                  (Client true {[ "asr:attempts:ip:10.0.0.1" := VInt 0 ]})))
     = {[ "asr:attempts:ip:10.0.0.1" := VInt 0 ]}.
Proof. split; vm_compute; reflexivity. Qed.

(** The fiftieth failure sets the durable flag, after which the query
    answers "blocked". *)
Example fiftieth_failure_blocks :
  let c := snd (Defense.record_failure "10.0.0.1" None None
                  (Client true {[ "asr:attempts:ip:10.0.0.1" := VInt 49 ]})) in
  data c !! "asr:blocked:10.0.0.1" = Some (VInt 1)
  /\ fst (Defense.get_threat_level "10.0.0.1" c) = Return (Defense.Blocked 50)
  /\ fst (Defense.create_challenge "10.0.0.1"
            (Defense.Draws 0 0 "id" "prefix" 1700000000) c) = Return None.
Proof. vm_compute. repeat split; reflexivity. Qed.

(** The arithmetic challenge of the ladder and its single verification. *)
Example arithmetic_challenge :
  let issued := Defense.create_challenge "10.0.0.1"
                  (Defense.Draws 6 2 "kT9wQ2xLr7Zc4VbN1mYp3A" "unused" 1700000000)
                  (Client true {[ "asr:attempts:ip:10.0.0.1" := VInt 4 ]}) in
  fst issued
  = Return (Some (Defense.MathChallenge "kT9wQ2xLr7Zc4VbN1mYp3A" "What is 7 + 3?" 1))
  /\ fst (Defense.verify_challenge "kT9wQ2xLr7Zc4VbN1mYp3A" "10" (snd issued))
     = Return true
  /\ fst (Defense.verify_challenge "kT9wQ2xLr7Zc4VbN1mYp3A" "11" (snd issued))
     = Return false.
Proof. vm_compute. repeat split; reflexivity. Qed.

(** A subtraction CAPTCHA orders its operands; the answer is stripped
    before it is compared, and the entry is removed by the check. *)
Example subtraction_captcha :
  let issued := Captcha.generate_captcha "test-secret-key"
                  (Captcha.Draws 4 9 Captcha.Minus "1700000000.5"
                                 1700000000 1700000000) ∅ in
  snd (fst issued) = "What is 9 - 4?"%string
  /\ fst (Captcha.verify_captcha (fst (fst issued)) " 5 " 1700000100 (snd issued))
     = true
  /\ snd (Captcha.verify_captcha (fst (fst issued)) " 5 " 1700000100 (snd issued))
     = ∅
  /\ fst (Captcha.verify_captcha (fst (fst issued)) "5" 1700000301 (snd issued))
     = false.
Proof. vm_compute. repeat split; reflexivity. Qed.

(** The handler on a correct password: the counter is reset and a token
    is minted, bound to the file and the address; the audit call then
    raises and the token is not handed out. *)
Example correct_password_mints_a_token :
  let out := Scenario.scenario_run "abc123" Scenario.right_request
               Scenario.fresh_file in
  SecureDownload.answer out = SecureDownload.DBAPIError
  /\ fst (DownloadTokens.verify_download_token
            "mK3vXq0Zt1yR8bN5cW2eH7pL4sD9fG6jA0uI3oT5xYw"
            "0b9f3c1e-7a52-4a5e-9c57-2f6d1e8b4a10" "198.51.100.4" 1700000010
            (SecureDownload.tokens (SecureDownload.final out)))
     = true
  /\ fst (DownloadTokens.verify_download_token
            "mK3vXq0Zt1yR8bN5cW2eH7pL4sD9fG6jA0uI3oT5xYw"
            "0b9f3c1e-7a52-4a5e-9c57-2f6d1e8b4a10" "203.0.113.99" 1700000010
            (SecureDownload.tokens (SecureDownload.final out)))
     = false.
Proof. vm_compute. repeat split; reflexivity. Qed.

(** A file whose bandwidth is a million times its size passes the check;
    a used file of size zero makes the division fail. *)
Example bandwidth_samples :
  AbusePrevention.check_bandwidth_abuse
    {| AbusePrevention.bandwidth_used := 1000000; AbusePrevention.file_size := 1 |}
    AbusePrevention.FREE
  = AbusePrevention.Result true None
  /\ AbusePrevention.check_bandwidth_abuse
       {| AbusePrevention.bandwidth_used := 10; AbusePrevention.file_size := 0 |}
       AbusePrevention.PRO
     = AbusePrevention.ZeroDivisionError.
Proof. split; reflexivity. Qed.

End SmallInputs.


(** * Further properties of the modelled code *)

(** ** Digests and the identifiers cut from them *)

Section DigestProperties.

Lemma compress_length (h block : list Z) :
  length (Sha256.compress h block) = Nat.min (length h) 8.
Proof.
  unfold Sha256.compress.
  rewrite List.length_map, List.length_combine. reflexivity.
Qed.

Lemma digest_words_length (msg : list Z) :
  length (Sha256.digest_words msg) = 8%nat.
Proof.
  unfold Sha256.digest_words.
  generalize (Sha256.chunks (length (Sha256.pad msg) / 64)
                            (Sha256.be_words (Sha256.pad msg))).
  assert (Hinit : length Sha256.initial_hash = 8%nat) by reflexivity.
  revert Hinit. generalize Sha256.initial_hash.
  intros h Hh blocks. revert h Hh.
  induction blocks as [|b blocks IH]; intros h Hh; cbn [fold_left]; [exact Hh|].
  apply IH. rewrite compress_length, Hh. reflexivity.
Qed.

Lemma append_length (a b : string) :
  String.length (a +:+ b) = (String.length a + String.length b)%nat.
Proof.
  induction a as [|c a IH]; [reflexivity|].
  change (S (String.length (a +:+ b)) = S (String.length a + String.length b)).
  rewrite IH. reflexivity.
Qed.

Lemma hex_word_length (w : Z) : String.length (Sha256.hex_word w) = 8%nat.
Proof. reflexivity. Qed.

Lemma hex_words_length (ws : list Z) :
  String.length (fold_right String.append EmptyString (List.map Sha256.hex_word ws))
  = (8 * length ws)%nat.
Proof.
  induction ws as [|w ws IH]; [reflexivity|].
  cbn [List.map fold_right length].
  rewrite append_length, hex_word_length, IH. lia.
Qed.

Lemma hexdigest_length (s : string) :
  String.length (Sha256.hexdigest s) = 64%nat.
Proof.
  unfold Sha256.hexdigest. rewrite hex_words_length, digest_words_length.
  reflexivity.
Qed.

Lemma str_take_length (n : nat) (s : string) :
  (n <= String.length s)%nat -> String.length (Py.str_take n s) = n.
Proof.
  unfold Py.str_take. revert s.
  induction n as [|n IH]; intros s Hn.
  - destruct s; reflexivity.
  - destruct s as [|c s]; cbn in Hn; [lia|].
    cbn. rewrite IH by lia. reflexivity.
Qed.

Lemma truthy_of_length (s : string) :
  (0 < String.length s)%nat -> Py.truthy s = true.
Proof. destruct s; cbn; [lia | reflexivity]. Qed.

Lemma lower_idempotent (s : string) : Py.lower (Py.lower s) = Py.lower s.
Proof.
  induction s as [|c s IH]; [reflexivity|].
  cbn [Py.lower]. rewrite IH. f_equal.
  unfold Py.lower_char.
  destruct ((65 <=? nat_of_ascii c)%nat && (nat_of_ascii c <=? 90)%nat) eqn:Hup;
    [|rewrite Hup; reflexivity].
  apply andb_true_iff in Hup as [Hlo Hhi].
  apply Nat.leb_le in Hlo, Hhi.
  rewrite nat_ascii_embedding by lia.
  destruct (Nat.leb_spec (nat_of_ascii c + 32) 90) as [Hle|_]; [lia|].
  rewrite andb_false_r. reflexivity.
Qed.

(** X1. The key suffix under which a login name is tracked,
    [sha256(email.lower()).hexdigest()[:16]], has exactly 16 characters for
    every name (the empty one included) and does not depend on the case of
    the name's ASCII letters. *)
Theorem email_hash_is_16_characters_ignoring_case (email : string) :
  String.length (Defense.email_hash email) = 16%nat
  /\ Py.truthy (Defense.email_hash email) = true
  /\ Defense.email_hash (Py.lower email) = Defense.email_hash email.
Proof.
  assert (H : String.length (Defense.email_hash email) = 16%nat).
  { unfold Defense.email_hash. apply str_take_length.
    rewrite hexdigest_length. lia. }
  split; [exact H|]. split.
  - apply truthy_of_length. rewrite H. lia.
  - unfold Defense.email_hash. rewrite lower_idempotent. reflexivity.
Qed.

End DigestProperties.


(** ** Download tokens: minting, binding, expiry *)

Section TokenLifecycle.
Import DownloadTokens TokenHistory.

Lemma minted_entry (token f ip : string) (pv : bool) (now now_cleanup : Q)
    (t : tokens) :
  Py.float_gt (now_cleanup - now) token_expiry = false ->
  snd (create_download_token token f ip pv now now_cleanup t)
    !! Sha256.hexdigest token
  = Some (TokenData f ip pv now false).
Proof.
  intros Hfresh. unfold create_download_token, _cleanup_expired. cbn [snd].
  apply map_lookup_filter_Some_2; [apply lookup_insert_eq|].
  unfold stale. cbn. exact Hfresh.
Qed.

(** The entry of a fresh token passes every check of
    [verify_download_token]. *)
Lemma fresh_token_verifies
    (token f ip : string) (pv : bool) (now now_cleanup now' : Q) (t : tokens) :
  Py.truthy token = true ->
  Py.float_gt (now_cleanup - now) token_expiry = false ->
  Py.float_gt (now' - now) token_expiry = false ->
  fst (verify_download_token token f ip now'
         (snd (create_download_token token f ip pv now now_cleanup t)))
  = true.
Proof.
  intros Htok Hclean Hlive.
  unfold verify_download_token. rewrite Htok. cbn [negb].
  rewrite (minted_entry token f ip pv now now_cleanup t Hclean).
  cbn [used created_at file_id user_ip].
  rewrite Hlive, !String.eqb_refl. reflexivity.
Qed.

(** X2. A token minted for a file and an address redeems for that file and
    address: if the token is not empty and neither the cleanup of the mint
    nor the redemption comes more than 60 seconds after the mint,
    [verify_download_token] returns true. *)
Theorem minted_token_redeems
    (token f ip : string) (pv : bool) (now now_cleanup now' : Q) (t : tokens) :
  Py.truthy token = true ->
  Py.float_gt (now_cleanup - now) token_expiry = false ->
  Py.float_gt (now' - now) token_expiry = false ->
  fst (verify_download_token token f ip now'
         (snd (create_download_token token f ip pv now now_cleanup t)))
  = true.
Proof.
  intros Htok Hclean Hlive.
  apply fresh_token_verifies; assumption.
Qed.

Lemma minted_token_redeems_witness :
  Py.truthy TokenScenario.the_token = true
  /\ fst (verify_download_token TokenScenario.the_token "file-1" "198.51.100.4"
            1700000060
            (snd (create_download_token TokenScenario.the_token "file-1"
                    "198.51.100.4" true 1700000000 1700000000 ∅)))
     = true.
Proof.
  split; [reflexivity|].
  apply minted_token_redeems; reflexivity.
Defined.

(** X3. Binding: a live, unused token presented for another file or from
    another address is refused, and the table is left exactly as it was, so
    the token stays redeemable by its holder. *)
Theorem token_is_bound_to_file_and_address
    (token f' ip' : string) (now : Q) (t : tokens) (d : token_data) :
  Py.truthy token = true ->
  t !! Sha256.hexdigest token = Some d ->
  Py.float_gt (now - created_at d) token_expiry = false ->
  file_id d <> f' \/ user_ip d <> ip' ->
  verify_download_token token f' ip' now t = (false, t).
Proof.
  intros Htok Hd Hlive Hother.
  unfold verify_download_token. rewrite Htok, Hd, Hlive. cbn [negb].
  destruct (used d); [reflexivity|].
  destruct (String.eqb_spec (file_id d) f') as [Hf|_]; [|reflexivity].
  destruct (String.eqb_spec (user_ip d) ip') as [Hi|_]; [|reflexivity].
  destruct Hother; contradiction.
Qed.

Lemma token_is_bound_to_file_and_address_witness :
  TokenScenario.minted !! Sha256.hexdigest TokenScenario.the_token
  = Some (TokenData "file-1" "198.51.100.4" true 1700000000 false)
  /\ verify_download_token TokenScenario.the_token "file-1" "203.0.113.99"
       1700000010 TokenScenario.minted
     = (false, TokenScenario.minted).
Proof.
  assert (Hd : TokenScenario.minted !! Sha256.hexdigest TokenScenario.the_token
               = Some (TokenData "file-1" "198.51.100.4" true 1700000000 false))
    by (vm_compute; reflexivity).
  split; [exact Hd|].
  apply (token_is_bound_to_file_and_address TokenScenario.the_token "file-1"
           "203.0.113.99" 1700000010 TokenScenario.minted _ eq_refl Hd eq_refl).
  right. cbn. discriminate.
Defined.

(** X4. Expiry: an unused token presented more than 60 seconds after it was
    minted is refused even for the right file and address, its entry is
    removed, and no later call redeems it, whatever the clock then reads. *)
Theorem expired_token_is_removed
    (token f ip : string) (now : Q) (t : tokens) (d : token_data)
    (f' ip' : string) (now' : Q) :
  Py.truthy token = true ->
  t !! Sha256.hexdigest token = Some d ->
  used d = false ->
  Py.float_gt (now - created_at d) token_expiry = true ->
  verify_download_token token f ip now t
  = (false, delete (Sha256.hexdigest token) t)
  /\ fst (verify_download_token token f' ip' now'
            (snd (verify_download_token token f ip now t)))
     = false.
Proof.
  intros Htok Hd Hunused Hold.
  assert (Hv : verify_download_token token f ip now t
               = (false, delete (Sha256.hexdigest token) t)).
  { unfold verify_download_token. rewrite Htok, Hd, Hunused, Hold. reflexivity. }
  split; [exact Hv|].
  rewrite Hv. cbn [snd]. unfold verify_download_token.
  rewrite Htok, lookup_delete_eq. reflexivity.
Qed.

Lemma expired_token_is_removed_witness :
  Py.float_gt (1700000061 - 1700000000) token_expiry = true
  /\ verify_download_token TokenScenario.the_token "file-1" "198.51.100.4"
       1700000061 TokenScenario.minted
     = (false, delete (Sha256.hexdigest TokenScenario.the_token) TokenScenario.minted).
Proof.
  split; [reflexivity|].
  apply (expired_token_is_removed TokenScenario.the_token "file-1" "198.51.100.4"
           1700000061 TokenScenario.minted
           (TokenData "file-1" "198.51.100.4" true 1700000000 false)
           "file-1" "198.51.100.4" 1700000000);
    [reflexivity | vm_compute; reflexivity | reflexivity | reflexivity].
Defined.

(** X5. The mint sweeps the table: after [create_download_token] every
    entry is unused and at most 60 seconds old by the reading of the sweep;
    in particular a token that was redeemed is gone after the next mint of
    another token, and [get_token_data] no longer finds it. *)
Theorem mint_sweeps_used_and_expired
    (token f ip : string) (pv : bool) (now now_cleanup : Q) (t : tokens) :
  (forall h d,
     snd (create_download_token token f ip pv now now_cleanup t) !! h = Some d ->
     used d = false
     /\ Py.float_gt (now_cleanup - created_at d) token_expiry = false)
  /\ (forall redeemed,
        Py.truthy redeemed = true ->
        spent redeemed t ->
        Sha256.hexdigest token <> Sha256.hexdigest redeemed ->
        get_token_data redeemed
          (snd (create_download_token token f ip pv now now_cleanup t))
        = None).
Proof.
  split.
  - intros h d Hd. unfold create_download_token, _cleanup_expired in Hd.
    cbn [snd] in Hd. apply map_lookup_filter_Some_1_2 in Hd.
    unfold stale in Hd. cbn [snd] in Hd.
    apply orb_false_iff in Hd. exact Hd.
  - intros redeemed Htok Hspent Hne.
    unfold get_token_data. rewrite Htok. cbn [negb].
    unfold create_download_token, _cleanup_expired. cbn [snd].
    apply map_lookup_filter_None_2.
    rewrite lookup_insert_ne by exact Hne.
    unfold spent in Hspent.
    destruct (t !! Sha256.hexdigest redeemed) as [d|]; [|left; reflexivity].
    right. intros x [= <-]. unfold stale. cbn [snd]. rewrite Hspent.
    discriminate.
Qed.

(** The token of the worked history, redeemed once, is not found after
    the mint of the other token. *)
Lemma mint_sweeps_used_and_expired_witness :
  let t := snd (verify_download_token TokenScenario.the_token "file-1"
                  "198.51.100.4" 1700000011 TokenScenario.minted) in
  spent TokenScenario.the_token t
  /\ get_token_data TokenScenario.the_token
       (snd (create_download_token TokenScenario.other_token "file-2"
               "198.51.100.9" false 1700000012 1700000012 t))
     = None.
Proof.
  intros t.
  assert (Hspent : spent TokenScenario.the_token t) by (vm_compute; reflexivity).
  split; [exact Hspent|].
  destruct (mint_sweeps_used_and_expired TokenScenario.other_token "file-2"
              "198.51.100.9" false 1700000012 1700000012 t) as [_ Hgone].
  apply Hgone; [reflexivity | exact Hspent | vm_compute; discriminate].
Defined.

End TokenLifecycle.


(** ** The arithmetic CAPTCHA of the password handler *)

Section CaptchaProperties.
Import Captcha.

Lemma small_answers_are_clean (n : Z) :
  0 <= n <= 400 ->
  Py.strip (Py.str_of_int n) = Py.str_of_int n
  /\ Py.truthy (Py.str_of_int n) = true.
Proof.
  intros Hn.
  assert (Hall : forallb (fun k : nat =>
                   String.eqb (Py.strip (Py.str_of_int (Z.of_nat k)))
                              (Py.str_of_int (Z.of_nat k))
                   && Py.truthy (Py.str_of_int (Z.of_nat k)))
                   (seq 0 401) = true) by (vm_compute; reflexivity).
  rewrite forallb_forall in Hall.
  specialize (Hall (Z.to_nat n)).
  rewrite Z2Nat.id in Hall by lia.
  assert (Hin : In (Z.to_nat n) (seq 0 401)) by (apply in_seq; lia).
  apply Hall in Hin. apply andb_true_iff in Hin as [Heq Htruthy].
  apply String.eqb_eq in Heq. auto.
Qed.

Lemma captcha_id_is_not_empty (text : string) :
  Py.truthy (Py.str_take 16 (Sha256.hexdigest text)) = true.
Proof.
  apply truthy_of_length. rewrite str_take_length; [lia|].
  rewrite hexdigest_length. lia.
Qed.

(** X6. A CAPTCHA can be answered once.  Whatever the outcome of
    [verify_captcha] for a non-empty id and answer (right, wrong or
    expired), the entry is gone afterwards and a second answer to the same
    id is refused. *)
Theorem captcha_is_answered_once
    (captcha_id input input' : string) (now now' : Q) (st : store) :
  Py.truthy captcha_id = true ->
  Py.truthy input = true ->
  snd (verify_captcha captcha_id input now st) !! captcha_id = None
  /\ fst (verify_captcha captcha_id input' now'
            (snd (verify_captcha captcha_id input now st)))
     = false.
Proof.
  intros Hid Hin.
  assert (Hgone : snd (verify_captcha captcha_id input now st) !! captcha_id = None).
  { unfold verify_captcha. rewrite Hid, Hin. cbn [negb orb].
    destruct (st !! captcha_id) as [entry|] eqn:Hentry; [|exact Hentry].
    destruct (Py.float_gt _ _); cbn [snd]; apply lookup_delete_eq. }
  split; [exact Hgone|].
  unfold verify_captcha at 1.
  destruct (_ || _); [reflexivity|]. rewrite Hgone. reflexivity.
Qed.

Lemma captcha_is_answered_once_witness :
  fst (verify_captcha "b572ff25be131249" "12" 1700000020
         (snd (verify_captcha "b572ff25be131249" "13" 1700000010
                 (snd (generate_captcha "test-secret-key"
                         (Draws 7 5 Plus "1700000000.5" 1700000000 1700000000) ∅)))))
  = false.
Proof.
  apply (captcha_is_answered_once "b572ff25be131249" "13" "12"
           1700000010 1700000020); reflexivity.
Defined.

(** X7. The CAPTCHA that [generate_captcha] issues is answerable: for
    operands drawn from 1..20 and any operation, the stored answer is the
    text of a number that is not negative (a subtraction puts the larger
    operand first), and submitting that text within 300 seconds verifies. *)
Theorem issued_captcha_is_answerable
    (secret_key : string) (r : draws) (now : Q) (st : store) :
  1 <= randint_a r <= 20 ->
  1 <= randint_b r <= 20 ->
  Py.float_gt (clock_cleanup r - clock_created r) captcha_expiry = false ->
  Py.float_gt (now - clock_created r) captcha_expiry = false ->
  exists n,
    0 <= n
    /\ snd (generate_captcha secret_key r st)
         !! fst (fst (generate_captcha secret_key r st))
       = Some (CaptchaData (Py.str_of_int n) (clock_created r))
    /\ fst (verify_captcha (fst (fst (generate_captcha secret_key r st)))
              (Py.str_of_int n) now (snd (generate_captcha secret_key r st)))
       = true.
Proof.
  intros Ha Hb Hclean Hlive.
  unfold generate_captcha.
  set (ab := match choice r with
             | Minus => if randint_a r <? randint_b r
                        then (randint_b r, randint_a r)
                        else (randint_a r, randint_b r)
             | _ => (randint_a r, randint_b r)
             end).
  assert (Hrange : 0 <= op_func (choice r) (fst ab) (snd ab) <= 400).
  { subst ab. destruct (choice r); cbn; [nia| |nia].
    destruct (Z.ltb_spec (randint_a r) (randint_b r)); cbn; lia. }
  destruct ab as [a b]. cbn [fst snd] in *.
  set (n := op_func (choice r) a b) in *.
  set (cid := Py.str_take 16 _).
  destruct (small_answers_are_clean n Hrange) as [Hstrip Htruthy].
  assert (Hcid : Py.truthy cid = true) by apply captcha_id_is_not_empty.
  assert (Hstored : _cleanup_expired (clock_cleanup r)
                      (<[cid := CaptchaData (Py.str_of_int n) (clock_created r)]> st)
                      !! cid
                    = Some (CaptchaData (Py.str_of_int n) (clock_created r))).
  { unfold _cleanup_expired.
    apply map_lookup_filter_Some_2; [apply lookup_insert_eq | exact Hclean]. }
  exists n. split; [lia|]. split; [exact Hstored|].
  unfold verify_captcha. rewrite Hcid, Htruthy. cbn [negb orb].
  rewrite Hstored. cbn [created_at answer]. rewrite Hlive, Hstrip.
  apply String.eqb_refl.
Qed.

Lemma issued_captcha_is_answerable_witness :
  exists n,
    0 <= n
    /\ snd (generate_captcha "test-secret-key"
              (Draws 4 9 Minus "1700000000.5" 1700000000 1700000000) ∅)
         !! fst (fst (generate_captcha "test-secret-key"
                        (Draws 4 9 Minus "1700000000.5" 1700000000 1700000000) ∅))
       = Some (CaptchaData (Py.str_of_int n) 1700000000)
    /\ fst (verify_captcha
              (fst (fst (generate_captcha "test-secret-key"
                           (Draws 4 9 Minus "1700000000.5" 1700000000 1700000000) ∅)))
              (Py.str_of_int n) 1700000300
              (snd (generate_captcha "test-secret-key"
                      (Draws 4 9 Minus "1700000000.5" 1700000000 1700000000) ∅)))
       = true.
Proof.
  apply (issued_captcha_is_answerable "test-secret-key"
           (Draws 4 9 Minus "1700000000.5" 1700000000 1700000000)
           1700000300 ∅); cbn; try lia; reflexivity.
Defined.

End CaptchaProperties.


(** ** The ledger: forgiveness *)

Section ForgivenessProperties.
Import Redis Defense Commands.

Lemma execute_is_batch (cmds : list command) (d : gmap string value) :
  execute cmds (Client true d)
  = (if fst (batch cmds (true, d)) then Return tt else Raise ResponseError,
     Client true (snd (batch cmds (true, d)))).
Proof.
  unfold execute, batch. cbn [available data].
  destruct (fold_left _ cmds (true, d)) as [ok d']. reflexivity.
Qed.

Lemma run_frame (cmd : command) (d : gmap string value) (k : string) :
  key_of cmd <> k -> snd (run cmd d) !! k = d !! k.
Proof.
  intros Hne. destruct cmd as [k'|k'|k' ttl]; cbn in *; [| |reflexivity];
    unfold add_to; destruct (d !! k') as [[n| | | |]|]; cbn;
    try reflexivity; apply lookup_insert_ne; exact Hne.
Qed.

Lemma batch_frame (cmds : list command) (acc : bool * gmap string value)
    (k : string) :
  Forall (fun cmd => key_of cmd <> k) cmds ->
  snd (batch cmds acc) !! k = snd acc !! k.
Proof.
  intros Hall. revert acc.
  induction Hall as [|cmd cmds Hcmd _ IH]; intros acc; [reflexivity|].
  unfold batch in *. cbn [fold_left]. rewrite IH.
  destruct (run cmd (snd acc)) as [ok' d'] eqn:Hrun. cbn [snd].
  change d' with (snd (ok', d')). rewrite <- Hrun.
  apply run_frame. exact Hcmd.
Qed.

Lemma decrements_stay_nonnegative (keys : list string)
    (acc : bool * gmap string value) :
  NoDup keys ->
  nonnegative (snd acc) ->
  (forall k, In k keys -> exists n, snd acc !! k = Some (VInt n) /\ 0 < n) ->
  nonnegative (snd (batch (List.map Decr keys) acc)).
Proof.
  intros Hnodup. revert acc.
  induction Hnodup as [|k keys Hfresh _ IH]; intros acc Hnn Hpos; [exact Hnn|].
  unfold batch in *. cbn [List.map fold_left].
  destruct (Hpos k (or_introl eq_refl)) as (n & Hk & Hn).
  assert (Hrun : run (Decr k) (snd acc) = (true, <[k := VInt (n + -1)]> (snd acc))).
  { cbn. unfold add_to. rewrite Hk. reflexivity. }
  rewrite Hrun. apply IH; cbn [snd].
  - intros k' n' Hk'.
    destruct (decide (k = k')) as [<-|Hne].
    + rewrite lookup_insert_eq in Hk'. injection Hk' as <-. lia.
    + rewrite lookup_insert_ne in Hk' by exact Hne. exact (Hnn k' n' Hk').
  - intros k' Hin.
    assert (Hne : k <> k').
    { intros <-. apply Hfresh. apply list_elem_of_In. exact Hin. }
    rewrite lookup_insert_ne by exact Hne.
    apply Hpos. right. exact Hin.
Qed.

Lemma due_cases (d : gmap string value) (key : option string) :
  due d key = []
  \/ exists k n, key = Some k /\ due d key = [k]
                 /\ d !! k = Some (VInt n) /\ 0 < n.
Proof.
  destruct key as [k|]; [|left; reflexivity]. cbn.
  destruct (d !! k) as [[n| | | |]|] eqn:Hk; try (left; reflexivity).
  destruct (Z.gtb_spec n 0); [|left; reflexivity].
  right. exists k, n. auto.
Qed.

Lemma forgive_result (pipe : list command) (key : option string)
    (d : gmap string value) :
  forgive pipe key (Client true d)
  = (Return (pipe ++ List.map Decr (due d key)), Client true d)
  \/ exists e, forgive pipe key (Client true d) = (Raise e, Client true d).
Proof.
  destruct key as [k|]; cbn [forgive due].
  - unfold bind, get, connected. cbn [available data].
    destruct (d !! k) as [[n| | | |]|]; cbn;
      try (right; eexists; reflexivity);
      try (left; rewrite app_nil_r; reflexivity).
    destruct (n >? 0); left; [reflexivity | rewrite app_nil_r; reflexivity].
  - left. cbn. rewrite app_nil_r. reflexivity.
Qed.

Lemma attempt_keys_differ (ip h f : string) :
  "asr:attempts:ip:" +:+ ip <> "asr:attempts:email:" +:+ h
  /\ "asr:attempts:ip:" +:+ ip <> "asr:attempts:fp:" +:+ f
  /\ "asr:attempts:email:" +:+ h <> "asr:attempts:fp:" +:+ f.
Proof. repeat split; cbn; intros [=]. Qed.

Lemma key_when_given_shape (x : option string) (key : string -> string) (k : string) :
  key_when_given x key = Some k -> exists s, k = key s.
Proof.
  unfold key_when_given. destruct x as [s|]; [|discriminate].
  destruct (Py.truthy s); [|discriminate]. intros [= <-]. eauto.
Qed.

(** A call of [record_success] during which no other call touches the
    store drives no counter below zero: if no counter is negative before
    it, none is after it, whatever address, login name and fingerprint it
    is called with and whether it returns or raises. *)
Theorem forgiveness_keeps_counters_nonnegative
    (ip : string) (email fingerprint : option string) (c : client) :
  nonnegative (data c) ->
  nonnegative (data (snd (record_success ip email fingerprint c))).
Proof.
  intros Hnn. destruct c as [[|] d]; cbn [data] in Hnn.
  2:{ unfold record_success. cbn [fold_left]. unfold bind, ret at 1.
      cbn [forgive]. unfold bind, get, connected. cbn. exact Hnn. }
  unfold record_success. cbn [fold_left].
  set (kip := "asr:attempts:ip:" +:+ ip).
  set (kem := key_when_given email _).
  set (kfp := key_when_given fingerprint _).
  unfold bind at 1 2 3 4. unfold ret at 1.
  destruct (forgive_result [] (Some kip) d) as [-> | [e ->]]; [|exact Hnn].
  destruct (forgive_result ([] ++ List.map Decr (due d (Some kip))) kem d)
    as [-> | [e ->]]; [|exact Hnn].
  destruct (forgive_result
              (([] ++ List.map Decr (due d (Some kip))) ++ List.map Decr (due d kem))
              kfp d) as [-> | [e ->]]; [|exact Hnn].
  rewrite execute_is_batch. cbn [snd data].
  rewrite app_nil_l, <- !List.map_app.
  apply decrements_stay_nonnegative; cbn [snd]; [|exact Hnn|].
  - destruct (due_cases d (Some kip)) as [-> | (k1 & n1 & Hk1 & -> & _)];
      destruct (due_cases d kem) as [-> | (k2 & n2 & Hk2 & -> & _)];
      destruct (due_cases d kfp) as [-> | (k3 & n3 & Hk3 & -> & _)];
      cbn [app];
      try injection Hk1 as <-;
      try (apply key_when_given_shape in Hk2 as [e2 ->]);
      try (apply key_when_given_shape in Hk3 as [e3 ->]);
      repeat (apply NoDup_cons_2 || apply NoDup_nil_2);
      rewrite ?not_elem_of_cons; repeat split; try apply not_elem_of_nil;
      subst kip; cbn; intros [=].
  - intros k Hin. rewrite !in_app_iff in Hin.
    destruct Hin as [[Hin|Hin]|Hin];
      [destruct (due_cases d (Some kip)) as [Hd | (k' & n & _ & Hd & Hk & Hn)]
      |destruct (due_cases d kem) as [Hd | (k' & n & _ & Hd & Hk & Hn)]
      |destruct (due_cases d kfp) as [Hd | (k' & n & _ & Hd & Hk & Hn)]];
      rewrite Hd in Hin; cbn in Hin; try contradiction;
      destruct Hin as [<-|[]]; eauto.
Qed.

Lemma forgiveness_keeps_counters_nonnegative_witness :
  nonnegative {[ "asr:attempts:ip:10.0.0.1" := VInt 1 ]}
  /\ nonnegative
       (data (snd (record_success "10.0.0.1" (Some "user@example.com") None
                     (Client true {[ "asr:attempts:ip:10.0.0.1" := VInt 1 ]})))).
Proof.
  assert (Hnn : nonnegative {[ "asr:attempts:ip:10.0.0.1" := VInt 1 ]}).
  { intros k n Hk. apply lookup_singleton_Some in Hk as [_ [= <-]]. lia. }
  split; [exact Hnn|].
  exact (forgiveness_keeps_counters_nonnegative "10.0.0.1"
           (Some "user@example.com") None
           (Client true {[ "asr:attempts:ip:10.0.0.1" := VInt 1 ]}) Hnn).
Defined.

End ForgivenessProperties.


(** ** The ledger: what the query answers, blocks, repeated failures *)

Section LadderRuns.
Import Redis Defense Ledger Failures.

Lemma threat_level_value (identifier : string) (d : gmap string value) :
  readable d identifier ->
  get_threat_level identifier (Client true d)
  = (Return (match d !! ("asr:blocked:" +:+ identifier) with
             | Some _ => Blocked (level_of d identifier)
             | None => find_level (level_of d identifier)
             end),
     Client true d).
Proof.
  unfold get_threat_level, readable, level_of, is_counter, counter.
  set (kip := "asr:attempts:ip:" +:+ identifier).
  set (kem := "asr:attempts:email:" +:+ identifier).
  set (kfp := "asr:attempts:fp:" +:+ identifier).
  set (kbl := "asr:blocked:" +:+ identifier).
  clearbody kip kem kfp kbl.
  intros (Hip & Hem & Hfp).
  unfold bind. rewrite get_available.
  destruct (d !! kip) as [[n1| | | |]|]; try contradiction;
    cbn -[get find_level Z.max]; rewrite get_available;
    destruct (d !! kem) as [[n2| | | |]|]; try contradiction;
    cbn -[get find_level Z.max]; rewrite get_available;
    destruct (d !! kfp) as [[n3| | | |]|]; try contradiction;
    cbn -[get find_level Z.max]; rewrite get_available;
    destruct (d !! kbl); unfold ret; do 3 f_equal; lia.
Qed.

Lemma threat_level_keeps_store (identifier : string) (d : gmap string value) :
  snd (get_threat_level identifier (Client true d)) = Client true d.
Proof.
  unfold get_threat_level.
  set (kip := "asr:attempts:ip:" +:+ identifier).
  set (kem := "asr:attempts:email:" +:+ identifier).
  set (kfp := "asr:attempts:fp:" +:+ identifier).
  set (kbl := "asr:blocked:" +:+ identifier).
  clearbody kip kem kfp kbl.
  unfold bind. rewrite get_available.
  destruct (d !! kip) as [[n1| | | |]|]; cbn -[get find_level Z.max];
    try reflexivity; rewrite get_available;
    destruct (d !! kem) as [[n2| | | |]|]; cbn -[get find_level Z.max];
    try reflexivity; rewrite get_available;
    destruct (d !! kfp) as [[n3| | | |]|]; cbn -[get find_level Z.max];
    try reflexivity; rewrite get_available;
    destruct (d !! kbl); reflexivity.
Qed.

Lemma permanent_block_from_50 (n : Z) :
  (exists d m, find_level n = Required permanent_block d m) <-> 50 <= n.
Proof.
  unfold find_level; cbn [levels rev app List.find attempts].
  repeat match goal with
         | |- context [?x >=? ?k] =>
             destruct (Z.geb_spec x k); cbn [List.find action difficulty]
         end;
    (split; [intros (d & m & Heq); try discriminate Heq; lia
            | intros Hge; try lia; eauto]).
Qed.

Lemma batch_keeps_counters (cmds : list command)
    (acc : bool * gmap string value) (k : string) :
  is_counter (snd acc) k -> is_counter (snd (Commands.batch cmds acc)) k.
Proof.
  revert acc. induction cmds as [|cmd cmds IH]; intros acc Hk; [exact Hk|].
  unfold Commands.batch in *. cbn [fold_left]. apply IH.
  destruct (run cmd (snd acc)) as [ok' d'] eqn:Hrun. cbn [snd].
  assert (Hd' : d' = snd (run cmd (snd acc))) by (rewrite Hrun; reflexivity).
  subst d'. clear Hrun.
  destruct (decide (Commands.key_of cmd = k)) as [Heq|Hne].
  - unfold is_counter in *.
    destruct cmd as [k'|k'|k' ttl]; cbn in Heq; subst k'; cbn; [| |exact Hk];
      unfold add_to; destruct (snd acc !! k) as [[n| | | |]|]; cbn;
      try contradiction; rewrite lookup_insert_eq; exact I.
  - unfold is_counter. rewrite (run_frame cmd (snd acc) k Hne). exact Hk.
Qed.

Lemma record_success_frame (ip : string) (email fingerprint : option string)
    (c : client) (k : string) :
  String.prefix "asr:attempts:" k = false ->
  data (snd (record_success ip email fingerprint c)) !! k = data c !! k.
Proof.
  intros Hk. destruct c as [[|] d]; cbn [data].
  2:{ unfold record_success. cbn [fold_left]. unfold bind, ret at 1.
      cbn [forgive]. unfold bind, get, connected. reflexivity. }
  unfold record_success. cbn [fold_left].
  set (kip := "asr:attempts:ip:" +:+ ip).
  set (kem := key_when_given email _).
  set (kfp := key_when_given fingerprint _).
  unfold bind at 1 2 3 4. unfold ret at 1.
  destruct (forgive_result [] (Some kip) d) as [-> | [e ->]]; [|reflexivity].
  destruct (forgive_result ([] ++ List.map Decr (Commands.due d (Some kip))) kem d)
    as [-> | [e ->]]; [|reflexivity].
  destruct (forgive_result
              (([] ++ List.map Decr (Commands.due d (Some kip)))
               ++ List.map Decr (Commands.due d kem))
              kfp d) as [-> | [e ->]]; [|reflexivity].
  rewrite execute_is_batch. cbn [snd data].
  rewrite batch_frame; [reflexivity|].
  rewrite app_nil_l, !Forall_app. repeat split;
    apply Forall_forall; intros cmd Hin; apply list_elem_of_In in Hin;
    apply in_map_iff in Hin as (k' & <- & Hin);
    cbn [Commands.key_of]; intros <-.
  - destruct (due_cases d (Some kip)) as [Hd | (k1 & n & Hk1 & Hd & _)];
      rewrite Hd in Hin; cbn in Hin; [contradiction|].
    destruct Hin as [<-|[]]. injection Hk1 as <-. subst kip. discriminate Hk.
  - destruct (due_cases d kem) as [Hd | (k1 & n & Hk1 & Hd & _)];
      rewrite Hd in Hin; cbn in Hin; [contradiction|].
    destruct Hin as [<-|[]]. apply key_when_given_shape in Hk1 as [e ->].
    discriminate Hk.
  - destruct (due_cases d kfp) as [Hd | (k1 & n & Hk1 & Hd & _)];
      rewrite Hd in Hin; cbn in Hin; [contradiction|].
    destruct Hin as [<-|[]]. apply key_when_given_shape in Hk1 as [e ->].
    discriminate Hk.
Qed.

Lemma record_success_keeps_counters (ip : string)
    (email fingerprint : option string) (c : client) (k : string) :
  is_counter (data c) k ->
  is_counter (data (snd (record_success ip email fingerprint c))) k.
Proof.
  intros Hk. destruct c as [[|] d]; cbn [data] in *.
  2:{ unfold record_success. cbn [fold_left]. unfold bind, ret at 1.
      cbn [forgive]. unfold bind, get, connected. exact Hk. }
  unfold record_success. cbn [fold_left].
  set (kip := "asr:attempts:ip:" +:+ ip).
  set (kem := key_when_given email _).
  set (kfp := key_when_given fingerprint _).
  unfold bind at 1 2 3 4. unfold ret at 1.
  destruct (forgive_result [] (Some kip) d) as [-> | [e ->]]; [|exact Hk].
  destruct (forgive_result ([] ++ List.map Decr (Commands.due d (Some kip))) kem d)
    as [-> | [e ->]]; [|exact Hk].
  destruct (forgive_result
              (([] ++ List.map Decr (Commands.due d (Some kip)))
               ++ List.map Decr (Commands.due d kem))
              kfp d) as [-> | [e ->]]; [|exact Hk].
  rewrite execute_is_batch. cbn [snd data].
  apply batch_keeps_counters. exact Hk.
Qed.

Lemma record_success_keeps_availability (ip : string)
    (email fingerprint : option string) (c : client) :
  available (snd (record_success ip email fingerprint c)) = available c.
Proof.
  destruct c as [[|] d]; cbn [available].
  2:{ unfold record_success. cbn [fold_left]. unfold bind, ret at 1.
      cbn [forgive]. unfold bind, get, connected. reflexivity. }
  unfold record_success. cbn [fold_left].
  set (kip := "asr:attempts:ip:" +:+ ip).
  set (kem := key_when_given email _).
  set (kfp := key_when_given fingerprint _).
  unfold bind at 1 2 3 4. unfold ret at 1.
  destruct (forgive_result [] (Some kip) d) as [-> | [e ->]]; [|reflexivity].
  destruct (forgive_result ([] ++ List.map Decr (Commands.due d (Some kip))) kem d)
    as [-> | [e ->]]; [|reflexivity].
  destruct (forgive_result
              (([] ++ List.map Decr (Commands.due d (Some kip)))
               ++ List.map Decr (Commands.due d kem))
              kfp d) as [-> | [e ->]]; [|reflexivity].
  rewrite execute_is_batch. reflexivity.
Qed.

(** X9. Forgiveness never lifts a block.  Once the durable flag of an
    identifier is set, any [record_success] (for any address, login name
    and fingerprint) leaves the flag as it is: the identifier is still
    answered "blocked", and [create_challenge] still offers it nothing and
    stores nothing. *)
Theorem forgiveness_never_lifts_a_block
    (identifier ip : string) (email fingerprint : option string)
    (r : draws) (c : client) (flag : value) :
  available c = true ->
  data c !! ("asr:blocked:" +:+ identifier) = Some flag ->
  readable (data c) identifier ->
  let c' := snd (record_success ip email fingerprint c) in
  data c' !! ("asr:blocked:" +:+ identifier) = Some flag
  /\ (exists n, fst (get_threat_level identifier c') = Return (Blocked n))
  /\ create_challenge identifier r c' = (Return None, c').
Proof.
  intros Hup Hflag (Hip & Hem & Hfp) c'.
  assert (Hflag' : data c' !! ("asr:blocked:" +:+ identifier) = Some flag).
  { subst c'. rewrite record_success_frame; [exact Hflag | reflexivity]. }
  assert (Hread : readable (data c') identifier).
  { subst c'. repeat split; apply record_success_keeps_counters; assumption. }
  assert (Hup' : available c' = true).
  { subst c'. rewrite record_success_keeps_availability. exact Hup. }
  destruct c' as [up d']. cbn [available data] in *. subst up.
  pose proof (threat_level_value identifier d' Hread) as Hlevel.
  rewrite Hflag' in Hlevel.
  split; [exact Hflag'|]. split.
  - eexists. rewrite Hlevel. reflexivity.
  - unfold create_challenge, bind. rewrite Hlevel. reflexivity.
Qed.

Lemma forgiveness_never_lifts_a_block_witness :
  let c := Client true {[ "asr:blocked:10.0.0.1" := VInt 1;
                          "asr:attempts:ip:10.0.0.1" := VInt 50 ]} in
  data (snd (record_success "10.0.0.1" None None c)) !! "asr:blocked:10.0.0.1"
  = Some (VInt 1)
  /\ create_challenge "10.0.0.1" (Draws 0 0 "id" "prefix" 1700000000)
       (snd (record_success "10.0.0.1" None None c))
     = (Return None, snd (record_success "10.0.0.1" None None c)).
Proof.
  intros c.
  destruct (forgiveness_never_lifts_a_block "10.0.0.1" "10.0.0.1" None None
              (Draws 0 0 "id" "prefix" 1700000000) c (VInt 1) eq_refl
              ltac:(vm_compute; reflexivity)
              ltac:(vm_compute; repeat split))
    as (Hflag & _ & Hnone).
  split; [exact Hflag | exact Hnone].
Defined.

Lemma incr_counter (k : string) (d : gmap string value) :
  is_counter d k ->
  run (Incr k) d = (true, <[k := VInt (counter d k + 1)]> d).
Proof.
  unfold is_counter, counter. cbn. unfold add_to.
  destruct (d !! k) as [[n| | | |]|]; try contradiction; reflexivity.
Qed.

(** The shape of the store after [k] failures of one address, starting
    from the empty store. *)
Lemma failures_invariant (ip : string) (k : nat) :
  exists d,
    Failures.after k ip (Client true ∅) = Client true d
    /\ counter d ("asr:attempts:ip:" +:+ ip) = Z.of_nat k
    /\ is_counter d ("asr:attempts:ip:" +:+ ip)
    /\ d !! ("asr:attempts:email:" +:+ ip) = None
    /\ d !! ("asr:attempts:fp:" +:+ ip) = None
    /\ d !! ("asr:blocked:" +:+ ip)
       = (if (50 <=? k)%nat then Some (VInt 1) else None).
Proof.
  induction k as [|k (d & Hd & Hcount & Hisc & Hem & Hfp & Hbl)].
  - exists ∅. cbn [Failures.after]. unfold counter, is_counter.
    rewrite !lookup_empty. repeat split.
  - cbn [Failures.after]. rewrite Hd.
    unfold record_failure, when_given. cbn [app].
    set (kip := "asr:attempts:ip:" +:+ ip) in *.
    set (kem := "asr:attempts:email:" +:+ ip) in *.
    set (kfp := "asr:attempts:fp:" +:+ ip) in *.
    set (kbl := "asr:blocked:" +:+ ip) in *.
    assert (Hne1 : kip <> kem) by (subst kip kem; cbn; intros [=]).
    assert (Hne2 : kip <> kfp) by (subst kip kfp; cbn; intros [=]).
    assert (Hne3 : kip <> kbl) by (subst kip kbl; cbn; intros [=]).
    unfold bind at 1. rewrite execute_is_batch.
    unfold Commands.batch. cbn [fold_left fst snd].
    rewrite (incr_counter kip d Hisc). cbn [snd fst run andb].
    set (d1 := <[kip := VInt (counter d kip + 1)]> d).
    assert (Hread : readable d1 ip).
    { unfold readable, is_counter. fold kip kem kfp. subst d1.
      rewrite lookup_insert_eq, !lookup_insert_ne, Hem, Hfp by assumption.
      auto. }
    assert (Hlevel : level_of d1 ip = Z.of_nat (S k)).
    { unfold level_of, counter. fold kip kem kfp. subst d1.
      rewrite lookup_insert_eq, !lookup_insert_ne, Hem, Hfp by assumption.
      lia. }
    assert (Hbl1 : d1 !! kbl = (if (50 <=? k)%nat then Some (VInt 1) else None)).
    { subst d1. rewrite lookup_insert_ne by assumption. exact Hbl. }
    assert (Hc1 : counter d1 kip = Z.of_nat (S k)).
    { unfold counter. subst d1. rewrite lookup_insert_eq. lia. }
    assert (Hi1 : is_counter d1 kip).
    { unfold is_counter. subst d1. rewrite lookup_insert_eq. exact I. }
    assert (He1 : d1 !! kem = None).
    { subst d1. rewrite lookup_insert_ne by assumption. exact Hem. }
    assert (Hf1 : d1 !! kfp = None).
    { subst d1. rewrite lookup_insert_ne by assumption. exact Hfp. }
    clearbody d1.
    unfold bind. rewrite (threat_level_value ip d1 Hread). fold kbl.
    rewrite Hbl1, Hlevel.
    destruct (Nat.leb_spec 50 k) as [Hge|Hlt].
    + exists d1. cbn [snd ret].
      destruct (Nat.leb_spec 50 (S k)); [|lia]. rewrite Hbl1.
      destruct (Nat.leb_spec 50 k); [|lia]. auto 10.
    + destruct (find_level (Z.of_nat (S k))) as [m|a dd m] eqn:Hfind.
      { unfold find_level in Hfind. destruct (List.find _ _); discriminate. }
      assert (Hperm : a = permanent_block <-> 50 <= Z.of_nat (S k)).
      { rewrite <- permanent_block_from_50, Hfind. split.
        - intros ->. eauto.
        - intros (d0 & m0 & [= -> _ _]). reflexivity. }
      destruct (Nat.leb_spec 50 (S k)) as [Hge'|Hlt'].
      * assert (Ha : a = permanent_block) by (apply Hperm; lia). subst a.
        exists (<[kbl := VInt 1]> d1).
        unfold setex, connected. cbn [available data snd].
        unfold counter, is_counter in *.
        rewrite lookup_insert_eq.
        rewrite !lookup_insert_ne by (subst kbl kip kem kfp; cbn; intros [=]).
        auto 10.
      * assert (Ha : a <> permanent_block) by (rewrite Hperm; lia).
        exists d1. rewrite Hbl1.
        destruct (Nat.leb_spec 50 k); [lia|].
        destruct a; try contradiction; cbn [snd ret]; auto 10.
Qed.

(** X10. Repeated failures climb the ladder and end in the block.  After
    [k] calls [record_failure(ip)] on the empty store, [get_threat_level(ip)]
    reports [k] attempts with the ladder's action for [k] while [k < 50];
    the fiftieth failure sets the durable flag, and from then on the answer
    is "blocked" and [create_challenge] returns nothing. *)
Theorem repeated_failures_climb_the_ladder (ip : string) (k : nat) (r : draws) :
  let c := Failures.after k ip (Client true ∅) in
  fst (get_threat_level ip c)
  = Return (if (50 <=? k)%nat then Blocked (Z.of_nat k)
            else find_level (Z.of_nat k))
  /\ ((50 <= k)%nat -> fst (create_challenge ip r c) = Return None).
Proof.
  intros c. subst c.
  destruct (failures_invariant ip k) as (d & -> & Hcount & Hisc & Hem & Hfp & Hbl).
  assert (Hread : readable d ip).
  { unfold readable, is_counter in *. rewrite Hem, Hfp. auto. }
  assert (Hlevel : level_of d ip = Z.of_nat k).
  { unfold level_of. rewrite Hcount. unfold counter. rewrite Hem, Hfp. lia. }
  pose proof (threat_level_value ip d Hread) as Hvalue.
  rewrite Hbl, Hlevel in Hvalue.
  split.
  - rewrite Hvalue. cbn [fst]. destruct (50 <=? k)%nat; reflexivity.
  - intros Hge. unfold create_challenge, bind. rewrite Hvalue.
    destruct (Nat.leb_spec 50 k); [reflexivity | lia].
Qed.

Lemma repeated_failures_climb_the_ladder_witness :
  fst (get_threat_level "10.0.0.1" (Failures.after 5 "10.0.0.1" (Client true ∅)))
  = Return (Required proof_of_work 2 5)
  /\ ((50 <= 50)%nat ->
      fst (create_challenge "10.0.0.1" (Draws 0 0 "id" "prefix" 1700000000)
             (Failures.after 50 "10.0.0.1" (Client true ∅)))
      = Return None).
Proof.
  split.
  - exact (proj1 (repeated_failures_climb_the_ladder "10.0.0.1" 5
                    (Draws 0 0 "id" "prefix" 1700000000))).
  - exact (proj2 (repeated_failures_climb_the_ladder "10.0.0.1" 50
                    (Draws 0 0 "id" "prefix" 1700000000))).
Defined.

End LadderRuns.


(** ** The ladder's challenges *)

Section LadderChallenges.
Import Redis Defense Ledger Failures.

Lemma find_level_table (n : Z) :
  0 <= n ->
  find_level n
  = if n <? 3 then Required none 0 n
    else if n <? 5 then Required simple_math 1 n
    else if n <? 10 then Required proof_of_work 2 n
    else if n <? 15 then Required proof_of_work 3 n
    else if n <? 20 then Required proof_of_work 4 n
    else if n <? 30 then Required temp_block 300 n
    else if n <? 50 then Required temp_block 3600 n
    else Required permanent_block 0 n.
Proof.
  intros Hn. unfold find_level; cbn [levels rev app List.find attempts].
  repeat match goal with
         | |- context [?x >=? ?k] =>
             destruct (Z.geb_spec x k); cbn [List.find action difficulty]
         end;
    repeat match goal with
           | |- context [?x <? ?k] => destruct (Z.ltb_spec x k)
           end;
    try reflexivity; lia.
Qed.

Lemma level_of_nonnegative (d : gmap string value) (identifier : string) :
  0 <= level_of d identifier.
Proof. unfold level_of. lia. Qed.

(** Between three and four failures [create_challenge] stores the sum of
    its two draws under the drawn id. *)
Lemma arithmetic_question_is_stored
    (identifier : string) (r : draws) (d : gmap string value) :
  readable d identifier ->
  d !! ("asr:blocked:" +:+ identifier) = None ->
  3 <= level_of d identifier < 5 ->
  exists question,
    create_challenge identifier r (Client true d)
    = (Return (Some (MathChallenge (token_16 r) question 1)),
       Client true
         (<["asr:challenge:" +:+ token_16 r
            := VMath (Py.str_of_int (randbelow_a r + 1 + (randbelow_b r + 1)))]> d)).
Proof.
  intros Hread Hfree Hn.
  unfold create_challenge, bind.
  rewrite (threat_level_value identifier d Hread), Hfree.
  rewrite (find_level_table _ (level_of_nonnegative d identifier)).
  destruct (Z.ltb_spec (level_of d identifier) 3); [lia|].
  destruct (Z.ltb_spec (level_of d identifier) 5); [|lia].
  eexists. reflexivity.
Qed.

(** X11. What [create_challenge] hands out follows the ladder.  For an
    identifier that is not flagged and whose largest count is [n]: below 3
    nothing is asked and nothing stored; from 3 an arithmetic question is
    stored under the drawn id; from 5, 10 and 15 a proof of work of
    difficulty 2, 3 and 4 is stored with the drawn prefix; from 20 and 30 a
    timed block of 300 and 3600 seconds is answered and nothing stored;
    from 50 the answer is nothing at all. *)
Theorem challenge_follows_the_ladder
    (identifier : string) (r : draws) (d : gmap string value) :
  readable d identifier ->
  d !! ("asr:blocked:" +:+ identifier) = None ->
  let n := level_of d identifier in
  let key := "asr:challenge:" +:+ token_16 r in
  let asked := create_challenge identifier r (Client true d) in
  (n < 3 -> asked = (Return (Some NoChallenge), Client true d))
  /\ (3 <= n < 5 ->
      exists question,
        asked = (Return (Some (MathChallenge (token_16 r) question 1)),
                 Client true
                   (<[key := VMath (Py.str_of_int
                                      (randbelow_a r + 1 + (randbelow_b r + 1)))]> d)))
  /\ (5 <= n < 20 ->
      let difficulty := if n <? 10 then 2 else if n <? 15 then 3 else 4 in
      asked = (Return (Some (PowChallenge (token_16 r) (token_32 r) difficulty)),
               Client true (<[key := VPow (token_32 r) difficulty (clock r)]> d)))
  /\ (20 <= n < 50 ->
      exists message,
        asked = (Return (Some (TempBlock (if n <? 30 then 300 else 3600) message)),
                 Client true d))
  /\ (50 <= n -> asked = (Return None, Client true d)).
Proof.
  intros Hread Hfree n key asked. subst asked.
  unfold create_challenge, bind.
  rewrite (threat_level_value identifier d Hread), Hfree.
  fold n. rewrite (find_level_table n (level_of_nonnegative d identifier)).
  repeat split; intros Hn;
    repeat match goal with
           | |- context [?x <? ?k] => destruct (Z.ltb_spec x k); try lia
           end;
    try reflexivity; eexists; reflexivity.
Qed.

Lemma challenge_follows_the_ladder_witness :
  let d : gmap string value := {[ "asr:attempts:ip:10.0.0.1" := VInt 12 ]} in
  readable d "10.0.0.1"
  /\ create_challenge "10.0.0.1"
       (Draws 0 0 "kT9wQ2xLr7Zc4VbN1mYp3A" "prefix" 1700000000) (Client true d)
     = (Return (Some (PowChallenge "kT9wQ2xLr7Zc4VbN1mYp3A" "prefix" 3)),
        Client true (<["asr:challenge:kT9wQ2xLr7Zc4VbN1mYp3A"
                       := VPow "prefix" 3 1700000000]> d)).
Proof.
  intros d.
  assert (Hread : readable d "10.0.0.1") by (vm_compute; repeat split).
  split; [exact Hread|].
  destruct (challenge_follows_the_ladder "10.0.0.1"
              (Draws 0 0 "kT9wQ2xLr7Zc4VbN1mYp3A" "prefix" 1700000000) d Hread
              ltac:(vm_compute; reflexivity)) as (_ & _ & Hpow & _).
  apply Hpow.
  assert (Hlevel : level_of d "10.0.0.1" = 12) by (vm_compute; reflexivity).
  change (5 <= level_of d "10.0.0.1" < 20). rewrite Hlevel. lia.
Defined.

(** X12. The arithmetic challenge of the ladder is answerable, by exact
    text only.  For draws [secrets.randbelow(10)] and a non-empty id, the
    stored answer [str(a + b)] verifies on the store [create_challenge]
    leaves, and any other non-empty text (the answer with a blank, say) is
    refused. *)
Theorem arithmetic_challenge_round_trip
    (identifier : string) (r : draws) (d : gmap string value) (s : string) :
  readable d identifier ->
  d !! ("asr:blocked:" +:+ identifier) = None ->
  3 <= level_of d identifier < 5 ->
  0 <= randbelow_a r < 10 ->
  0 <= randbelow_b r < 10 ->
  Py.truthy (token_16 r) = true ->
  let answer := Py.str_of_int (randbelow_a r + 1 + (randbelow_b r + 1)) in
  let c' := snd (create_challenge identifier r (Client true d)) in
  fst (verify_challenge (token_16 r) answer c') = Return true
  /\ (Py.truthy s = true -> s <> answer ->
      fst (verify_challenge (token_16 r) s c') = Return false).
Proof.
  intros Hread Hfree Hn Ha Hb Hid answer c'.
  destruct (arithmetic_question_is_stored identifier r d Hread Hfree Hn)
    as (question & Hasked).
  subst c'. rewrite Hasked. cbn [snd]. subst answer.
  set (answer := Py.str_of_int _).
  assert (Htruthy : Py.truthy answer = true).
  { apply small_answers_are_clean. lia. }
  assert (Hcheck : forall t, Py.truthy t = true ->
            fst (verify_challenge (token_16 r) t
                   (Client true (<["asr:challenge:" +:+ token_16 r := VMath answer]> d)))
            = Return (String.eqb t answer)).
  { intros t Ht. unfold verify_challenge. rewrite Hid, Ht. cbn [negb orb].
    unfold bind, get, connected. cbn [available data].
    rewrite lookup_insert_eq. reflexivity. }
  split.
  - rewrite (Hcheck answer Htruthy), String.eqb_refl. reflexivity.
  - intros Hs Hne. rewrite (Hcheck s Hs).
    destruct (String.eqb_spec s answer); [contradiction | reflexivity].
Qed.

Lemma arithmetic_challenge_round_trip_witness :
  let d : gmap string value := {[ "asr:attempts:ip:10.0.0.1" := VInt 4 ]} in
  let c' := snd (create_challenge "10.0.0.1"
                   (Draws 6 2 "kT9wQ2xLr7Zc4VbN1mYp3A" "unused" 1700000000)
                   (Client true d)) in
  fst (verify_challenge "kT9wQ2xLr7Zc4VbN1mYp3A" "10" c') = Return true
  /\ (Py.truthy "10 " = true -> "10 "%string <> "10"%string ->
      fst (verify_challenge "kT9wQ2xLr7Zc4VbN1mYp3A" "10 " c') = Return false).
Proof.
  intros d c'.
  apply (arithmetic_challenge_round_trip "10.0.0.1"
           (Draws 6 2 "kT9wQ2xLr7Zc4VbN1mYp3A" "unused" 1700000000) d "10 ");
    vm_compute; repeat split; congruence.
Defined.

End LadderChallenges.


(** ** ServerSidePoW: binding, expiry, difficulty *)

Section ServerPowProperties.
Import Redis Ledger PowSpec PowFailures.

Variable secret_key : string.

(** X13. A challenge of [ServerSidePoW] is honoured only for the address
    and resource it was issued to and within 300 seconds of its issue:
    presented from another address, for another resource, or later, it is
    refused whatever the solution, and the stored record is not touched. *)
Theorem server_challenge_is_bound_and_expires
    (challenge_id s ip resource ip0 resource0 nonce : string)
    (timestamp difficulty : Z) (used : bool) (now now_token : Q)
    (d : gmap string value) :
  d !! ("pow:" +:+ challenge_id)
    = Some (VServerPow ip0 resource0 nonce timestamp difficulty used) ->
  ip0 <> ip \/ resource0 <> resource
  \/ Py.float_gt (now - inject_Z timestamp) (inject_Z ServerPow.challenge_ttl) = true ->
  ServerPow.verify_challenge secret_key challenge_id s ip resource now now_token
                             (Client true d)
  = (Return (false, None), Client true d).
Proof.
  intros Hstored Hwhy.
  unfold ServerPow.verify_challenge, bind, get, connected.
  cbn [available data]. rewrite Hstored. cbn [lift ServerPow.loads].
  destruct used; [reflexivity|].
  destruct (String.eqb_spec ip0 ip) as [Hip|_]; [|reflexivity].
  destruct (String.eqb_spec resource0 resource) as [Hres|_]; [|reflexivity].
  cbn [negb].
  destruct Hwhy as [Hne | [Hne | ->]]; [contradiction | contradiction | reflexivity].
Qed.

Lemma difficulty_of_store (ip : string) (d : gmap string value) :
  is_counter d ("failures:" +:+ ip) ->
  ServerPow._get_difficulty_for_ip ip (Client true d)
  = (Return (difficulty_for (counter d ("failures:" +:+ ip))), Client true d).
Proof.
  unfold is_counter, counter, ServerPow._get_difficulty_for_ip, difficulty_for.
  unfold bind, get, connected. cbn [available data].
  destruct (d !! ("failures:" +:+ ip)) as [[n| | | |]|]; try contradiction;
    intros _; cbn; [|reflexivity].
  destruct (n >? 50); [reflexivity|].
  destruct (n >? 20); [reflexivity|].
  destruct (n >? 10); reflexivity.
Qed.

Lemma difficulty_for_bounds (n m : Z) :
  3 <= difficulty_for n <= 6
  /\ (n <= m -> difficulty_for n <= difficulty_for m).
Proof.
  unfold difficulty_for.
  repeat match goal with
         | |- context [?x >? ?k] => destruct (Z.gtb_spec x k)
         end; lia.
Qed.

Lemma failed_attempts_count (ip : string) (k : nat) :
  exists d,
    PowFailures.after k ip (Client true ∅) = Client true d
    /\ is_counter d ("failures:" +:+ ip)
    /\ counter d ("failures:" +:+ ip) = Z.of_nat k.
Proof.
  induction k as [|k (d & Hd & Hisc & Hcount)].
  - exists ∅. unfold is_counter, counter. rewrite lookup_empty. repeat split.
  - cbn [PowFailures.after]. rewrite Hd.
    unfold ServerPow.record_failed_attempt, bind, send. cbn [available data].
    rewrite (incr_counter _ d Hisc). cbn [run snd fst available data].
    eexists. split; [reflexivity|].
    unfold is_counter. rewrite lookup_insert_eq. split; [exact I|].
    unfold counter at 1. rewrite lookup_insert_eq. lia.
Qed.

(** X14. Failed proofs of work raise the difficulty of the next challenge.
    After [k] calls [record_failed_attempt(ip)] on the empty store, a
    [create_challenge] for that address asks for 3 leading zeros while
    [k <= 10], 4 while [k <= 20], 5 while [k <= 50] and 6 beyond; the
    difficulty is always between 3 and 6, never falls as failures grow, and
    the target handed out is that many zeros. *)
Theorem failed_attempts_raise_the_difficulty
    (ip resource id nonce : string) (now : Q) (k : nat) :
  let asked := ServerPow.create_challenge secret_key ip resource id nonce now
                 (PowFailures.after k ip (Client true ∅)) in
  exists challenge,
    fst asked = Return (id, challenge)
    /\ ServerPow.difficulty challenge = difficulty_for (Z.of_nat k)
    /\ ServerPow.target challenge = Py.str_mul "0" (difficulty_for (Z.of_nat k))
    /\ 3 <= ServerPow.difficulty challenge <= 6
    /\ (forall k' : nat, (k <= k')%nat ->
          difficulty_for (Z.of_nat k) <= difficulty_for (Z.of_nat k'))
    /\ data (snd asked) !! ("pow:" +:+ id)
       = Some (VServerPow ip resource nonce (Py.int_of_float now)
                          (difficulty_for (Z.of_nat k)) false).
Proof.
  intros asked. subst asked.
  destruct (failed_attempts_count ip k) as (d & -> & Hisc & Hcount).
  unfold ServerPow.create_challenge, bind.
  rewrite (difficulty_of_store ip d Hisc), Hcount.
  unfold setex, connected. cbn [available data fst snd ret].
  eexists. split; [reflexivity|].
  cbn [ServerPow.difficulty ServerPow.target].
  split; [reflexivity|]. split; [reflexivity|].
  split; [apply (difficulty_for_bounds (Z.of_nat k) (Z.of_nat k))|].
  split.
  - intros k' Hk. apply difficulty_for_bounds. lia.
  - apply lookup_insert_eq.
Qed.

(** X15. Issue and solve: on the store [create_challenge] leaves, a
    solution whose digest of [nonce + ":" + solution] has as many leading
    zeros as the difficulty handed out, presented from the same address for
    the same resource within 300 seconds, is accepted; the access token
    returned is the text [timestamp:signature] and is stored, bound to the
    address and the resource, under [pow_token:] followed by it. *)
Theorem issued_challenge_is_solvable
    (ip resource id nonce s : string) (now now' now_token : Q)
    (d : gmap string value) :
  is_counter d ("failures:" +:+ ip) ->
  let asked := ServerPow.create_challenge secret_key ip resource id nonce now
                 (Client true d) in
  let difficulty := difficulty_for (counter d ("failures:" +:+ ip)) in
  enough_zeros difficulty (Sha256.hexdigest (nonce +:+ ":" +:+ s)) ->
  Py.float_gt (now' - inject_Z (Py.int_of_float now))
              (inject_Z ServerPow.challenge_ttl) = false ->
  let token := Py.str_of_int (Py.int_of_float now_token) +:+ ":"
               +:+ Hmac.hexdigest secret_key
                     (ip +:+ ":" +:+ resource +:+ ":"
                      +:+ Py.str_of_int (Py.int_of_float now_token)) in
  let verified := ServerPow.verify_challenge secret_key id s ip resource
                    now' now_token (snd asked) in
  fst verified = Return (true, Some token)
  /\ data (snd verified) !! ("pow_token:" +:+ token)
     = Some (VPowToken ip resource (Py.int_of_float now_token)).
Proof.
  intros Hisc asked difficulty Hzeros Hlive token verified.
  assert (Hasked : snd asked
                   = Client true
                       (<["pow:" +:+ id
                          := VServerPow ip resource nonce (Py.int_of_float now)
                                        difficulty false]> d)).
  { subst asked. unfold ServerPow.create_challenge, bind.
    rewrite (difficulty_of_store ip d Hisc). reflexivity. }
  subst verified. rewrite Hasked. clear Hasked asked.
  unfold ServerPow.verify_challenge, bind, get, connected.
  cbn [available data]. rewrite lookup_insert_eq. cbn [lift ServerPow.loads].
  rewrite !String.eqb_refl, Hlive. cbn [negb].
  apply startswith_zeros in Hzeros. rewrite Hzeros.
  unfold ServerPow._generate_access_token, bind, setex, connected.
  cbn [available data fst snd ret]. fold token.
  split; [reflexivity | apply lookup_insert_eq].
Qed.

End ServerPowProperties.

Section ServerPowScenario.
Import Redis PowSpec PowFailures PowScenario.

Lemma server_challenge_is_bound_and_expires_witness :
  ServerPow.verify_challenge Scenario.secret_key server_challenge_id "1451"
    "198.51.100.77" resource 1700000009 1700000009
    (Client true (data server_store))
  = (Return (false, None), Client true (data server_store)).
Proof.
  apply (server_challenge_is_bound_and_expires Scenario.secret_key
           server_challenge_id "1451" "198.51.100.77" resource
           address resource server_nonce 1700000000 3 false
           1700000009%Q 1700000009%Q (data server_store));
    [vm_compute; reflexivity | left; cbn; discriminate].
Defined.

Lemma failed_attempts_raise_the_difficulty_witness :
  exists challenge,
    fst (ServerPow.create_challenge Scenario.secret_key address resource
           server_challenge_id server_nonce 1700000000
           (PowFailures.after 11 address (Client true ∅)))
    = Return (server_challenge_id, challenge)
    /\ ServerPow.difficulty challenge = 4.
Proof.
  destruct (failed_attempts_raise_the_difficulty Scenario.secret_key address
              resource server_challenge_id server_nonce 1700000000 11)
    as (challenge & Hasked & Hdiff & _).
  exists challenge. split; [exact Hasked | exact Hdiff].
Defined.

Lemma issued_challenge_is_solvable_witness :
  exists token,
    fst (ServerPow.verify_challenge Scenario.secret_key server_challenge_id "1451"
           address resource 1700000009 1700000009
           (snd (ServerPow.create_challenge Scenario.secret_key address resource
                   server_challenge_id server_nonce 1700000000 (Client true ∅))))
    = Return (true, Some token).
Proof.
  eexists.
  apply (issued_challenge_is_solvable Scenario.secret_key address resource
           server_challenge_id server_nonce "1451"
           1700000000%Q 1700000009%Q 1700000009%Q ∅).
  - vm_compute. exact I.
  - assert (Hz : leading_zeros (Sha256.hexdigest (server_nonce +:+ ":" +:+ "1451"))
                 = 3%nat) by (vm_compute; reflexivity).
    unfold enough_zeros. rewrite Hz. vm_compute. discriminate.
  - vm_compute. reflexivity.
Defined.

End ServerPowScenario.


(** ** ExponentialBackoff and DefenseInDepth *)

Section BackoffRuns.
Import Redis Ledger.

Lemma backoff_counts (ip resource : string) (k : nat) :
  exists d,
    Backoff.after k ip resource (Client true ∅) = Client true d
    /\ d !! ("attempts:" +:+ ip +:+ ":" +:+ resource)
       = (if k is O then None else Some (VInt (Z.of_nat k))).
Proof.
  induction k as [|k (d & Hd & Hk)].
  - exists ∅. split; [reflexivity | apply lookup_empty].
  - cbn [Backoff.after]. rewrite Hd.
    unfold Backoff.check_and_delay, bind, Backoff.incr. cbn [available data].
    rewrite Hk.
    destruct k as [|k]; unfold send; cbn [available data run];
      (destruct (_ <=? 3); eexists; (split; [reflexivity|]);
       rewrite lookup_insert_eq; do 2 f_equal; lia).
Qed.

(** X16. The backoff of [check_and_delay]: the first three consecutive
    calls for an address and a resource ask for no delay, the call number
    [m > 3] asks for [min(2 ^ (m - 3), 300)] seconds; the delay is never
    negative, never above 300, and is 300 from the twelfth call on.  The
    statement is about the call made after [k] earlier ones, the call
    number [k + 1]. *)
Theorem backoff_delay_schedule (ip resource : string) (k : nat) :
  let delay := if (k <=? 2)%nat then 0
               else Z.min (2 ^ (Z.of_nat k - 2)) 300 in
  fst (Backoff.check_and_delay ip resource
         (Backoff.after k ip resource (Client true ∅)))
  = Return delay
  /\ 0 <= delay <= 300
  /\ ((11 <= k)%nat -> delay = 300).
Proof.
  intros delay.
  destruct (backoff_counts ip resource k) as (d & -> & Hk).
  assert (Hcall : fst (Backoff.check_and_delay ip resource (Client true d))
                  = Return (if Z.of_nat (S k) <=? 3 then 0
                            else Z.min (2 ^ (Z.of_nat (S k) - 3)) 300)).
  { unfold Backoff.check_and_delay, bind, Backoff.incr. cbn [available data].
    rewrite Hk.
    destruct k as [|k]; unfold send; cbn [available data run].
    - reflexivity.
    - replace (Z.of_nat (S k) + 1) with (Z.of_nat (S (S k))) by lia.
      destruct (_ <=? 3); reflexivity. }
  assert (Hsame : (if Z.of_nat (S k) <=? 3 then 0
                   else Z.min (2 ^ (Z.of_nat (S k) - 3)) 300) = delay).
  { subst delay.
    destruct (Z.leb_spec (Z.of_nat (S k)) 3), (Nat.leb_spec k 2); try lia.
    replace (Z.of_nat (S k) - 3) with (Z.of_nat k - 2) by lia. reflexivity. }
  rewrite Hcall, Hsame. split; [reflexivity|].
  subst delay. destruct (Nat.leb_spec k 2) as [Hle|Hgt].
  - split; [lia|]. intros Hk'. lia.
  - assert (Hpos : 0 < 2 ^ (Z.of_nat k - 2)) by (apply Z.pow_pos_nonneg; lia).
    split; [lia|]. intros Hk'.
    assert (Hbig : 2 ^ 9 <= 2 ^ (Z.of_nat k - 2)) by (apply Z.pow_le_mono_r; lia).
    change (2 ^ 9) with 512 in Hbig. lia.
Qed.

Lemma backoff_delay_schedule_witness :
  fst (Backoff.check_and_delay "203.0.113.7" "file:abc123"
         (Backoff.after 5 "203.0.113.7" "file:abc123" (Client true ∅)))
  = Return 8
  /\ ((11 <= 11)%nat ->
      (if (11 <=? 2)%nat then 0 else Z.min (2 ^ (Z.of_nat 11 - 2)) 300) = 300).
Proof.
  split.
  - exact (proj1 (backoff_delay_schedule "203.0.113.7" "file:abc123" 5)).
  - exact (proj2 (proj2 (backoff_delay_schedule "203.0.113.7" "file:abc123" 11))).
Defined.

Lemma check_and_delay_result (ip resource : string) (d : gmap string value) :
  is_counter d ("attempts:" +:+ ip +:+ ":" +:+ resource) ->
  exists delay,
    Backoff.check_and_delay ip resource (Client true d)
    = (Return delay,
       Client true
         (<["attempts:" +:+ ip +:+ ":" +:+ resource
            := VInt (counter d ("attempts:" +:+ ip +:+ ":" +:+ resource) + 1)]> d)).
Proof.
  unfold is_counter, counter, Backoff.check_and_delay, bind, Backoff.incr.
  cbn [available data].
  destruct (d !! ("attempts:" +:+ ip +:+ ":" +:+ resource)) as [[n| | | |]|];
    try contradiction; intros _; unfold send; cbn [available data run];
    destruct (_ <=? 3); eexists; reflexivity.
Qed.

Lemma server_create_result (secret_key ip resource id nonce : string) (now : Q)
    (d : gmap string value) :
  is_counter d ("failures:" +:+ ip) ->
  exists issued,
    ServerPow.create_challenge secret_key ip resource id nonce now (Client true d)
    = (Return (id, issued),
       Client true
         (<["pow:" +:+ id
            := VServerPow ip resource nonce (Py.int_of_float now)
                 (PowFailures.difficulty_for (counter d ("failures:" +:+ ip)))
                 false]> d)).
Proof.
  intros Hisc. unfold ServerPow.create_challenge, bind.
  rewrite (difficulty_of_store ip d Hisc).
  eexists. reflexivity.
Qed.

(** X17. [protect_endpoint] by failure count.  A flagged address is turned
    away at once ("IP temporarily blocked") and nothing is changed.  For an
    unflagged address with [n] recorded failures: below 100 the returned
    dictionary asks for a CAPTCHA exactly from 3 failures, for a proof of
    work (and carries a challenge) exactly from 5, and for a delay exactly
    from 10; from 100 the call raises, sets the flag, and the next call is
    turned away. *)
Theorem protect_endpoint_by_failure_count
    (secret_key ip resource : string) (r r' : DefenseInDepth.draws)
    (d : gmap string value) :
  (forall flag,
     d !! ("blocked:" +:+ ip) = Some flag ->
     DefenseInDepth.protect_endpoint secret_key ip resource r (Client true d)
     = (Return (inl "IP temporarily blocked"), Client true d))
  /\ (d !! ("blocked:" +:+ ip) = None ->
      is_counter d ("failures:" +:+ ip) ->
      is_counter d ("attempts:" +:+ ip +:+ ":" +:+ resource) ->
      let n := counter d ("failures:" +:+ ip) in
      let out := DefenseInDepth.protect_endpoint secret_key ip resource r
                   (Client true d) in
      (n < 100 ->
       exists p,
         fst out = Return (inr p)
         /\ DefenseInDepth.require_captcha p = (n >=? 3)
         /\ DefenseInDepth.require_pow p = (n >=? 5)
         /\ DefenseInDepth.require_delay p = (n >=? 10)
         /\ (is_Some (DefenseInDepth.challenge p) <-> 5 <= n))
      /\ (100 <= n ->
          fst out = Return (inl "Too many attempts - blocked for 1 hour")
          /\ DefenseInDepth.protect_endpoint secret_key ip resource r' (snd out)
             = (Return (inl "IP temporarily blocked"), snd out))).
Proof.
  assert (Hflagged : forall d' flag,
            d' !! ("blocked:" +:+ ip) = Some flag ->
            DefenseInDepth.protect_endpoint secret_key ip resource r' (Client true d')
            = (Return (inl "IP temporarily blocked"), Client true d')).
  { intros d' flag Hflag. unfold DefenseInDepth.protect_endpoint, bind.
    rewrite get_available, Hflag. reflexivity. }
  split.
  { intros flag Hflag. unfold DefenseInDepth.protect_endpoint, bind.
    rewrite get_available, Hflag. reflexivity. }
  intros Hfree Hfail Hatt n out.
  set (kfail := "failures:" +:+ ip) in *.
  set (katt := "attempts:" +:+ ip +:+ ":" +:+ resource) in *.
  assert (Hne : katt <> kfail) by (subst katt kfail; cbn; intros [=]).
  assert (Hread : (match d !! kfail with Some v => int_of v | None => Return 0 end)
                  = Return n).
  { subst n. unfold is_counter, counter in *.
    destruct (d !! kfail) as [[m| | | |]|]; try contradiction; reflexivity. }
  destruct (check_and_delay_result ip resource d Hatt) as (delay & Hdelay).
  fold katt in Hdelay.
  set (d1 := <[katt := VInt (counter d katt + 1)]> d) in *.
  assert (Hfail1 : is_counter d1 kfail /\ counter d1 kfail = n).
  { unfold is_counter, counter in *. subst d1 n.
    rewrite lookup_insert_ne by exact Hne. auto. }
  destruct Hfail1 as [Hisc1 Hcount1].
  destruct (server_create_result secret_key ip resource
              (DefenseInDepth.token_hex_id r) (DefenseInDepth.token_hex_nonce r)
              (DefenseInDepth.clock r) d Hfail) as (issued0 & Hissue0).
  destruct (server_create_result secret_key ip resource
              (DefenseInDepth.token_hex_id r) (DefenseInDepth.token_hex_nonce r)
              (DefenseInDepth.clock r) d1 Hisc1) as (issued1 & Hissue1).
  fold kfail in Hissue0, Hissue1.
  assert (Hout : out = DefenseInDepth.protect_endpoint secret_key ip resource r
                         (Client true d)) by reflexivity.
  unfold DefenseInDepth.protect_endpoint, bind in Hout.
  rewrite get_available, Hfree, get_available in Hout. fold kfail in Hout.
  unfold lift at 1 in Hout. rewrite Hread in Hout.
  clearbody d1 out.
  destruct (Z.geb_spec n 10) as [H10|H10];
    destruct (Z.geb_spec n 5) as [H5|H5]; try lia;
    destruct (Z.geb_spec n 100) as [H100|H100]; try lia;
    destruct (Z.geb_spec n 3) as [H3|H3]; try lia;
    repeat (rewrite ?Hdelay, ?Hissue0, ?Hissue1 in Hout;
            cbn [ret DefenseInDepth.require_captcha DefenseInDepth.require_pow
                 DefenseInDepth.require_delay DefenseInDepth.delay_seconds
                 DefenseInDepth.challenge] in Hout);
    unfold setex, connected in Hout; cbn [available data] in Hout;
    subst out; cbn [fst snd];
    (split; [intros Hlt | intros Hge]); try lia.
  all: try (split; [reflexivity|];
            eapply Hflagged; apply lookup_insert_eq).
  all: eexists; split; [reflexivity|];
    cbn [DefenseInDepth.require_captcha DefenseInDepth.require_pow
         DefenseInDepth.require_delay DefenseInDepth.challenge];
    repeat split; try reflexivity; try lia;
    try (intros [x Hx]; discriminate Hx); try (intros _; eexists; reflexivity).
Qed.

Lemma protect_endpoint_by_failure_count_witness :
  let r := DefenseInDepth.Draws "00112233445566778899aabbccddeeff"
             "0f1e2d3c4b5a69788796a5b4c3d2e1f0" 1700000000 in
  let d : gmap string value := {[ "failures:203.0.113.7" := VInt 7 ]} in
  exists p,
    fst (DefenseInDepth.protect_endpoint "test-secret-key" "203.0.113.7"
           "file:abc123" r (Client true d))
    = Return (inr p)
    /\ DefenseInDepth.require_captcha p = true
    /\ DefenseInDepth.require_pow p = true
    /\ DefenseInDepth.require_delay p = false.
Proof.
  intros r d.
  destruct (protect_endpoint_by_failure_count "test-secret-key" "203.0.113.7"
              "file:abc123" r r d) as [_ Hopen].
  destruct (Hopen ltac:(vm_compute; reflexivity) ltac:(vm_compute; exact I)
                  ltac:(vm_compute; exact I)) as [Hbelow _].
  destruct Hbelow as (p & Hout & Hcaptcha & Hpow & Hdelay & _).
  { vm_compute. reflexivity. }
  exists p. repeat split; [exact Hout | rewrite Hcaptcha | rewrite Hpow
                          | rewrite Hdelay]; vm_compute; reflexivity.
Defined.

Example protect_endpoint_at_100_failures :
  let r := DefenseInDepth.Draws "00112233445566778899aabbccddeeff"
             "0f1e2d3c4b5a69788796a5b4c3d2e1f0" 1700000000 in
  let out := DefenseInDepth.protect_endpoint "test-secret-key" "203.0.113.7"
               "file:abc123" r
               (Client true {[ "failures:203.0.113.7" := VInt 100 ]}) in
  fst out = Return (inl "Too many attempts - blocked for 1 hour")
  /\ data (snd out) !! "blocked:203.0.113.7" = Some (VInt 1)
  /\ data (snd out) !! "attempts:203.0.113.7:file:abc123" = Some (VInt 1)
  /\ is_Some (data (snd out) !! "pow:00112233445566778899aabbccddeeff").
Proof. vm_compute. repeat split; eauto. Qed.

End BackoffRuns.


(** ** Downloading with a token *)

Section TokenDownloadProperties.
Import TokenDownload.

(** X18. [initiate_secure_download] never hands a token out for a
    password-protected file: the answer is the 401 error and nothing is
    changed.  For an unprotected file that is neither expired nor at its
    download limit it hands out the drawn token, changes no file row, and
    the token redeems for that file's id from the calling address within
    60 seconds. *)
Theorem initiate_gives_tokens_for_open_files_only
    (code host token : string) (clock_token clock_cleanup now now' : Q)
    (st : state) (file : File) :
  select_file code st = Some file ->
  (Py.truthy_opt (password_hash file) = true ->
   initiate_secure_download code host token clock_token clock_cleanup now st
   = (HTTPException 401 "This file requires password verification", st))
  /\ (Py.truthy_opt (password_hash file) = false ->
      expired file now = false ->
      limit_reached file = false ->
      let out := initiate_secure_download code host token clock_token
                   clock_cleanup now st in
      fst out = TokenIssued token 60
      /\ files (snd out) = files st
      /\ (Py.truthy token = true ->
          Py.float_gt (clock_cleanup - clock_token) DownloadTokens.token_expiry = false ->
          Py.float_gt (now' - clock_token) DownloadTokens.token_expiry = false ->
          fst (DownloadTokens.verify_download_token token (id file) host now'
                 (tokens (snd out)))
          = true)).
Proof.
  intros Hsel. unfold initiate_secure_download. rewrite Hsel. split.
  - intros ->. reflexivity.
  - intros -> -> ->. cbn. repeat split.
    intros Htok Hclean Hlive.
    apply fresh_token_verifies; assumption.
Qed.

Lemma download_refuses_the_unverified
    (code token host : string) (agent : option string) (clock_verify now : Q)
    (st : state) (file : File) :
  select_file code st = Some file ->
  fst (DownloadTokens.verify_download_token token (id file) host clock_verify
         (tokens st)) = false ->
  let out := download_with_token code token host agent clock_verify now st in
  fst out = DBAPIError
  /\ files (snd out) = files st
  /\ download_logs (snd out) = download_logs st
  /\ audit_logs (snd out) = audit_logs st.
Proof.
  intros Hsel Hbad. unfold download_with_token. rewrite Hsel.
  destruct (DownloadTokens.verify_download_token _ _ _ _ _) as [ok t].
  cbn [fst] in Hbad. subst ok. cbn. auto.
Qed.

(** X19. A download with a token that does not verify (unknown, used,
    expired, or minted for another file or address) is not served: the
    call ends in the failure of the audit insert, and no file row, no
    download log and no audit row is written. *)
Theorem download_refuses_a_bad_token
    (code token host : string) (agent : option string) (clock_verify now : Q)
    (st : state) (file : File) :
  select_file code st = Some file ->
  fst (DownloadTokens.verify_download_token token (id file) host clock_verify
         (tokens st)) = false ->
  let out := download_with_token code token host agent clock_verify now st in
  fst out = DBAPIError
  /\ files (snd out) = files st
  /\ download_logs (snd out) = download_logs st
  /\ audit_logs (snd out) = audit_logs st.
Proof.
  intros Hsel Hbad.
  exact (download_refuses_the_unverified code token host agent clock_verify now
           st file Hsel Hbad).
Qed.

(** X20. The token is spent before the file is looked at.  When a valid
    token is presented for a file that has expired or is at its download
    limit, the answer is 410 and the download is not counted, but the token
    is consumed: presented again it does not verify, and the call is not
    served and counts nothing. *)
Theorem token_is_spent_before_the_file_checks
    (code token host : string) (agent agent' : option string)
    (clock_verify now clock_verify' now' : Q) (st : state) (file : File) :
  select_file code st = Some file ->
  fst (DownloadTokens.verify_download_token token (id file) host clock_verify
         (tokens st)) = true ->
  expired file now = true \/ limit_reached file = true ->
  let out := download_with_token code token host agent clock_verify now st in
  let again := download_with_token code token host agent' clock_verify' now'
                                   (snd out) in
  (exists detail, fst out = HTTPException 410 detail)
  /\ files (snd out) = files st
  /\ fst (DownloadTokens.verify_download_token token (id file) host
            clock_verify' (tokens (snd out))) = false
  /\ fst again = DBAPIError
  /\ files (snd again) = files st
  /\ download_logs (snd again) = download_logs st.
Proof.
  intros Hsel Hok Hwhy out again.
  pose proof (spent_is_refused token (id file) host clock_verify' _
                (redeemed_is_spent token (id file) host clock_verify
                   (tokens st) Hok)) as Hspent.
  destruct (DownloadTokens.verify_download_token token (id file) host
              clock_verify (tokens st)) as [ok t] eqn:Hverify.
  cbn [fst snd] in Hok, Hspent. subst ok.
  assert (Hout : exists detail,
            out = (HTTPException 410 detail, with_tokens t st)).
  { subst out. unfold download_with_token. rewrite Hsel, Hverify. cbn [negb].
    destruct (expired file now); [eexists; reflexivity|].
    destruct Hwhy as [Hwhy | ->]; [discriminate|]. eexists; reflexivity. }
  destruct Hout as (detail & Hout). subst again. rewrite Hout. cbn [fst snd].
  split; [eexists; reflexivity|]. split; [reflexivity|].
  split; [exact Hspent|].
  assert (Hsel' : select_file code (with_tokens t st) = Some file) by exact Hsel.
  destruct (download_refuses_the_unverified code token host agent' clock_verify'
              now' (with_tokens t st) file Hsel' Hspent)
    as (Hanswer & Hfiles & Hlogs & _).
  split; [exact Hanswer|]. split; [exact Hfiles | exact Hlogs].
Qed.

(** X21. What a download changes.  Every call of [download_with_token]
    leaves the file's counter as it is or adds one to it, and on a file
    whose [max_downloads] is set (and not zero) the counter never passes
    the limit.  The one without the other: a counted download is a call
    with a valid token on a file neither expired nor at its limit; it also
    writes one download log, and then fails on the storage call instead of
    returning a URL. *)
Theorem download_counts_within_the_limit
    (code token host : string) (agent : option string) (clock_verify now : Q)
    (st : state) (file : File) :
  select_file code st = Some file ->
  let out := download_with_token code token host agent clock_verify now st in
  exists file',
    files (snd out) !! code = Some file'
    /\ (download_count file' = download_count file
        \/ (download_count file' = download_count file + 1
            /\ fst out = AttributeError
            /\ download_logs (snd out)
               = download_logs st ++ [MkDownloadLog (id file) host agent]))
    /\ (forall m, max_downloads file = Some m -> m <> 0 ->
                  download_count file <= m -> download_count file' <= m).
Proof.
  intros Hsel out. subst out. unfold download_with_token. rewrite Hsel.
  assert (Hrow : files st !! code = Some file).
  { unfold select_file in Hsel. destruct (files st !! code) as [f|]; [|discriminate].
    destruct (deleted f); [discriminate|]. exact Hsel. }
  destruct (DownloadTokens.verify_download_token _ _ _ _ _) as [ok t].
  destruct ok; cbn [negb fst snd with_tokens files];
    [|exists file; auto].
  destruct (expired file now); [exists file; cbn; auto|].
  destruct (limit_reached file) eqn:Hlimit; [exists file; cbn; auto|].
  exists (counted file). cbn [fst snd files download_logs with_tokens].
  rewrite lookup_insert_eq. split; [reflexivity|].
  split; [right; auto|].
  intros m Hmax Hm Hle. unfold limit_reached in Hlimit. rewrite Hmax in Hlimit.
  destruct (Z.eqb_spec m 0); [contradiction|].
  destruct (Z.geb_spec (download_count file) m); [discriminate|].
  cbn. lia.
Qed.

End TokenDownloadProperties.


Section TokenDownloadScenario.
Import TokenDownload DownloadScenario.

Lemma initiate_gives_tokens_for_open_files_only_witness :
  select_file "xyz789" (state_with protected_file) = Some protected_file
  /\ initiate_secure_download "xyz789" host "Qw7rT2yU9iO4pA6sD1fG8hJ3kL5zX0cV2bN7mM4qWeR"
       1700000000 1700000000 1700000000 (state_with protected_file)
     = (HTTPException 401 "This file requires password verification",
        state_with protected_file).
Proof.
  assert (Hsel : select_file "xyz789" (state_with protected_file)
                 = Some protected_file) by reflexivity.
  split; [exact Hsel|].
  apply (initiate_gives_tokens_for_open_files_only "xyz789" host
           "Qw7rT2yU9iO4pA6sD1fG8hJ3kL5zX0cV2bN7mM4qWeR"
           1700000000 1700000000 1700000000 1700000000
           (state_with protected_file) protected_file Hsel).
  reflexivity.
Defined.

Lemma download_refuses_a_bad_token_witness :
  select_file "abc123" (state_with open_file) = Some open_file
  /\ fst (download_with_token "abc123" token "203.0.113.99" None
            1700000010 1700000010 (state_with open_file))
     = DBAPIError.
Proof.
  assert (Hsel : select_file "abc123" (state_with open_file) = Some open_file)
    by reflexivity.
  split; [exact Hsel|].
  apply (download_refuses_a_bad_token "abc123" token "203.0.113.99" None
           1700000010 1700000010 (state_with open_file) open_file Hsel).
  vm_compute. reflexivity.
Defined.

Lemma token_is_spent_before_the_file_checks_witness :
  select_file "abc123" (state_with expired_file) = Some expired_file
  /\ fst (download_with_token "abc123" token host None 1700000020 1700000020
            (snd (download_with_token "abc123" token host None
                    1700000010 1700000010 (state_with expired_file))))
     = DBAPIError.
Proof.
  assert (Hsel : select_file "abc123" (state_with expired_file) = Some expired_file)
    by reflexivity.
  split; [exact Hsel|].
  destruct (token_is_spent_before_the_file_checks "abc123" token host None None
              1700000010 1700000010 1700000020 1700000020
              (state_with expired_file) expired_file Hsel
              ltac:(vm_compute; reflexivity) (or_introl eq_refl))
    as (_ & _ & _ & Hagain & _).
  exact Hagain.
Defined.

Lemma download_counts_within_the_limit_witness :
  select_file "abc123" (state_with open_file) = Some open_file
  /\ exists file',
       files (snd (download_with_token "abc123" token host None
                     1700000010 1700000010 (state_with open_file))) !! "abc123"
       = Some file'
       /\ download_count file' <= 2.
Proof.
  assert (Hsel : select_file "abc123" (state_with open_file) = Some open_file)
    by reflexivity.
  split; [exact Hsel|].
  destruct (download_counts_within_the_limit "abc123" token host None
              1700000010 1700000010 (state_with open_file) open_file Hsel)
    as (file' & Hrow & _ & Hlimit).
  exists file'. split; [exact Hrow|].
  apply (Hlimit 2); [reflexivity | lia | cbn; lia].
Defined.

(** The counted download of the scenario: the second of two allowed
    downloads is counted and logged, the call fails on the storage method,
    and a third try with a fresh token would meet the limit. *)
Example counted_download :
  let out := download_with_token "abc123" token host (Some "curl/8.0")
               1700000010 1700000010 (state_with open_file) in
  fst out = AttributeError
  /\ (download_count <$> files (snd out) !! "abc123") = Some 2
  /\ download_logs (snd out)
     = [MkDownloadLog "0b9f3c1e-7a52-4a5e-9c57-2f6d1e8b4a10" host (Some "curl/8.0")]
  /\ fst (initiate_secure_download "abc123" host
            "Qw7rT2yU9iO4pA6sD1fG8hJ3kL5zX0cV2bN7mM4qWeR"
            1700000030 1700000030 1700000030 (snd out))
     = HTTPException 410 "Download limit exceeded".
Proof. vm_compute. repeat split; reflexivity. Qed.

End TokenDownloadScenario.


(** ** The password handler: success, unlimited attempts, deleted files *)

Section HandlerOutcomes.
Import SecureDownload Responses.

Variable secret_key : string.
Variable verify_password : string -> string -> bool.

(** X22. The password handler never hands a token out.  Whatever the
    request, the answer is not a [PasswordVerifyResponse].  When the
    request gets as far as the password check and the password verifies,
    the counter is stored as 0 and a token is minted that would redeem for
    the resource's id from the requesting address within 60 seconds, but
    the audit call that follows raises: the answer is the unhandled error,
    and no delay is slept. *)
Theorem correct_password_never_returns_the_token
    (code : string) (req : request) (r : draws) (st : state) :
  let out := verify_file_password secret_key verify_password code req r st in
  (forall token expires, answer out <> PasswordVerifyResponse token expires)
  /\ (forall (file : File) (hash : string) (st1 : state) (now' : Q),
        reaches_password_check secret_key code req r st file hash st1 ->
        verify_password (password req) hash = true ->
        answer out = DBAPIError
        /\ slept out = None
        /\ (failed_password_attempts <$> files (final out) !! code) = Some 0
        /\ (Py.truthy (token_urlsafe r) = true ->
            Py.float_gt (clock_token_cleanup r - clock_token r)
                        DownloadTokens.token_expiry = false ->
            Py.float_gt (now' - clock_token r) DownloadTokens.token_expiry = false ->
            fst (DownloadTokens.verify_download_token (token_urlsafe r) (id file)
                   (client_host req) now' (tokens (final out)))
            = true)).
Proof.
  intros out. subst out. split.
  - intros token expires. unfold verify_file_password.
    destruct (select_file code st) as [file|]; [|discriminate].
    destruct (password_hash file) as [hash|]; [|discriminate].
    destruct (negb (Py.truthy hash)); [discriminate|].
    destruct (captcha_gate _ _ _ _ _ _) as [[raised st1]|st1] eqn:Hgate.
    + apply captcha_gate_raises in Hgate as (_ & _ & _ & Hshape).
      destruct Hshape as [(_ & cid & q & ->)|[_ ->]]; discriminate.
    + destruct (max_attempts_exceeded file); [discriminate|].
      destruct (negb _).
      * rewrite wrong_password_raises. discriminate.
      * unfold right_password.
        destruct (DownloadTokens.create_download_token _ _ _ _ _ _ _).
        discriminate.
  - intros file hash st1 now' (Hsel & Hhash & Htruthy & Hgate & Hopen) Hright.
    unfold verify_file_password.
    rewrite Hsel, Hhash, Htruthy, Hgate, Hopen, Hright. cbn [negb].
    unfold right_password. cbn.
    rewrite lookup_insert_eq. repeat split.
    intros Htok Hclean Hlive.
    apply fresh_token_verifies; assumption.
Qed.


(** A deleted file is an unknown file.  A request for the code of a
    row marked deleted gets the response, and writes the audit row, of a
    code that was never there; the row, the CAPTCHA store and the token
    table are left as they are. *)
Theorem deleted_file_is_not_found
    (code : string) (req : request) (r : draws) (st : state) (file : File) :
  files st !! code = Some file ->
  deleted file = true ->
  let out := verify_file_password secret_key verify_password code req r st in
  answer out = not_found_response
  /\ slept out = None
  /\ files (final out) = files st
  /\ captcha_store (final out) = captcha_store st
  /\ tokens (final out) = tokens st
  /\ audit_logs (final out)
     = audit_logs st
       ++ [MkAuditLog UNAUTHORIZED_ACCESS (client_host req) None
             [("reason", DStr "Invalid file code"); ("code", DStr code)]
             "warning"].
Proof.
  intros Hrow Hdel out. subst out.
  unfold verify_file_password, select_file. rewrite Hrow, Hdel.
  repeat split.
Qed.

End HandlerOutcomes.

Section HandlerOutcomesScenario.
Import SecureDownload Responses.

Lemma correct_password_never_returns_the_token_witness :
  let out := Scenario.scenario_run "abc123" Scenario.right_request
               Scenario.fresh_file in
  reaches_password_check Scenario.secret_key "abc123" Scenario.right_request
    Scenario.some_draws (Scenario.state_with Scenario.fresh_file)
    Scenario.fresh_file "bcrypt$s3cret" (Scenario.state_with Scenario.fresh_file)
  /\ answer out = DBAPIError
  /\ fst (DownloadTokens.verify_download_token
            "mK3vXq0Zt1yR8bN5cW2eH7pL4sD9fG6jA0uI3oT5xYw"
            "0b9f3c1e-7a52-4a5e-9c57-2f6d1e8b4a10" "198.51.100.4" 1700000010
            (tokens (final out)))
     = true.
Proof.
  intros out.
  assert (Hreach : reaches_password_check Scenario.secret_key "abc123"
                     Scenario.right_request Scenario.some_draws
                     (Scenario.state_with Scenario.fresh_file)
                     Scenario.fresh_file "bcrypt$s3cret"
                     (Scenario.state_with Scenario.fresh_file))
    by (repeat split; reflexivity).
  split; [exact Hreach|].
  destruct (correct_password_never_returns_the_token Scenario.secret_key
              Scenario.verify_password "abc123" Scenario.right_request
              Scenario.some_draws (Scenario.state_with Scenario.fresh_file))
    as [_ Hright].
  destruct (Hright Scenario.fresh_file "bcrypt$s3cret"
              (Scenario.state_with Scenario.fresh_file) 1700000010%Q Hreach eq_refl)
    as (Hanswer & _ & _ & Hredeems).
  split; [exact Hanswer|].
  apply Hredeems; reflexivity.
Defined.


Lemma deleted_file_is_not_found_witness :
  let file := MkFile "0b9f3c1e-7a52-4a5e-9c57-2f6d1e8b4a10" "abc123" true
                     (Some "bcrypt$s3cret") (Some 10) 0 in
  files (Scenario.state_with file) !! "abc123" = Some file
  /\ answer (Scenario.scenario_run "abc123" Scenario.right_request file)
     = not_found_response.
Proof.
  intros file.
  assert (Hrow : files (Scenario.state_with file) !! "abc123" = Some file)
    by reflexivity.
  split; [exact Hrow|].
  exact (proj1 (deleted_file_is_not_found Scenario.secret_key
                  Scenario.verify_password "abc123" Scenario.right_request
                  Scenario.some_draws (Scenario.state_with file) file
                  Hrow eq_refl)).
Defined.

End HandlerOutcomesScenario.

(** * The login handler *)

Section LoginProperties.
Import Redis Auth.
Variable verify_password : string -> string -> bool.
Variable hours days : Z.

Lemma create_challenge_returns (identifier : string) (r : Defense.draws)
    (d : gmap string value) :
  Failures.readable d identifier ->
  exists ch d',
    Defense.create_challenge identifier r (Client true d)
    = (Return ch, Client true d')
    /\ (ch = Some Defense.NoChallenge ->
        d !! ("asr:blocked:" +:+ identifier) = None
        /\ Failures.level_of d identifier < 3).
Proof.
  intros Hread. unfold Defense.create_challenge, bind at 1.
  rewrite (threat_level_value identifier d Hread).
  destruct (d !! ("asr:blocked:" +:+ identifier)) as [flag|].
  - exists None, d. split; [reflexivity | discriminate].
  - rewrite (find_level_table _ (level_of_nonnegative d identifier)).
    repeat match goal with
           | |- context [?x <? ?k] => destruct (Z.ltb_spec x k)
           end.
    all: eexists _, _; (split; [reflexivity | intros Hch]).
    all: first [discriminate Hch | split; [reflexivity | lia]].
Qed.

(** Whatever the store holds, the password check answers: with 401, with
    500, or with tokens; it never raises. *)
Lemma authenticate_answers (users : list User.t) (client_ip : string)
    (user_data : LoginWithChallenge) (r : draws) (c : client) :
  exists rep c',
    authenticate verify_password hours days users client_ip user_data r c
    = (Return rep, c')
    /\ match answer rep with
       | ChallengeResponse _ _ _ => False
       | HTTPException code _ => code = 401 \/ code = 500
       | _ => True
       end.
Proof.
  unfold authenticate, catch, check_password.
  assert (Hfail : exists rep c',
            match failed_login client_ip user_data r c with
            | (Return a, c') => (Return a, c')
            | (Raise _, c') => ret (Reply server_error []) c'
            end = (Return rep, c')
            /\ match answer rep with
               | ChallengeResponse _ _ _ => False
               | HTTPException code _ => code = 401 \/ code = 500
               | _ => True
               end).
  { unfold failed_login, bind.
    destruct (Defense.record_failure _ _ _ c) as [[[]|e] c1];
      [|eexists _, _; split; [reflexivity | right; reflexivity]].
    destruct (Defense.create_challenge _ _ c1) as [[ch|e] c2];
      eexists _, _; (split; [reflexivity|]); [left | right]; reflexivity. }
  destruct (List.filter _ users) as [|user [|other rows]]; [exact Hfail| |].
  - destruct (verify_password _ _); [|exact Hfail].
    unfold bind.
    destruct (Defense.record_success _ _ _ c) as [[[]|e] c1];
      eexists _, _; (split; [reflexivity|]).
    + cbn [answer]. unfold issue_tokens.
      destruct (User.two_factor_enabled user); exact I.
    + right; reflexivity.
  - eexists _, _. split; [reflexivity | right; reflexivity].
Qed.

(** X24. A request that carries a challenge solution but no challenge id
    is never challenged: whatever the threat level of the address, flagged
    or not, the handler goes straight to the password check, and answers
    with 401, 500 or tokens. *)
Theorem solution_without_id_skips_the_challenge
    (users : list User.t) (client_ip : string)
    (user_data : LoginWithChallenge) (r : draws) (d : gmap string value) :
  Failures.readable d client_ip ->
  Py.truthy_opt (challenge_id user_data) = false ->
  Py.truthy_opt (challenge_solution user_data) = true ->
  login verify_password hours days users client_ip user_data r (Client true d)
  = authenticate verify_password hours days users client_ip user_data r
                 (Client true d)
  /\ exists rep c',
       login verify_password hours days users client_ip user_data r
             (Client true d) = (Return rep, c')
       /\ match answer rep with
          | ChallengeResponse _ _ _ => False
          | HTTPException code _ => code = 401 \/ code = 500
          | _ => True
          end.
Proof.
  intros Hread Hid Hsol.
  assert (Heq : login verify_password hours days users client_ip user_data r
                      (Client true d)
                = authenticate verify_password hours days users client_ip
                               user_data r (Client true d)).
  { unfold login. rewrite Hid, Hsol. cbn [andb negb].
    unfold bind at 1, ret at 1. cbn [negb].
    unfold bind at 1. rewrite (threat_level_value client_ip d Hread).
    rewrite andb_false_r. reflexivity. }
  split; [exact Heq|]. rewrite Heq. apply authenticate_answers.
Qed.


(** X25. Once an address is flagged or has three recorded failures, a
    request without a challenge solution does not reach the password
    check: whatever the accounts and the password, the answer is the
    lock-out or a challenge that is not the empty one. *)
Theorem request_without_solution_meets_the_challenge
    (users : list User.t) (client_ip : string)
    (user_data : LoginWithChallenge) (r : draws) (d : gmap string value) :
  Failures.readable d client_ip ->
  Py.truthy_opt (challenge_solution user_data) = false ->
  d !! ("asr:blocked:" +:+ client_ip) <> None
  \/ 3 <= Failures.level_of d client_ip ->
  exists rep d',
    login verify_password hours days users client_ip user_data r (Client true d)
    = (Return rep, Client true d')
    /\ headers rep = []
    /\ (answer rep = locked_out
        \/ exists ch script message,
             answer rep = ChallengeResponse ch script message
             /\ ch <> Defense.NoChallenge).
Proof.
  intros Hread Hsol Hthreat.
  unfold login. rewrite Hsol, andb_false_r. cbn [negb].
  unfold bind at 1, ret at 1. cbn [negb].
  unfold bind at 1. rewrite (threat_level_value client_ip d Hread).
  assert (Hact : action_required
                   (match d !! ("asr:blocked:" +:+ client_ip) with
                    | Some _ => Defense.Blocked (Failures.level_of d client_ip)
                    | None => Defense.find_level (Failures.level_of d client_ip)
                    end) = true).
  { destruct (d !! ("asr:blocked:" +:+ client_ip)) as [flag|]; [reflexivity|].
    destruct Hthreat as [Hflag | Hlevel]; [contradiction|].
    rewrite (find_level_table _ (level_of_nonnegative d client_ip)).
    repeat match goal with
           | |- context [?x <? ?k] => destruct (Z.ltb_spec x k)
           end; try reflexivity; lia. }
  rewrite Hact. cbn [andb negb].
  unfold demand_challenge, bind.
  destruct (create_challenge_returns client_ip (challenge_draws r) d Hread)
    as (ch & d' & -> & Hnone).
  destruct ch as [c|].
  - eexists _, d'. split; [reflexivity|]. split; [reflexivity|].
    right. eexists _, _, _. split; [reflexivity|].
    intros ->. destruct (Hnone eq_refl) as [Hflag Hlevel].
    destruct Hthreat as [Hset | Hge]; [contradiction | lia].
  - eexists _, d'. split; [reflexivity|]. split; [reflexivity|].
    left; reflexivity.
Qed.



Lemma batch_app (cmds1 cmds2 : list command) (acc : bool * gmap string value) :
  Commands.batch (cmds1 ++ cmds2) acc
  = Commands.batch cmds2 (Commands.batch cmds1 acc).
Proof. unfold Commands.batch. apply fold_left_app. Qed.

Lemma when_given_keys (x : option string) (key : string -> string)
    (k : string) :
  (forall s, key s <> k) ->
  Forall (fun cmd => Commands.key_of cmd <> k)
         (Defense.when_given x (fun s => [Incr (key s); Expire (key s) 86400])).
Proof.
  intros Hne. unfold Defense.when_given.
  destruct x as [s|]; [|constructor].
  destruct (Py.truthy s); [|constructor].
  repeat constructor; cbn; apply Hne.
Qed.

(** [record_failure] adds one to the count of the address, whatever else
    it does and however it ends. *)
Lemma record_failure_counts (ip : string) (email fingerprint : option string)
    (d : gmap string value) :
  Ledger.is_counter d ("asr:attempts:ip:" +:+ ip) ->
  exists d',
    snd (Defense.record_failure ip email fingerprint (Client true d))
    = Client true d'
    /\ d' !! ("asr:attempts:ip:" +:+ ip)
       = Some (VInt (Ledger.counter d ("asr:attempts:ip:" +:+ ip) + 1)).
Proof.
  intros Hk. unfold Defense.record_failure.
  set (kip := "asr:attempts:ip:" +:+ ip) in *.
  unfold bind at 1. rewrite execute_is_batch.
  rewrite !batch_app.
  set (first := Commands.batch [Incr kip; Expire kip 86400] (true, d)).
  assert (Hfirst : snd first !! kip = Some (VInt (Ledger.counter d kip + 1))).
  { subst first. unfold Commands.batch. cbn [fold_left fst snd].
    rewrite (incr_counter kip d Hk). cbn [run snd].
    apply lookup_insert_eq. }
  set (rest := Commands.batch _ (Commands.batch _ first)).
  assert (Hrest : snd rest !! kip = Some (VInt (Ledger.counter d kip + 1))).
  { subst rest. rewrite !batch_frame; [exact Hfirst| |].
    - apply when_given_keys. intros s. subst kip. cbn. intros [=].
    - apply when_given_keys. intros s. subst kip. cbn. intros [=]. }
  destruct (fst rest).
  2:{ exists (snd rest). split; [reflexivity | exact Hrest]. }
  unfold bind.
  pose proof (threat_level_keeps_store ip (snd rest)) as Hkeep.
  destruct (Defense.get_threat_level ip (Client true (snd rest))) as [[t|e] c2].
  2:{ cbn [snd] in *. subst c2. exists (snd rest). split; [reflexivity | exact Hrest]. }
  cbn [snd] in Hkeep. subst c2.
  destruct t as [n | [| | | |] lvl n];
    try (exists (snd rest); split; [reflexivity | exact Hrest]).
  eexists. split; [reflexivity|].
  rewrite lookup_insert_ne; [exact Hrest|]. subst kip. cbn. intros [=].
Qed.

Lemma prefix_append (p s : string) : String.prefix p (p +:+ s) = true.
Proof.
  induction p as [|a p IH]; [destruct s; reflexivity|].
  change (String.prefix (String a p) (String a (p +:+ s)) = true).
  cbn [String.prefix]. destruct (ascii_dec a a); [exact IH | contradiction].
Qed.

Lemma create_challenge_keeps (identifier : string) (r : Defense.draws)
    (d : gmap string value) (k : string) :
  String.prefix "asr:challenge:" k = false ->
  exists d',
    snd (Defense.create_challenge identifier r (Client true d)) = Client true d'
    /\ d' !! k = d !! k.
Proof.
  intros Hk. unfold Defense.create_challenge, bind.
  pose proof (threat_level_keeps_store identifier d) as Hkeep.
  destruct (Defense.get_threat_level identifier (Client true d)) as [[t|e] c2];
    cbn [snd] in Hkeep; subst c2.
  2:{ exists d. split; reflexivity. }
  destruct t as [n | [| | | |] lvl n];
    try (exists d; split; reflexivity).
  - eexists. split; [reflexivity|].
    apply lookup_insert_ne. intros <-. rewrite prefix_append in Hk. discriminate Hk.
  - eexists. split; [reflexivity|].
    apply lookup_insert_ne. intros <-. rewrite prefix_append in Hk. discriminate Hk.
Qed.

Lemma verify_challenge_keeps (challenge_id solution : string)
    (d : gmap string value) (k : string) :
  String.prefix "asr:challenge:" k = false ->
  exists d',
    snd (Defense.verify_challenge challenge_id solution (Client true d))
    = Client true d'
    /\ d' !! k = d !! k.
Proof.
  intros Hk. unfold Defense.verify_challenge.
  destruct (negb (Py.truthy challenge_id) || negb (Py.truthy solution)).
  { exists d. split; reflexivity. }
  unfold bind. rewrite get_available.
  destruct (d !! ("asr:challenge:" +:+ challenge_id)) as [v|].
  2:{ exists d. split; reflexivity. }
  assert (Hdel : base.delete ("asr:challenge:" +:+ challenge_id) d !! k = d !! k).
  { apply lookup_delete_ne. intros <-. rewrite prefix_append in Hk. discriminate Hk. }
  unfold catch, Defense.check_and_consume, bind, delete, connected.
  cbn [available data].
  destruct v; eexists; (split; [reflexivity | exact Hdel]).
Qed.

(** X27. A challenge solution that does not verify is counted as a
    failed attempt of the address and answered, with no look at the
    password, by the lock-out or a fresh challenge. *)
Theorem wrong_solution_counts_as_a_failure
    (users : list User.t) (client_ip : string)
    (user_data : LoginWithChallenge) (r : draws) (d : gmap string value) :
  Ledger.is_counter d ("asr:attempts:ip:" +:+ client_ip) ->
  Py.truthy_opt (challenge_id user_data) = true ->
  Py.truthy_opt (challenge_solution user_data) = true ->
  fst (Defense.verify_challenge (default EmptyString (challenge_id user_data))
                                (default EmptyString (challenge_solution user_data))
                                (Client true d)) = Return false ->
  let out := login verify_password hours days users client_ip user_data r
                   (Client true d) in
  Ledger.counter (data (snd out)) ("asr:attempts:ip:" +:+ client_ip)
  = Ledger.counter d ("asr:attempts:ip:" +:+ client_ip) + 1
  /\ forall rep,
       fst out = Return rep ->
       headers rep = []
       /\ (answer rep = locked_out
           \/ exists ch,
                answer rep
                = ChallengeResponse ch None
                    "Invalid challenge solution. Please try again.").
Proof.
  intros Hk Hid Hsol Hverify out.
  set (kip := "asr:attempts:ip:" +:+ client_ip) in *.
  assert (Hpre : String.prefix "asr:challenge:" kip = false) by reflexivity.
  destruct (verify_challenge_keeps (default EmptyString (challenge_id user_data))
              (default EmptyString (challenge_solution user_data)) d kip Hpre)
    as (d1 & Hd1 & Hk1).
  assert (Hout : out = rejected_solution client_ip user_data r (Client true d1)).
  { subst out. unfold login. rewrite Hid, Hsol. cbn [andb].
    unfold bind at 1.
    destruct (Defense.verify_challenge _ _ (Client true d)) as [ok c1].
    cbn [fst snd] in Hverify, Hd1. subst ok c1. reflexivity. }
  clearbody out. subst out. clear Hverify Hd1.
  assert (Hc1 : Ledger.is_counter d1 kip).
  { unfold Ledger.is_counter. rewrite Hk1. exact Hk. }
  assert (Hn1 : Ledger.counter d1 kip = Ledger.counter d kip).
  { unfold Ledger.counter. rewrite Hk1. reflexivity. }
  unfold rejected_solution, bind.
  destruct (record_failure_counts client_ip (Some (email user_data))
              (fingerprint user_data) d1 Hc1) as (d2 & Hd2 & Hk2).
  fold kip in Hk2.
  destruct (Defense.record_failure _ _ _ (Client true d1)) as [[[]|e] c2];
    cbn [snd] in Hd2; subst c2.
  2:{ cbn [fst snd data]. split; [|intros rep Hrep; discriminate Hrep].
      unfold Ledger.counter at 1. rewrite Hk2. lia. }
  destruct (create_challenge_keeps client_ip (challenge_draws r) d2 kip Hpre)
    as (d3 & Hd3 & Hk3).
  destruct (Defense.create_challenge _ _ (Client true d2)) as [[[ch|]|e] c3];
    cbn [snd] in Hd3; subst c3; unfold ret; cbn [fst snd data];
    (split; [unfold Ledger.counter at 1; rewrite Hk3, Hk2; lia|]).
  - intros rep [= <-]. split; [reflexivity|]. right. eexists. reflexivity.
  - intros rep [= <-]. split; [reflexivity|]. left. reflexivity.
  - intros rep Hrep. discriminate Hrep.
Qed.


(** [create_access_token] writes ["exp"], ["jti"] and ["type"] over what
    the caller gave: two dictionaries that agree on every other key are
    signed as the same claims. *)
Lemma create_access_token_overrides (data1 data2 : Security.claims)
    (expires_delta : option Q) (now : Q) (jti : string) :
  (forall k, k <> "exp" -> k <> "jti" -> k <> "type" -> data1 !! k = data2 !! k) ->
  Security.create_access_token hours data1 expires_delta now jti
  = Security.create_access_token hours data2 expires_delta now jti.
Proof.
  intros Hsame. unfold Security.create_access_token.
  apply map_eq. intros k.
  destruct (decide (k = "type")) as [->|Htype]; [rewrite !lookup_insert_eq; reflexivity|].
  rewrite !(lookup_insert_ne _ "type") by congruence.
  destruct (decide (k = "jti")) as [->|Hjti]; [rewrite !lookup_insert_eq; reflexivity|].
  rewrite !(lookup_insert_ne _ "jti") by congruence.
  destruct (decide (k = "exp")) as [->|Hexp]; [rewrite !lookup_insert_eq; reflexivity|].
  rewrite !(lookup_insert_ne _ "exp") by congruence.
  apply Hsame; assumption.
Qed.

(** X28. The temporary token handed out before the second factor is an
    ordinary access token: whenever the handler answers with
    [TwoFactorResponse], the claims it signed are those of the access
    token of a completed login of that account, of type ["access"] and
    with the usual lifetime instead of five minutes. *)
Theorem two_factor_temp_token_is_an_access_token
    (users : list User.t) (client_ip : string)
    (user_data : LoginWithChallenge) (r : draws) (c c' : client)
    (temp_token : Security.claims) (sent : list (string * string)) :
  login verify_password hours days users client_ip user_data r c
  = (Return (Reply (TwoFactorResponse temp_token) sent), c') ->
  exists user,
    In user users
    /\ User.email user = email user_data
    /\ temp_token
       = Security.create_access_token hours
           (<["sub" := Security.CStr (User.id user)]> ∅) None
           (clock_access r) (jti_access r)
    /\ temp_token !! "type" = Some (Security.CStr "access")
    /\ temp_token !! "exp"
       = Some (Security.CTime (clock_access r + inject_Z (hours * 3600))%Q).
Proof.
  unfold login, bind.
  destruct ((if Py.truthy_opt (challenge_id user_data)
                && Py.truthy_opt (challenge_solution user_data)
             then Defense.verify_challenge _ _ else ret true) c)
    as [[[|]|e] c1]; cbn [negb]; [| |intros [=]].
  2:{ unfold rejected_solution, bind.
      destruct (Defense.record_failure _ _ _ c1) as [[[]|e] c2]; [|intros [=]].
      destruct (Defense.create_challenge _ _ c2) as [[[ch|]|e] c3]; intros [=]. }
  destruct (Defense.get_threat_level client_ip c1) as [[t|e] c2]; [|intros [=]].
  destruct (action_required t && negb (Py.truthy_opt (challenge_solution user_data))).
  { unfold demand_challenge, bind.
    destruct (Defense.create_challenge _ _ c2) as [[[ch|]|e] c3]; intros [=]. }
  unfold authenticate, catch, check_password.
  assert (Hfail : forall out,
            match failed_login client_ip user_data r c2 with
            | (Return a, c3) => (Return a, c3)
            | (Raise _, c3) => ret (Reply server_error []) c3
            end = (Return (Reply (TwoFactorResponse temp_token) sent), c') -> out).
  { intros out. unfold failed_login, bind.
    destruct (Defense.record_failure _ _ _ c2) as [[[]|e] c3]; [|intros [=]].
    destruct (Defense.create_challenge _ _ c3) as [[ch|e] c4]; intros [=]. }
  destruct (List.filter _ users) as [|user [|other rows]] eqn:Hrows;
    [apply Hfail | | intros [=]].
  destruct (verify_password _ _); [|apply Hfail].
  unfold bind.
  destruct (Defense.record_success _ _ _ c2) as [[[]|e] c3]; [|intros [=]].
  unfold ret, issue_tokens.
  destruct (User.two_factor_enabled user); intros [= <- <- <-].
  assert (Hin : In user (List.filter
                           (fun u => String.eqb (User.email u) (email user_data)) users)).
  { rewrite Hrows. left. reflexivity. }
  apply filter_In in Hin as [Hin Hemail]. apply String.eqb_eq in Hemail.
  exists user. split; [exact Hin|]. split; [exact Hemail|].
  split; [|split; reflexivity].
  apply create_access_token_overrides. intros k Hexp Hjti Htype.
  destruct (decide (k = "sub")) as [->|Hsub]; [rewrite !lookup_insert_eq; reflexivity|].
  rewrite !(lookup_insert_ne _ "sub") by congruence.
  rewrite (lookup_insert_ne _ "type") by congruence.
  rewrite (lookup_insert_ne _ "exp") by congruence. reflexivity.
Qed.

End LoginProperties.

Section AbuseDetectorProperties.
Import AbusePrevention AbuseDetector.

(** The verdict of the pattern check in whole numbers: a file passes for
    a tier with threshold [p/q] when it has fewer than ten downloads, or
    some unique downloaders and [p * downloads <= q * unique]. *)
Lemma pattern_check_in_integers (file : File) (user_tier : UserTier) :
  fst (check_download_pattern_abuse file user_tier)
  = (download_count file <? 10)
    || negb (unique_downloaders file =? 0)
       && (Qnum (unique_downloaders_ratio user_tier) * download_count file
           <=? Z.pos (Qden (unique_downloaders_ratio user_tier))
               * unique_downloaders file).
Proof.
  unfold check_download_pattern_abuse.
  destruct (Z.ltb_spec (download_count file) 10) as [Hfew|Hmany]; [reflexivity|].
  destruct (Z.eqb_spec (unique_downloaders file) 0) as [Hzero|Hsome]; [reflexivity|].
  cbn [orb andb negb].
  set (u := unique_downloaders file) in *. set (n := download_count file) in *.
  set (t := unique_downloaders_ratio user_tier).
  assert (Hle : Qle_bool t (inject_Z u / inject_Z n)
                = (Qnum t * n <=? Z.pos (Qden t) * u)).
  { apply eq_true_iff_eq. rewrite Qle_bool_iff, Z.leb_le.
    assert (Hn : (0 < inject_Z n)%Q).
    { change 0%Q with (inject_Z 0). rewrite <- Zlt_Qlt. lia. }
    rewrite <- (Qmult_le_r _ _ _ Hn).
    assert (Hmul : (inject_Z u / inject_Z n * inject_Z n == inject_Z u)%Q).
    { field. intros Hz. rewrite Hz in Hn. discriminate Hn. }
    rewrite Hmul. unfold Qle, Qmult, inject_Z. cbn [Qnum Qden].
    rewrite Z.mul_1_r, Pos.mul_1_r, (Z.mul_comm u). reflexivity. }
  unfold Py.float_gt. fold t. rewrite Hle.
  destruct (Qnum t * n <=? Z.pos (Qden t) * u); reflexivity.
Qed.

(** X29. A paid tier is never judged more strictly than a cheaper one by
    the download pattern check: a file that passes for FREE passes for
    PRO, and one that passes for PRO passes for MAX; a file with ten or
    more downloads and no unique downloader passes for none. *)
Theorem pattern_check_is_monotone_in_the_tier (file : File) :
  (fst (check_download_pattern_abuse file FREE) = true ->
   fst (check_download_pattern_abuse file PRO) = true)
  /\ (fst (check_download_pattern_abuse file PRO) = true ->
      fst (check_download_pattern_abuse file MAX) = true)
  /\ (10 <= download_count file -> unique_downloaders file = 0 ->
      forall tier, fst (check_download_pattern_abuse file tier) = false).
Proof.
  rewrite !pattern_check_in_integers. cbn [unique_downloaders_ratio Qnum Qden].
  repeat split.
  - rewrite !orb_true_iff, !andb_true_iff, !negb_true_iff, !Z.ltb_lt, !Z.leb_le, !Z.eqb_neq.
    lia.
  - rewrite !orb_true_iff, !andb_true_iff, !negb_true_iff, !Z.ltb_lt, !Z.leb_le, !Z.eqb_neq.
    lia.
  - intros Hmany Hzero tier. rewrite pattern_check_in_integers, Hzero.
    destruct (Z.ltb_spec (download_count file) 10); [lia | reflexivity].
Qed.

End AbuseDetectorProperties.

Section LoginScenarioProperties.
Import Redis Auth LoginScenario.

(** A flagged address with fifty failures is let through to the password
    check, and the right password is paid with tokens. *)
Lemma solution_without_id_skips_the_challenge_witness :
  Failures.readable blocked_store address
  /\ Py.truthy_opt (challenge_id solution_without_id) = false
  /\ Py.truthy_opt (challenge_solution solution_without_id) = true
  /\ exists access refresh c',
       login Scenario.verify_password hours days users address
             solution_without_id some_draws (Client true blocked_store)
       = (Return (Reply (TokenResponse access refresh alice) []), c').
Proof.
  assert (Hread : Failures.readable blocked_store address).
  { repeat split; vm_compute; exact I. }
  split; [exact Hread|]. split; [reflexivity|]. split; [reflexivity|].
  destruct (solution_without_id_skips_the_challenge Scenario.verify_password
              hours days users address solution_without_id some_draws
              blocked_store Hread eq_refl eq_refl) as [Heq _].
  rewrite Heq. eexists _, _, _. vm_compute. reflexivity.
Defined.

Lemma request_without_solution_meets_the_challenge_witness :
  exists rep d',
    login Scenario.verify_password hours days users address
          (plain_request "alice@example.com" "s3cret") some_draws
          (Client true blocked_store)
    = (Return rep, Client true d')
    /\ headers rep = []
    /\ (answer rep = locked_out
        \/ exists ch script message,
             answer rep = ChallengeResponse ch script message
             /\ ch <> Defense.NoChallenge).
Proof.
  apply (request_without_solution_meets_the_challenge Scenario.verify_password
           hours days users address (plain_request "alice@example.com" "s3cret")
           some_draws blocked_store).
  - repeat split; vm_compute; exact I.
  - reflexivity.
  - left. vm_compute. discriminate.
Defined.


Lemma wrong_solution_counts_as_a_failure_witness :
  let out := login Scenario.verify_password hours days users address
                   wrong_solution some_draws (Client true asked_store) in
  Ledger.counter (data (snd out)) "asr:attempts:ip:203.0.113.7" = 4
  /\ forall rep,
       fst out = Return rep ->
       headers rep = []
       /\ (answer rep = locked_out
           \/ exists ch,
                answer rep
                = ChallengeResponse ch None
                    "Invalid challenge solution. Please try again.").
Proof.
  apply (wrong_solution_counts_as_a_failure Scenario.verify_password
           hours days users address wrong_solution some_draws asked_store).
  - vm_compute. exact I.
  - reflexivity.
  - reflexivity.
  - vm_compute. reflexivity.
Defined.

Lemma two_factor_temp_token_is_an_access_token_witness :
  exists temp_token c',
    login Scenario.verify_password hours days users address
          (plain_request "bob@example.com" "hunter2") some_draws (Client true ∅)
    = (Return (Reply (TwoFactorResponse temp_token) []), c')
    /\ temp_token !! "type" = Some (Security.CStr "access")
    /\ temp_token !! "exp"
       = Some (Security.CTime (1700000002 + inject_Z (1 * 3600))%Q).
Proof.
  assert (Hrun : exists temp_token c',
             login Scenario.verify_password hours days users address
                   (plain_request "bob@example.com" "hunter2") some_draws
                   (Client true ∅)
             = (Return (Reply (TwoFactorResponse temp_token) []), c')).
  { eexists _, _. vm_compute. reflexivity. }
  destruct Hrun as (temp_token & c' & Hrun).
  exists temp_token, c'. split; [exact Hrun|].
  destruct (two_factor_temp_token_is_an_access_token Scenario.verify_password
              hours days users address _ some_draws _ _ _ _ Hrun)
    as (user & _ & _ & _ & Htype & Hexp).
  split; [exact Htype | exact Hexp].
Defined.

End LoginScenarioProperties.

Section AbuseDetectorScenario.
Import AbusePrevention AbuseDetector.

Lemma pattern_check_is_monotone_in_the_tier_witness :
  fst (check_download_pattern_abuse (MkFile 20 6) FREE) = true
  /\ fst (check_download_pattern_abuse (MkFile 20 6) PRO) = true
  /\ fst (check_download_pattern_abuse (MkFile 20 2) PRO) = true
  /\ fst (check_download_pattern_abuse (MkFile 20 2) MAX) = true
  /\ fst (check_download_pattern_abuse (MkFile 10 0) FREE) = false.
Proof.
  assert (Hfree : fst (check_download_pattern_abuse (MkFile 20 6) FREE) = true)
    by reflexivity.
  assert (Hpro : fst (check_download_pattern_abuse (MkFile 20 2) PRO) = true)
    by reflexivity.
  destruct (pattern_check_is_monotone_in_the_tier (MkFile 20 6)) as (Hup & _ & _).
  destruct (pattern_check_is_monotone_in_the_tier (MkFile 20 2)) as (_ & Hup' & _).
  destruct (pattern_check_is_monotone_in_the_tier (MkFile 10 0)) as (_ & _ & Hnone).
  split; [exact Hfree|]. split; [exact (Hup Hfree)|].
  split; [exact Hpro|]. split; [exact (Hup' Hpro)|].
  apply Hnone; [cbn; lia | reflexivity].
Defined.

End AbuseDetectorScenario.


(** * Calls of record_success that overlap *)

Section OverlapProperties.
Import Redis Defense.

(** [record_success] is its reads followed by its [pipe.execute()]. *)
Lemma record_success_reads_then_writes
    (ip : string) (email fingerprint : option string) :
  record_success ip email fingerprint
  = bind (Overlap.plan ip email fingerprint) execute.
Proof. reflexivity. Qed.

Lemma plan_of_a_positive_count (ip : string) (d : gmap string value) (n : Z) :
  d !! ("asr:attempts:ip:" +:+ ip) = Some (VInt n) ->
  0 < n ->
  Overlap.plan ip None None (Client true d)
  = (Return [Decr ("asr:attempts:ip:" +:+ ip)], Client true d).
Proof.
  intros Hk Hn. unfold Overlap.plan. cbn [fold_left key_when_given].
  unfold bind at 1 2 3. unfold ret at 1.
  cbn [forgive]. unfold bind at 1. rewrite get_available, Hk.
  assert (Hgt : (n >? 0) = true) by (apply Z.gtb_lt; lia).
  cbn [int_of]. unfold lift, bind. rewrite Hgt. reflexivity.
Qed.

Lemma reads_of_a_positive_count
    (k : nat) (ip : string) (d : gmap string value) (n : Z) :
  d !! ("asr:attempts:ip:" +:+ ip) = Some (VInt n) ->
  0 < n ->
  Overlap.reads k ip None None (Client true d)
  = (Return (List.repeat [Decr ("asr:attempts:ip:" +:+ ip)] k), Client true d).
Proof.
  intros Hk Hn. induction k as [|k IH]; [reflexivity|].
  cbn [Overlap.reads List.repeat]. unfold bind at 1.
  rewrite (plan_of_a_positive_count ip d n Hk Hn).
  unfold bind at 1. rewrite IH. reflexivity.
Qed.

Lemma writes_of_decrements
    (k : nat) (key : string) (d : gmap string value) (m : Z) :
  d !! key = Some (VInt m) ->
  exists d',
    Overlap.writes (List.repeat [Decr key] k) (Client true d)
    = (Return tt, Client true d')
    /\ d' !! key = Some (VInt (m - Z.of_nat k)).
Proof.
  revert d m. induction k as [|k IH]; intros d m Hk.
  - exists d. split; [reflexivity|]. rewrite Hk. do 2 f_equal. lia.
  - cbn [List.repeat Overlap.writes]. unfold bind.
    rewrite execute_is_batch. unfold Commands.batch. cbn [fold_left fst snd run].
    unfold add_to. rewrite Hk. cbn [fst snd andb].
    destruct (IH (<[key := VInt (m + -1)]> d) (m + -1) (lookup_insert_eq _ _ _))
      as (d' & Hrun & Hd').
    exists d'. split; [exact Hrun|]. rewrite Hd'. do 2 f_equal. lia.
Qed.

(** X8. The zero floor of [record_success] is not atomic.  Each counter
    is read by an awaited GET and the DECR runs only with the later
    [pipe.execute()]: [k] calls for an address whose reads all come before
    the first of their writes leave a positive count [n] at [n - k], which
    is below zero as soon as [k > n]. *)
Theorem overlapping_forgiveness_passes_zero
    (k : nat) (ip : string) (d : gmap string value) (n : Z) :
  d !! ("asr:attempts:ip:" +:+ ip) = Some (VInt n) ->
  0 < n ->
  exists d',
    Overlap.overlapped k ip None None (Client true d) = (Return tt, Client true d')
    /\ d' !! ("asr:attempts:ip:" +:+ ip) = Some (VInt (n - Z.of_nat k))
    /\ (n < Z.of_nat k -> ~ Commands.nonnegative d').
Proof.
  intros Hk Hn. unfold Overlap.overlapped, bind.
  rewrite (reads_of_a_positive_count k ip d n Hk Hn).
  destruct (writes_of_decrements k ("asr:attempts:ip:" +:+ ip) d n Hk)
    as (d' & Hrun & Hd').
  exists d'. split; [exact Hrun|]. split; [exact Hd'|].
  intros Hmore Hnn. specialize (Hnn _ _ Hd'). lia.
Qed.

(** Two calls that overlap on a count of one leave it at minus one. *)
Lemma overlapping_forgiveness_passes_zero_witness :
  exists d',
    Overlap.overlapped 2 "10.0.0.1" None None
      (Client true {[ "asr:attempts:ip:10.0.0.1" := VInt 1 ]})
    = (Return tt, Client true d')
    /\ d' !! "asr:attempts:ip:10.0.0.1" = Some (VInt (-1)).
Proof.
  set (d := {[ "asr:attempts:ip:10.0.0.1" := VInt 1 ]} : gmap string value).
  assert (Hk : d !! ("asr:attempts:ip:" +:+ "10.0.0.1") = Some (VInt 1))
    by (vm_compute; reflexivity).
  destruct (overlapping_forgiveness_passes_zero 2 "10.0.0.1" d 1 Hk ltac:(lia))
    as (d' & Hrun & Hd' & _).
  exists d'. split; [exact Hrun | exact Hd'].
Defined.

End OverlapProperties.
